(** * stitch_videos.py: the stitching registry, the submission routine and
      its background worker, embedded as Rocq functions over an explicit
      world (registry, file system, configuration, threads) that return
      the trace of what they log, write, run, remove and call. *)

From Stdlib Require Import ZArith Ascii Permutation Sorted.
From Stdlib Require String.
From stdpp Require Import gmap strings list fin_maps.

Local Open Scope Z_scope.

(** ** Python string primitives used by the script *)

Module PyStr.

(** [s.startswith(p)] *)
Definition startswith (s p : string) : bool := String.prefix p s.

(** [s.endswith(p)] *)
Definition endswith (s p : string) : bool :=
  String.prefix (String.rev p) (String.rev s).

Fixpoint last_char (s : string) : option ascii :=
  match s with
  | EmptyString => None
  | String c EmptyString => Some c
  | String _ s' => last_char s'
  end.

Definition sep : ascii := "/"%char.

(** [os.path.isabs(p)] on a POSIX host *)
Definition isabs (p : string) : bool :=
  match p with
  | String c _ => bool_decide (c = sep)
  | EmptyString => false
  end.

(** [os.path.join(a, b)] on a POSIX host: an absolute [b] discards [a];
    otherwise one separator is put between them unless [a] is empty or
    already ends with one. *)
Definition join (a b : string) : string :=
  if isabs b then b
  else match last_char a with
       | None => b
       | Some c => if bool_decide (c = sep) then a +:+ b
                   else a +:+ "/" +:+ b
       end.

Fixpoint contains_char (c : ascii) (s : string) : bool :=
  match s with
  | EmptyString => false
  | String d s' => bool_decide (c = d) || contains_char c s'
  end.

(** [p] followed by [rest] is [s]: the part of [s] after the prefix [p] *)
Fixpoint strip_prefix (p s : string) : option string :=
  match p, s with
  | EmptyString, _ => Some s
  | String a p', String b s' =>
      if bool_decide (a = b) then strip_prefix p' s' else None
  | String _ _, EmptyString => None
  end.

Definition nl : ascii := "010"%char.

Definition newline : string := String nl EmptyString.

(** The lines of a text, without their terminators; text after the last
    terminator is a line too. *)
Fixpoint lines_of (s : string) : list string :=
  match s with
  | EmptyString => []
  | String c s' =>
      if bool_decide (c = nl) then EmptyString :: lines_of s'
      else match lines_of s' with
           | [] => [String c EmptyString]
           | l :: ls => String c l :: ls
           end
  end.

(** [os.path.basename(p)]: what follows the last separator. *)
Fixpoint basename (s : string) : string :=
  match s with
  | EmptyString => EmptyString
  | String c s' =>
      if contains_char sep (String c s') then basename s' else String c s'
  end.

End PyStr.

(** ** The registry of active stitching operations *)

Record Job := mkJob {
  start_time  : Z;
  folder_path : string;
  output_path : string;
  status      : string
}.

Module StitchManager.

(** [self.active_stitches]: compilation name -> job.  Every method body
    runs under [self.active_lock], so each is one atomic transition. *)
Abbreviation registry := (gmap string Job).

Definition _initialize : registry := ∅.

Definition is_stitching (active_stitches : registry)
    (compilation_name : string) : bool :=
  bool_decide (is_Some (active_stitches !! compilation_name)).

Definition _register_stitch (now : Z) (active_stitches : registry)
    (compilation_name folder_path output_path : string)
  : bool * registry :=
  if bool_decide (is_Some (active_stitches !! compilation_name))
  then (false, active_stitches)
  else (true,
        <[compilation_name :=
            {| start_time := now; folder_path := folder_path;
               output_path := output_path; status := "started" |}]>
          active_stitches).

Definition _unregister_stitch (active_stitches : registry)
    (compilation_name : string) : registry :=
  if bool_decide (is_Some (active_stitches !! compilation_name))
  then delete compilation_name active_stitches
  else active_stitches.

End StitchManager.

(** ** The operating system as the script sees it *)

(** A path names a regular file (modification time, contents) or a
    directory.  Paths are compared as strings: no normalisation, no links.
    Times are the numbers [time.time()] and [os.path.getmtime] return, read
    on an integer scale that keeps their order. *)
Inductive node :=
  | File (mtime : Z) (data : string)
  | Dir (mtime : Z).

Definition node_mtime (n : node) : Z :=
  match n with File m _ => m | Dir m => m end.

Abbreviation filesystem := (gmap string node).

Inductive LogLevel := LOG_INFO | LOG_WARNING | LOG_ERROR.

(** What [subprocess.run] observes of the child process. *)
Inductive run_outcome :=
  | Completed (returncode : Z) (stdout stderr : string)
  | LaunchError (msg : string).

(** The exceptions the script distinguishes: [subprocess.CalledProcessError]
    has a handler of its own, everything else is an [Exception]. *)
Inductive exn :=
  | CalledProcessError (returncode : Z) (stderr : string)
  | Exception (msg : string).

Definition str (e : exn) : string :=
  match e with
  | CalledProcessError rc _ =>
      "Command returned non-zero exit status" (* never printed: the script
                                                 prints [e.stderr] instead *)
  | Exception msg => msg
  end.

(** Effects visible outside the process, in program order. *)
Inductive event :=
  | EvLog (level : LogLevel) (msg : string)          (* obs.script_log *)
  | EvWrite (path : string) (data : string)          (* open(path,"w"), writes *)
  | EvRun (cmd : list string) (res : run_outcome)    (* subprocess.run *)
  | EvRemove (path : string) (err : option string)   (* os.remove, its error *)
  | EvCallback (arg : string).                       (* callback(arg) *)

(** [config_data.get("FFMpeg", {})] with its two recognised options. *)
Record FFMpegConfig := mkFFMpeg {
  Path : option string;
  Args : option (list string)
}.

(** The closure a worker thread runs: the free variables of
    [process_videos].  A callback returns ([None]) or raises an
    [Exception] of the given text ([Some msg]); a callback that raises
    outside [Exception] ([SystemExit], [KeyboardInterrupt]), which no
    handler of the script catches, is not among the callbacks modelled. *)
Record Task := mkTask {
  t_name     : string;
  t_folder   : string;
  t_output   : string;
  t_videos   : list string;
  t_cleanup  : bool;
  t_callback : option (string -> option string)
}.

(** A worker thread: started, past its [try]/[except] part and about to
    run its [finally] clause, or ended. *)
Inductive thread_state := Ready | Finalizing | Terminated.

(** The behaviour of what lies outside the script: the external tool, as a
    function of its command line and the files it finds, and the paths the
    operating system refuses to create, truncate or unlink, with its error
    text (permissions, a sharing lock, a missing parent directory). *)
Record Env := mkEnv {
  tool   : list string -> filesystem -> run_outcome * filesystem;
  denied : gmap string string
}.

Record World := mkWorld {
  active_stitches : gmap string Job;
  fs              : filesystem;
  config_data     : option FFMpegConfig;
  clock           : Z;
  threads         : list (Task * thread_state)
}.

Definition set_registry (r : gmap string Job) (w : World) : World :=
  {| active_stitches := r; fs := fs w; config_data := config_data w;
     clock := clock w; threads := threads w |}.

Definition set_fs (f : filesystem) (w : World) : World :=
  {| active_stitches := active_stitches w; fs := f;
     config_data := config_data w; clock := clock w; threads := threads w |}.

Definition set_threads (ts : list (Task * thread_state)) (w : World) : World :=
  {| active_stitches := active_stitches w; fs := fs w;
     config_data := config_data w; clock := clock w; threads := ts |}.

(** ** A state, exception and trace monad for the script's statements *)

Definition M (A : Type) : Type := World -> (A + exn) * World * list event.

Definition ret {A} (a : A) : M A := fun w => (inl a, w, []).

Definition bind {A B} (m : M A) (f : A -> M B) : M B :=
  fun w =>
    match m w with
    | (inl a, w1, e1) =>
        match f a w1 with (r, w2, e2) => (r, w2, e1 ++ e2) end
    | (inr x, w1, e1) => (inr x, w1, e1)
    end.

(** [try: m  except Exception as e: h e] *)
Definition try_except {A} (m : M A) (h : exn -> M A) : M A :=
  fun w =>
    match m w with
    | (inr x, w1, e1) =>
        match h x w1 with (r, w2, e2) => (r, w2, e1 ++ e2) end
    | ok => ok
    end.

(** [try: m  finally: f] *)
Definition try_finally {A} (m : M A) (f : M unit) : M A :=
  fun w =>
    match m w with
    | (r, w1, e1) =>
        match f w1 with
        | (inl _, w2, e2) => (r, w2, e1 ++ e2)
        | (inr x, w2, e2) => (inr x, w2, e1 ++ e2)
        end
    end.

Declare Scope py_scope.
Delimit Scope py_scope with py.
Notation "x <- m ;; k" := (bind m (fun x => k))
  (at level 100, m at next level, right associativity) : py_scope.
Notation "m ;;; k" := (bind m (fun _ => k))
  (at level 100, right associativity) : py_scope.
Local Open Scope py_scope.

Definition emit (e : event) : M unit := fun w => (inl tt, w, [e]).

Definition script_log (lvl : LogLevel) (msg : string) : M unit :=
  emit (EvLog lvl msg).

Fixpoint for_each {A} (l : list A) (body : A -> M unit) : M unit :=
  match l with
  | [] => ret tt
  | x :: l' => body x ;;; for_each l' body
  end.

Definition events_of {A} (r : (A + exn) * World * list event) : list event :=
  r.2.

Definition world_of {A} (r : (A + exn) * World * list event) : World :=
  r.1.2.

Definition value_of {A} (r : (A + exn) * World * list event) : A + exn :=
  r.1.1.

Definition prepend {A} (e1 : list event) (r : (A + exn) * World * list event)
  : (A + exn) * World * list event :=
  match r with (v, w2, e2) => (v, w2, e1 ++ e2) end.

(** ** Python's [sorted(l, key=k)] *)

(** A key function with its values' [<], the only comparison [sorted] uses.
    The key function of a caller is taken to return a key for every name:
    one that raises is not modelled. *)
Record KeyFn := mkKey {
  key_type : Type;
  key_lt   : key_type -> key_type -> bool;
  key_of   : string -> key_type
}.

(** [sorted] is stable and compares with [<] alone.  It is modelled by the
    stable insertion sort, which returns the same list whenever [<] orders
    the keys: [x] is put behind the elements smaller than it and in front
    of the first one that is not, so elements with equal keys keep their
    order. *)
Fixpoint insort {A} (lt : A -> A -> bool) (x : A) (l : list A) : list A :=
  match l with
  | [] => [x]
  | y :: l' => if lt y x then y :: insort lt x l' else x :: y :: l'
  end.

Definition sort_stable {A} (lt : A -> A -> bool) (l : list A) : list A :=
  foldr (insort lt) [] l.

(** The keys are computed once, the pairs sorted on the key alone, and the
    items read back (decorate, sort, undecorate). *)
Definition sorted {K A} (lt : K -> K -> bool) (keyed : list (K * A)) : list A :=
  map snd (sort_stable (fun a b => lt (fst a) (fst b)) keyed).

Fixpoint map_M {A B} (f : A -> M B) (l : list A) : M (list B) :=
  match l with
  | [] => ret []
  | x :: l' => y <- f x ;; ys <- map_M f l' ;; ret (y :: ys)
  end.

(** ** Paths and messages of the script *)

Definition list_file_path (folder_path compilation_name : string) : string :=
  PyStr.join folder_path ("file_list_" +:+ compilation_name +:+ ".txt").

Definition list_line (folder_path video : string) : string :=
  "file '" +:+ PyStr.join folder_path video +:+ "'" +:+ PyStr.newline.

Definition list_data (folder_path : string) (video_files : list string)
  : string :=
  foldr String.append "" (map (list_line folder_path) video_files).

Definition no_such_file (p : string) : string :=
  "[Errno 2] No such file or directory: '" +:+ p +:+ "'".

Definition is_a_directory (p : string) : string :=
  "[Errno 21] Is a directory: '" +:+ p +:+ "'".

(** The name of [p] inside [folder], when [p] is directly inside it. *)
Definition dir_prefix (folder : string) : string :=
  match PyStr.last_char folder with
  | None => ""
  | Some c => if bool_decide (c = PyStr.sep) then folder else folder +:+ "/"
  end.

Definition entry_name (folder p : string) : option string :=
  match PyStr.strip_prefix (dir_prefix folder) p with
  | Some n =>
      if bool_decide (n = "") || PyStr.contains_char PyStr.sep n
      then None else Some n
  | None => None
  end.

(** The names [os.listdir] reports: those of the paths directly inside the
    folder, in the order the file system keeps them.  Every name reported
    is that of a file or a directory; a link whose target is gone, which
    [os.listdir] reports and [os.path.getmtime] refuses, is not among the
    nodes modelled. *)
Definition dir_entries (f : filesystem) (folder : string) : list string :=
  omap (entry_name folder) (map fst (map_to_list f)).

(** The time [os.path.getmtime] reports for the file named [v] in [folder]
    ([0] stands in when there is no such file, where the call raises). *)
Definition mtime_of (f : filesystem) (folder v : string) : Z :=
  from_option node_mtime 0 (f !! PyStr.join folder v).

Section Script.

Variable env : Env.

(** *** Library calls *)

Definition os_path_exists (p : string) : M bool :=
  fun w => (inl (bool_decide (is_Some (fs w !! p))), w, []).

Definition os_path_isdir (p : string) : M bool :=
  fun w => (inl (match fs w !! p with Some (Dir _) => true | _ => false end),
            w, []).

Definition os_listdir (folder : string) : M (list string) :=
  fun w => (inl (dir_entries (fs w) folder), w, []).

Definition os_path_getmtime (p : string) : M Z :=
  fun w =>
    match fs w !! p with
    | Some n => (inl (node_mtime n), w, [])
    | None => (inr (Exception (no_such_file p)), w, [])
    end.

(** [with open(p, "w") as f: f.write(data)] *)
Definition open_write (p data : string) : M unit :=
  fun w =>
    match denied env !! p with
    | Some msg => (inr (Exception msg), w, [])
    | None =>
        match fs w !! p with
        | Some (Dir _) => (inr (Exception (is_a_directory p)), w, [])
        | _ => (inl tt, set_fs (<[p := File (clock w) data]> (fs w)) w,
                [EvWrite p data])
        end
    end.

Definition os_remove (p : string) : M unit :=
  fun w =>
    match denied env !! p with
    | Some msg => (inr (Exception msg), w, [EvRemove p (Some msg)])
    | None =>
        match fs w !! p with
        | Some (File _ _) =>
            (inl tt, set_fs (delete p (fs w)) w, [EvRemove p None])
        | Some (Dir _) =>
            (inr (Exception (is_a_directory p)), w,
             [EvRemove p (Some (is_a_directory p))])
        | None =>
            (inr (Exception (no_such_file p)), w,
             [EvRemove p (Some (no_such_file p))])
        end
    end.

(** [subprocess.run(cmd, capture_output=True, text=True, check=True)] *)
Definition subprocess_run (cmd : list string) : M unit :=
  fun w =>
    match tool env cmd (fs w) with
    | (res, fs') =>
        (match res with
         | Completed rc _ err =>
             if bool_decide (rc = 0) then inl tt
             else inr (CalledProcessError rc err)
         | LaunchError msg => inr (Exception msg)
         end, set_fs fs' w, [EvRun cmd res])
    end.

(** [callback(arg)], for a callback that returns or raises an [Exception]. *)
Definition call (cb : string -> option string) (arg : string) : M unit :=
  fun w =>
    (match cb arg with None => inl tt | Some msg => inr (Exception msg) end,
     w, [EvCallback arg]).

(** [threading.Thread(target=process_videos, daemon=True).start()]: the
    worker is added to the threads, to be run when it is scheduled.  That
    the interpreter, when it exits, stops a daemon thread where it is, is
    not modelled. *)
Definition thread_start (t : Task) : M unit :=
  fun w => (inl tt, set_threads (threads w ++ [(t, Ready)]) w, []).

(** *** StitchManager methods on the singleton *)

Definition is_stitching (compilation_name : string) : M bool :=
  fun w =>
    (inl (StitchManager.is_stitching (active_stitches w) compilation_name),
     w, []).

Definition _register_stitch (compilation_name folder_path output_path : string)
  : M bool :=
  fun w =>
    match StitchManager._register_stitch (clock w) (active_stitches w)
            compilation_name folder_path output_path with
    | (b, r) => (inl b, set_registry r w, [])
    end.

Definition _unregister_stitch (compilation_name : string) : M unit :=
  fun w =>
    (inl tt,
     set_registry
       (StitchManager._unregister_stitch (active_stitches w) compilation_name)
       w, []).

(** *** [process_videos], the worker *)

Definition ffmpeg_path_of (cfg : option FFMpegConfig) : string :=
  match cfg with
  | Some c => default "ffmpeg" (Path c)
  | None => "ffmpeg"
  end.

Definition ffmpeg_args_of (cfg : option FFMpegConfig) : list string :=
  match cfg with
  | Some c => default [] (Args c)
  | None => []
  end.

Definition ffmpeg_cmd (cfg : option FFMpegConfig)
    (list_file output_path : string) : list string :=
  [ffmpeg_path_of cfg; "-f"; "concat"; "-safe"; "0"; "-i"; list_file;
   "-c"; "copy"] ++ ffmpeg_args_of cfg ++ [output_path].

Definition get_config : M (option FFMpegConfig) :=
  fun w => (inl (config_data w), w, []).

(** The [for video in video_files] loop that removes the sources. *)
Definition remove_sources (folder_path : string) (video_files : list string)
  : M unit :=
  for_each video_files (fun video =>
    try_except
      (os_remove (PyStr.join folder_path video) ;;;
       script_log LOG_INFO ("Deleted source video: " +:+ video))
      (fun e =>
         script_log LOG_ERROR
           ("Failed to delete video " +:+ video +:+ ": " +:+ str e))).

(** The statements of the [try] block. *)
Definition process_videos_try (t : Task) : M unit :=
  let list_file := list_file_path (t_folder t) (t_name t) in
  open_write list_file (list_data (t_folder t) (t_videos t)) ;;;
  ffmpeg_config <- get_config ;;
  let ffmpeg_path := ffmpeg_path_of ffmpeg_config in
  found <- os_path_exists ffmpeg_path ;;
  if negb found then
    script_log LOG_ERROR
      ("FFmpeg path not found: " +:+ ffmpeg_path +:+
       ". Please check your config.")
  else
    subprocess_run (ffmpeg_cmd ffmpeg_config list_file (t_output t)) ;;;
    script_log LOG_INFO
      ("Successfully stitched videos into " +:+ t_output t) ;;;
    (if t_cleanup t && negb (PyStr.startswith (t_output t) "_comp_")
     then remove_sources (t_folder t) (t_videos t)
     else ret tt) ;;;
    try_except (os_remove list_file) (fun _ => ret tt) ;;;
    match t_callback t with
    | Some callback => call callback (t_output t)
    | None => ret tt
    end.

(** The two [except] clauses. *)
Definition process_videos_except (e : exn) : M unit :=
  match e with
  | CalledProcessError _ stderr =>
      script_log LOG_ERROR ("FFmpeg error: " +:+ stderr)
  | Exception _ =>
      script_log LOG_ERROR ("Error during video stitching: " +:+ str e)
  end.

Definition process_videos_guarded (t : Task) : M unit :=
  try_except (process_videos_try t) process_videos_except.

Definition process_videos (t : Task) : M unit :=
  try_finally (process_videos_guarded t) (_unregister_stitch (t_name t)).

(** *** [stitch_videos_async], the submission *)

Definition is_mp4 (f : string) : bool := PyStr.endswith f ".mp4".

(** [sorted(video_files, key=sort_lambda, reverse=False)], the default
    key being the modification time of the file. *)
Definition order_videos (folder_path : string) (sort_lambda : option KeyFn)
    (video_files : list string) : M (list string) :=
  match sort_lambda with
  | None =>
      keyed <- map_M (fun f =>
                 k <- os_path_getmtime (PyStr.join folder_path f) ;;
                 ret (k, f)) video_files ;;
      ret (sorted Z.ltb keyed)
  | Some k =>
      ret (sorted (key_lt k) (map (fun f => (key_of k f, f)) video_files))
  end.

Definition stitch_videos_async
    (compilation_name folder_path output_path : string)
    (sort_lambda : option KeyFn) (cleanup_source : bool)
    (callback : option (string -> option string)) : M (option string) :=
  active <- is_stitching compilation_name ;;
  if active then
    script_log LOG_WARNING
      ("Already stitching compilation '" +:+ compilation_name +:+
       "'. Skipping request.") ;;;
    ret None
  else
    there <- os_path_exists folder_path ;;
    isdir <- os_path_isdir folder_path ;;
    if negb there || negb isdir then
      script_log LOG_WARNING ("Invalid folder path: " +:+ folder_path) ;;;
      ret None
    else
      entries <- os_listdir folder_path ;;
      let video_files := List.filter is_mp4 entries in
      match video_files with
      | [] =>
          script_log LOG_WARNING "No video files found to stitch." ;;;
          ret None
      | _ :: _ =>
          registered <-
            _register_stitch compilation_name folder_path output_path ;;
          if negb registered then ret None
          else
            video_files <- order_videos folder_path sort_lambda video_files ;;
            script_log LOG_INFO
              ("Stitching videos for '" +:+ compilation_name +:+ "':") ;;;
            for_each video_files
              (fun video => script_log LOG_INFO ("- " +:+ video)) ;;;
            thread_start
              (mkTask compilation_name folder_path output_path video_files
                 cleanup_source callback) ;;;
            ret (Some output_path)
      end.

End Script.

(** ** The outcome of a submission, check by check *)

(** [os.path.exists(folder) and os.path.isdir(folder)] *)
Definition folder_ok (f : filesystem) (folder : string) : bool :=
  bool_decide (is_Some (f !! folder))
  && match f !! folder with Some (Dir _) => true | _ => false end.

(** The [.mp4] names of the folder, as listed. *)
Definition snapshot_of (f : filesystem) (folder : string) : list string :=
  List.filter is_mp4 (dir_entries f folder).

(** The world once [_register_stitch] has inserted the job. *)
Definition registered (name folder output : string) (w : World) : World :=
  set_registry
    (<[name := mkJob (clock w) folder output "started"]> (active_stitches w)) w.

Definition launch_log (name : string) (ordered : list string) : list event :=
  EvLog LOG_INFO ("Stitching videos for '" +:+ name +:+ "':")
  :: map (fun video => EvLog LOG_INFO ("- " +:+ video)) ordered.

(** ** Submissions and workers as interleaved threads *)

(** The arguments of one call of [stitch_videos_async]. *)
Record Request := mkRequest {
  r_name     : string;
  r_folder   : string;
  r_output   : string;
  r_sort     : option KeyFn;
  r_cleanup  : bool;
  r_callback : option (string -> option string)
}.

(** Where a submitting thread stands.  The points between which another
    thread may run are those around the two calls that take
    [active_lock]: the membership test and the registration. *)
Inductive submit_pc :=
  | AtCheck
  | AtValidate
  | AtRegister (video_files : list string)
  | AtLaunch (video_files : list string)
  | Returned (result : option string)
  | Raised (e : exn).

Definition phase_check (r : Request) : M submit_pc :=
  active <- is_stitching (r_name r) ;;
  if active then
    script_log LOG_WARNING
      ("Already stitching compilation '" +:+ r_name r +:+
       "'. Skipping request.") ;;;
    ret (Returned None)
  else ret AtValidate.

Definition phase_validate (r : Request) : M submit_pc :=
  there <- os_path_exists (r_folder r) ;;
  isdir <- os_path_isdir (r_folder r) ;;
  if negb there || negb isdir then
    script_log LOG_WARNING ("Invalid folder path: " +:+ r_folder r) ;;;
    ret (Returned None)
  else
    entries <- os_listdir (r_folder r) ;;
    match List.filter is_mp4 entries with
    | [] =>
        script_log LOG_WARNING "No video files found to stitch." ;;;
        ret (Returned None)
    | v :: vs => ret (AtRegister (v :: vs))
    end.

Definition phase_register (r : Request) (video_files : list string)
  : M submit_pc :=
  registered <- _register_stitch (r_name r) (r_folder r) (r_output r) ;;
  if negb registered then ret (Returned None)
  else ret (AtLaunch video_files).

Definition phase_launch (r : Request) (video_files : list string)
  : M submit_pc :=
  video_files <- order_videos (r_folder r) (r_sort r) video_files ;;
  script_log LOG_INFO ("Stitching videos for '" +:+ r_name r +:+ "':") ;;;
  for_each video_files (fun video => script_log LOG_INFO ("- " +:+ video)) ;;;
  thread_start
    (mkTask (r_name r) (r_folder r) (r_output r) video_files
       (r_cleanup r) (r_callback r)) ;;;
  ret (Returned (Some (r_output r))).

Definition submit_phase (r : Request) (pc : submit_pc) : M submit_pc :=
  match pc with
  | AtCheck => phase_check r
  | AtValidate => phase_validate r
  | AtRegister vs => phase_register r vs
  | AtLaunch vs => phase_launch r vs
  | Returned _ | Raised _ => ret pc
  end.

Definition result_of (pc : submit_pc) : option string :=
  match pc with Returned x => x | _ => None end.

(** A submission that no other thread interrupts. *)
Definition run_phases (r : Request) : M (option string) :=
  pc1 <- phase_check r ;;
  pc2 <- submit_phase r pc1 ;;
  pc3 <- submit_phase r pc2 ;;
  pc4 <- submit_phase r pc3 ;;
  ret (result_of pc4).

Definition pc_of (v : submit_pc + exn) : submit_pc :=
  match v with inl pc => pc | inr e => Raised e end.

Record System := mkSystem {
  sys_world : World;
  sys_subs  : list (Request * submit_pc);
  sys_trace : list event
}.

Inductive tid := Sub (i : nat) | Wrk (j : nat).

(** One scheduling decision: the chosen thread runs to its next point. A
    worker first runs its [try]/[except] part, then its [finally]. *)
Definition step (env : Env) (t : tid) (s : System) : System :=
  match t with
  | Sub i =>
      match sys_subs s !! i with
      | Some (r, pc) =>
          match submit_phase r pc (sys_world s) with
          | (v, w', ev) =>
              mkSystem w' (<[i := (r, pc_of v)]> (sys_subs s))
                (sys_trace s ++ ev)
          end
      | None => s
      end
  | Wrk j =>
      match threads (sys_world s) !! j with
      | Some (t, Ready) =>
          match process_videos_guarded env t (sys_world s) with
          | (_, w', ev) =>
              mkSystem (set_threads (<[j := (t, Finalizing)]> (threads w')) w')
                (sys_subs s) (sys_trace s ++ ev)
          end
      | Some (t, Finalizing) =>
          match _unregister_stitch (t_name t) (sys_world s) with
          | (_, w', ev) =>
              mkSystem (set_threads (<[j := (t, Terminated)]> (threads w')) w')
                (sys_subs s) (sys_trace s ++ ev)
          end
      | _ => s
      end
  end.

Definition run (env : Env) (sched : list tid) (s : System) : System :=
  foldl (fun s t => step env t s) s sched.

Definition start (w : World) (rs : list Request) : System :=
  mkSystem w (map (fun r => (r, AtCheck)) rs) [].

Definition is_accepted (x : Request * submit_pc) : bool :=
  match snd x with Returned (Some _) => true | _ => false end.




Definition count {A} (p : A -> bool) (l : list A) : nat :=
  length (List.filter p l).

Definition launched (r : Request) (ordered : list string) (w : World) : World :=
  set_threads
    (threads w ++
     [(mkTask (r_name r) (r_folder r) (r_output r) ordered (r_cleanup r)
         (r_callback r), Ready)]) w.

(** A submission that holds the registry entry and has no worker yet, or
    never will: it registered and has not started its worker. *)
Definition is_holder (x : Request * submit_pc) : bool :=
  match snd x with AtLaunch _ | Raised _ => true | _ => false end.


Definition is_live (x : Task * thread_state) : bool :=
  match snd x with Terminated => false | _ => true end.

(** What one phase of a submission does to its thread and to the world. *)
Inductive sub_trans (r : Request) (w : World)
  : submit_pc -> submit_pc -> World -> Prop :=
  | st_check_busy :
      StitchManager.is_stitching (active_stitches w) (r_name r) = true ->
      sub_trans r w AtCheck (Returned None) w
  | st_check_free :
      StitchManager.is_stitching (active_stitches w) (r_name r) = false ->
      sub_trans r w AtCheck AtValidate w
  | st_validate_bad :
      folder_ok (fs w) (r_folder r) = false
      \/ snapshot_of (fs w) (r_folder r) = [] ->
      sub_trans r w AtValidate (Returned None) w
  | st_validate_ok vs :
      folder_ok (fs w) (r_folder r) = true ->
      snapshot_of (fs w) (r_folder r) = vs ->
      sub_trans r w AtValidate (AtRegister vs) w
  | st_register_busy vs :
      StitchManager.is_stitching (active_stitches w) (r_name r) = true ->
      sub_trans r w (AtRegister vs) (Returned None) w
  | st_register_free vs :
      StitchManager.is_stitching (active_stitches w) (r_name r) = false ->
      sub_trans r w (AtRegister vs) (AtLaunch vs)
        (registered (r_name r) (r_folder r) (r_output r) w)
  | st_launch_ok vs ordered :
      Permutation vs ordered ->
      sub_trans r w (AtLaunch vs) (Returned (Some (r_output r)))
        (launched r ordered w)
  | st_launch_raise vs e :
      ~ Forall (fun v => is_Some (fs w !! PyStr.join (r_folder r) v)) vs ->
      sub_trans r w (AtLaunch vs) (Raised e) w
  | st_returned x : sub_trans r w (Returned x) (Returned x) w
  | st_raised e : sub_trans r w (Raised e) (Raised e) w.

Definition b2n (b : bool) : nat := if b then 1%nat else 0%nat.

(** The entry of the name in the registry has one owner at a time: a
    submission between its registration and the start of its worker (or
    one that raised there), or a worker that has not ended. *)
Record owned (n : string) (s : System) : Prop := mkOwned {
  own_names : Forall (fun x => r_name (fst x) = n) (sys_subs s);
  own_tasks : Forall (fun x => t_name (fst x) = n) (threads (sys_world s));
  own_one :
    (count is_holder (sys_subs s) + count is_live (threads (sys_world s))
     = b2n (StitchManager.is_stitching (active_stitches (sys_world s)) n))%nat;
  own_accepted :
    count is_accepted (sys_subs s) = length (threads (sys_world s))
}.



(** ** What a trace shows *)

Definition writes (evs : list event) : list (string * string) :=
  omap (fun e => match e with EvWrite p d => Some (p, d) | _ => None end) evs.

(** [open(p, "w")] succeeds: [p] is not refused and is no directory. *)
Definition writable (env : Env) (f : filesystem) (p : string) : bool :=
  bool_decide (denied env !! p = None)
  && negb (match f !! p with Some (Dir _) => true | _ => false end).

Definition callbacks (evs : list event) : list string :=
  omap (fun e => match e with EvCallback a => Some a | _ => None end) evs.

Definition removals (evs : list event) : list string :=
  omap (fun e => match e with EvRemove p _ => Some p | _ => None end) evs.

Definition tool_runs (evs : list event) : list run_outcome :=
  omap (fun e => match e with EvRun _ r => Some r | _ => None end) evs.

Definition exit_zero (r : run_outcome) : bool :=
  match r with Completed rc _ _ => bool_decide (rc = 0) | _ => false end.

(** The tool was invoked and exited with status zero. *)
Definition tool_succeeded (evs : list event) : bool :=
  existsb exit_zero (tool_runs evs).

(** The two events of one turn of the removal loop. *)
Definition removal_turn (folder_path video : string) (err : option string)
  : list event :=
  [EvRemove (PyStr.join folder_path video) err;
   match err with
   | None => EvLog LOG_INFO ("Deleted source video: " +:+ video)
   | Some msg =>
       EvLog LOG_ERROR
         ("Failed to delete video " +:+ video +:+ ": " +:+ msg)
   end].

(** ** The ways through the worker *)

(** What a world keeps when only its files change. *)
Definition same_but_fs (w w' : World) : Prop :=
  active_stitches w' = active_stitches w /\ threads w' = threads w /\
  config_data w' = config_data w /\ clock w' = clock w.

Definition is_file (f : filesystem) (p : string) : Prop :=
  exists m d, f !! p = Some (File m d).

Definition written (t : Task) (w : World) : World :=
  set_fs (<[list_file_path (t_folder t) (t_name t) :=
              File (clock w) (list_data (t_folder t) (t_videos t))]> (fs w)) w.

Definition command (t : Task) (w : World) : list string :=
  ffmpeg_cmd (config_data w) (list_file_path (t_folder t) (t_name t))
    (t_output t).

Definition not_found_log (w : World) : event :=
  EvLog LOG_ERROR
    ("FFmpeg path not found: " +:+ ffmpeg_path_of (config_data w) +:+
     ". Please check your config.").

Definition failure_log (res : run_outcome) : event :=
  match res with
  | Completed _ _ err => EvLog LOG_ERROR ("FFmpeg error: " +:+ err)
  | LaunchError msg =>
      EvLog LOG_ERROR ("Error during video stitching: " +:+ msg)
  end.

Definition callback_events (t : Task) : list event :=
  match t_callback t with
  | None => []
  | Some cb =>
      EvCallback (t_output t) ::
      match cb (t_output t) with
      | None => []
      | Some msg =>
          [EvLog LOG_ERROR ("Error during video stitching: " +:+ msg)]
      end
  end.

Definition deletes_sources (t : Task) : bool :=
  t_cleanup t && negb (PyStr.startswith (t_output t) "_comp_").

Section WorkerPaths.

Variable env : Env.

(** A refused path fails with the text the operating system gives. *)
Definition refused (folder v : string) (err : option string) : Prop :=
  forall msg, denied env !! PyStr.join folder v = Some msg -> err = Some msg.

(** The source clean-up between worlds [w2] and [w3]. *)
Definition cleaned (t : Task) (w2 w3 : World) (evs : list event) : Prop :=
  if deletes_sources t then
    exists errs,
      evs = concat (zip_with (removal_turn (t_folder t)) (t_videos t) errs)
      /\ Forall2 (refused (t_folder t)) (t_videos t) errs
      /\ same_but_fs w2 w3
      /\ (forall q, fs w3 !! q = None \/ fs w3 !! q = fs w2 !! q)
      /\ (forall q, q ∉ map (PyStr.join (t_folder t)) (t_videos t) ->
                    fs w3 !! q = fs w2 !! q)
      /\ (forall v, v ∈ t_videos t ->
            denied env !! PyStr.join (t_folder t) v = None ->
            is_file (fs w2) (PyStr.join (t_folder t) v) ->
            fs w3 !! PyStr.join (t_folder t) v = None)
  else w3 = w2 /\ evs = [].

Inductive worker_path (t : Task) (w : World)
  : World -> list event -> Prop :=
  | path_write_failed msg :
      open_write env (list_file_path (t_folder t) (t_name t))
        (list_data (t_folder t) (t_videos t)) w
      = (inr (Exception msg), w, []) ->
      worker_path t w w
        [EvLog LOG_ERROR ("Error during video stitching: " +:+ msg)]
  | path_tool_not_found :
      open_write env (list_file_path (t_folder t) (t_name t))
        (list_data (t_folder t) (t_videos t)) w
      = (inl tt, written t w,
         [EvWrite (list_file_path (t_folder t) (t_name t))
            (list_data (t_folder t) (t_videos t))]) ->
      fs (written t w) !! ffmpeg_path_of (config_data w) = None ->
      worker_path t w (written t w)
        [EvWrite (list_file_path (t_folder t) (t_name t))
           (list_data (t_folder t) (t_videos t));
         not_found_log w]
  | path_tool_failed res fs2 :
      open_write env (list_file_path (t_folder t) (t_name t))
        (list_data (t_folder t) (t_videos t)) w
      = (inl tt, written t w,
         [EvWrite (list_file_path (t_folder t) (t_name t))
            (list_data (t_folder t) (t_videos t))]) ->
      is_Some (fs (written t w) !! ffmpeg_path_of (config_data w)) ->
      tool env (command t w) (fs (written t w)) = (res, fs2) ->
      exit_zero res = false ->
      worker_path t w (set_fs fs2 (written t w))
        [EvWrite (list_file_path (t_folder t) (t_name t))
           (list_data (t_folder t) (t_videos t));
         EvRun (command t w) res;
         failure_log res]
  | path_tool_ok out err fs2 w3 evs_c w4 rm_err :
      open_write env (list_file_path (t_folder t) (t_name t))
        (list_data (t_folder t) (t_videos t)) w
      = (inl tt, written t w,
         [EvWrite (list_file_path (t_folder t) (t_name t))
            (list_data (t_folder t) (t_videos t))]) ->
      is_Some (fs (written t w) !! ffmpeg_path_of (config_data w)) ->
      tool env (command t w) (fs (written t w))
      = (Completed 0 out err, fs2) ->
      cleaned t (set_fs fs2 (written t w)) w3 evs_c ->
      (w4 = w3 \/
       w4 = set_fs (delete (list_file_path (t_folder t) (t_name t)) (fs w3))
              w3) ->
      worker_path t w w4
        ([EvWrite (list_file_path (t_folder t) (t_name t))
            (list_data (t_folder t) (t_videos t));
          EvRun (command t w) (Completed 0 out err);
          EvLog LOG_INFO
            ("Successfully stitched videos into " +:+ t_output t)]
         ++ evs_c
         ++ [EvRemove (list_file_path (t_folder t) (t_name t)) rm_err]
         ++ callback_events t).

End WorkerPaths.

(** ** The singleton *)

(** [StitchManager._instance] and the objects [__new__] has allocated so
    far, each with its [active_stitches]; an object is named by its
    address, its place in the order of allocation. *)
Record ClassState := mkClass {
  _instance : option nat;
  objects   : list (gmap string Job)
}.

(** The class as the module defines it: no instance yet. *)
Definition class_init : ClassState := mkClass None [].

(** [StitchManager()]: the body of [__new__], run under [cls._lock].  The
    class has no [__init__], so an object is initialised once, here. *)
Definition __new__ (c : ClassState) : nat * ClassState :=
  match _instance c with
  | None =>
      (length (objects c),
       mkClass (Some (length (objects c)))
         (objects c ++ [StitchManager._initialize]))
  | Some a => (a, c)
  end.

(** A call of one of the three methods, with its arguments. *)
Inductive method :=
  | IsStitching (compilation_name : string)
  | Register (now : Z) (compilation_name folder_path output_path : string)
  | Unregister (compilation_name : string).

(** What the method answers ([None] for [_unregister_stitch], which returns
    nothing) and the registry it leaves. *)
Definition apply_method (m : method) (r : gmap string Job)
  : option bool * gmap string Job :=
  match m with
  | IsStitching n => (Some (StitchManager.is_stitching r n), r)
  | Register now n f o =>
      match StitchManager._register_stitch now r n f o with
      | (b, r') => (Some b, r')
      end
  | Unregister n => (None, StitchManager._unregister_stitch r n)
  end.

(** [StitchManager().m(...)]: construct, then call the method on the object
    returned ([None] when the address names no object). *)
Definition construct_and_call (m : method) (c : ClassState)
  : option (option bool) * ClassState :=
  match __new__ c with
  | (a, c1) =>
      match objects c1 !! a with
      | Some r =>
          match apply_method m r with
          | (ans, r') =>
              (Some ans, mkClass (_instance c1) (<[a := r']> (objects c1)))
          end
      | None => (None, c1)
      end
  end.

(** A sequence of such calls: the answers, and the class after. *)
Fixpoint construct_and_call_all (ms : list method) (c : ClassState)
  : list (option (option bool)) * ClassState :=
  match ms with
  | [] => ([], c)
  | m :: ms' =>
      match construct_and_call m c with
      | (ans, c1) =>
          match construct_and_call_all ms' c1 with
          | (anss, c2) => (ans :: anss, c2)
          end
      end
  end.

(** The same calls made on one registry. *)
Fixpoint apply_all (ms : list method) (r : gmap string Job)
  : list (option bool) * gmap string Job :=
  match ms with
  | [] => ([], r)
  | m :: ms' =>
      match apply_method m r with
      | (ans, r1) =>
          match apply_all ms' r1 with
          | (anss, r2) => (ans :: anss, r2)
          end
      end
  end.

(** ** Loading the configuration and the command line *)

(** What [load_config] meets outside the script: the directory of the
    script file, the paths the operating system refuses to open for
    reading, with its error text, what [json.load] makes of a text (the
    document, kept as the worker reads it, by its [FFMpeg] section, or the
    message of the error it raises) and how a document prints in an
    f-string. *)
Record Host := mkHost {
  script_dir : string;
  unreadable : gmap string string;
  json_load  : string -> option FFMpegConfig + string;
  repr       : option FFMpegConfig -> string
}.

Definition set_config (c : option FFMpegConfig) (w : World) : World :=
  {| active_stitches := active_stitches w; fs := fs w; config_data := c;
     clock := clock w; threads := threads w |}.

(** What [main] leaves on standard output and, when it called [sys.exit],
    the exit status. *)
Record MainResult := mkMain {
  printed     : list string;
  exit_status : option Z
}.

(** [if result:] on a value that is [None] or a string. *)
Definition truthy (result : option string) : bool :=
  match result with
  | Some (String _ _) => true
  | _ => false
  end.

Section CommandLine.

Variable host : Host.

(** [with open(p, "r") as f: f.read()] *)
Definition open_read (p : string) : M string :=
  fun w =>
    match unreadable host !! p with
    | Some msg => (inr (Exception msg), w, [])
    | None =>
        match fs w !! p with
        | Some (File _ data) => (inl data, w, [])
        | Some (Dir _) => (inr (Exception (is_a_directory p)), w, [])
        | None => (inr (Exception (no_such_file p)), w, [])
        end
    end.

Definition json_load_text (text : string) : M (option FFMpegConfig) :=
  fun w =>
    match json_load host text with
    | inl doc => (inl doc, w, [])
    | inr msg => (inr (Exception msg), w, [])
    end.

(** [config_data = c], on the global. *)
Definition assign_config (c : option FFMpegConfig) : M unit :=
  fun w => (inl tt, set_config c w, []).

Definition load_config (config : option (option FFMpegConfig)) : M unit :=
  match config with
  | Some c => assign_config c
  | None =>
      let config_path := PyStr.join (script_dir host) "config.json" in
      there <- os_path_exists config_path ;;
      if there then
        try_except
          (text <- open_read config_path ;;
           doc <- json_load_text text ;;
           assign_config doc ;;;
           script_log LOG_INFO ("Configuration loaded: " +:+ repr host doc))
          (fun e =>
             script_log LOG_ERROR ("Failed to load config.json: " +:+ str e))
      else
        script_log LOG_WARNING "config.json not found. Using default settings."
  end.

(** [main], given [sys.argv]. *)
Definition main (argv : list string) : M MainResult :=
  if (length argv <? 2)%nat then
    ret (mkMain ["Usage: python stitch_videos.py <folder_path>"] (Some 1))
  else
    let folder_path := nth 1 argv "" in
    let output_path := nth 1 argv "" in
    result <-
      stitch_videos_async "test" folder_path output_path None true None ;;
    if truthy result then
      ret (mkMain
             ["Stitching videos into " +:+ default "" result;
              "Process running in background. Check logs for completion."]
             None)
    else ret (mkMain ["Failed to start video stitching."] None).

End CommandLine.

(** The document of the configuration file, when the file is there, can be
    read and decodes. *)
Definition config_file_doc (host : Host) (f : filesystem)
  : option (option FFMpegConfig) :=
  let p := PyStr.join (script_dir host) "config.json" in
  match unreadable host !! p, f !! p with
  | None, Some (File _ data) =>
      match json_load host data with inl doc => Some doc | inr _ => None end
  | _, _ => None
  end.

Definition is_log (e : event) : bool :=
  match e with EvLog _ _ => true | _ => false end.

(** The three checks of a submission before the registration. *)
Definition admissible (w : World) (name folder : string) : bool :=
  negb (StitchManager.is_stitching (active_stitches w) name)
  && folder_ok (fs w) folder
  && match snapshot_of (fs w) folder with [] => false | _ :: _ => true end.

(** ** The worker, test by test *)

(** The command lines handed to [subprocess.run], with what came of them. *)
Definition commands (evs : list event) : list (list string * run_outcome) :=
  omap (fun e => match e with EvRun c r => Some (c, r) | _ => None end) evs.

(** The worker gets as far as running the tool: the list file can be
    written and the tool path exists once it is. *)
Definition reaches_tool (env : Env) (t : Task) (w : World) : bool :=
  writable env (fs w) (list_file_path (t_folder t) (t_name t))
  && bool_decide (is_Some (fs (written t w) !! ffmpeg_path_of (config_data w))).

(** The files as the worker finds them after the tool, or as they were
    when it does not get to run the tool. *)
Definition files_after_tool (env : Env) (t : Task) (w : World) : filesystem :=
  if reaches_tool env t w
  then snd (tool env (command t w) (fs (written t w)))
  else fs w.

(** The error text [open(p, "w")] gives for a path it refuses. *)
Definition write_error (env : Env) (p : string) : string :=
  match denied env !! p with
  | Some msg => msg
  | None => is_a_directory p
  end.

(** The error text [os.remove] gives for a path, if it refuses it. *)
Definition remove_error (env : Env) (f : filesystem) (p : string)
  : option string :=
  match denied env !! p with
  | Some msg => Some msg
  | None =>
      match f !! p with
      | Some (File _ _) => None
      | Some (Dir _) => Some (is_a_directory p)
      | None => Some (no_such_file p)
      end
  end.

(** The world after [os.remove(p)], whether it removed the file or raised. *)
Definition removed (env : Env) (p : string) (w : World) : World :=
  match remove_error env (fs w) p with
  | Some _ => w
  | None => set_fs (delete p (fs w)) w
  end.

(** The world once the [finally] clause has released the name. *)
Definition released (t : Task) (w0 w : World) : World :=
  set_registry (delete (t_name t) (active_stitches w0)) w.

(** ** Sample runs *)

Definition sample_fs : filesystem :=
  <["/clips" := Dir 0]>
  (<["/clips/b.mp4" := File 2 "B"]>
  (<["/clips/a.mp4" := File 1 "A"]>
  (<["/clips/notes.txt" := File 3 "n"]>
  (<["/usr/bin/ffmpeg" := File 0 "elf"]> ∅)))).

Definition sample_world : World :=
  mkWorld ∅ sample_fs (Some (mkFFMpeg (Some "/usr/bin/ffmpeg") None)) 10 [].

(** A tool that succeeds and writes its last argument. *)
Definition tool_ok (cmd : list string) (f : filesystem)
  : run_outcome * filesystem :=
  (Completed 0 "" "", <[List.last cmd "" := File 11 "video"]> f).

Definition env_ok : Env := mkEnv tool_ok ∅.

Definition sample_task : Task :=
  mkTask "demo" "/clips" "/out/demo.mp4" ["a.mp4"; "b.mp4"] true None.

(** The sample folder with a third, newest clip. *)
Definition three_world : World :=
  mkWorld ∅ (<["/clips/c.mp4" := File 5 "C"]> sample_fs)
    (Some (mkFFMpeg (Some "/usr/bin/ffmpeg") None)) 10 [].

(** The operating system refuses to unlink [a.mp4]. *)
Definition env_locked : Env :=
  mkEnv tool_ok {["/clips/a.mp4" := "[Errno 13] Permission denied: '/clips/a.mp4'"]}.

(** A folder named relative to the working directory. *)
Definition relative_world : World :=
  mkWorld ∅
    (<["clips" := Dir 0]>
     (<["clips/a.mp4" := File 1 "A"]>
     (<["/usr/bin/ffmpeg" := File 0 "elf"]> ∅)))
    (Some (mkFFMpeg (Some "/usr/bin/ffmpeg") None)) 10 [].

(** The default configuration: a bare tool name, found nowhere. *)
Definition world_default_cfg : World :=
  mkWorld ∅ sample_fs None 10 [].

Definition demo_request : Request :=
  mkRequest "demo" "/clips" "/out/demo.mp4" None true None.


(** The operating system refuses to create the list file. *)
Definition env_no_list : Env :=
  mkEnv tool_ok
    {["/clips/file_list_demo.txt" :=
        "[Errno 13] Permission denied: '/clips/file_list_demo.txt'"]}.

(** A tool that exits with status 1 and touches nothing. *)
Definition tool_fails (cmd : list string) (f : filesystem)
  : run_outcome * filesystem :=
  (Completed 1 "" "No such filter", f).

Definition env_fail : Env := mkEnv tool_fails ∅.


(** A job with a callback that returns. *)
Definition notifying_task : Task :=
  mkTask "demo" "/clips" "/out/demo.mp4" ["a.mp4"; "b.mp4"] true
    (Some (fun _ => None)).

(** A job whose output path begins with [_comp_]. *)
Definition protected_task : Task :=
  mkTask "demo" "/clips" "_comp_demo.mp4" ["a.mp4"; "b.mp4"] true None.

(** A folder where two clips have one and the same modification time. *)
Definition tied_world : World :=
  mkWorld ∅
    (<["/clips" := Dir 0]>
     (<["/clips/z.mp4" := File 7 "Z"]>
     (<["/clips/old.mp4" := File 1 "O"]>
     (<["/clips/m.mp4" := File 7 "M"]>
     (<["/usr/bin/ffmpeg" := File 0 "elf"]> ∅)))))
    (Some (mkFFMpeg (Some "/usr/bin/ffmpeg") None)) 10 [].

(** The second of three submissions lists the folder, the first runs to
    its end with its worker, and the second then registers and orders. *)
Definition vanishing_schedule : list tid :=
  [Sub 1; Sub 1; Sub 0; Sub 0; Sub 0; Sub 0; Wrk 0; Wrk 0; Sub 1; Sub 1].

(** * Properties *)

Section MonadFacts.

Context {A B : Type}.

Lemma bind_ok (m : M A) (f : A -> M B) w a w1 e1 :
  m w = (inl a, w1, e1) -> bind m f w = prepend e1 (f a w1).
Proof.
  intros H. unfold bind, prepend. rewrite H. reflexivity.
Qed.

Lemma bind_raise (m : M A) (f : A -> M B) w x w1 e1 :
  m w = (inr x, w1, e1) -> bind m f w = (inr x, w1, e1).
Proof. intros H. unfold bind. rewrite H. reflexivity. Qed.

Lemma try_except_ok (m : M A) (h : exn -> M A) w a w1 e1 :
  m w = (inl a, w1, e1) -> try_except m h w = (inl a, w1, e1).
Proof. intros H. unfold try_except. rewrite H. reflexivity. Qed.

Lemma try_except_raise (m : M A) (h : exn -> M A) w x w1 e1 :
  m w = (inr x, w1, e1) -> try_except m h w = prepend e1 (h x w1).
Proof. intros H. unfold try_except, prepend. rewrite H. reflexivity. Qed.

End MonadFacts.

Lemma callbacks_app l1 l2 : callbacks (l1 ++ l2) = callbacks l1 ++ callbacks l2.
Proof. apply omap_app. Qed.

Lemma removals_app l1 l2 : removals (l1 ++ l2) = removals l1 ++ removals l2.
Proof. apply omap_app. Qed.

Lemma tool_runs_app l1 l2 : tool_runs (l1 ++ l2) = tool_runs l1 ++ tool_runs l2.
Proof. apply omap_app. Qed.

(** ** The worker *)

Section Worker.

Variable env : Env.

Lemma same_but_fs_refl w : same_but_fs w w.
Proof. repeat split. Qed.

(** [os.remove]: its result, its trace and its effect on the files. *)
Lemma os_remove_cases p w :
  (exists msg, os_remove env p w
               = (inr (Exception msg), w, [EvRemove p (Some msg)])
               /\ (denied env !! p = Some msg
                   \/ denied env !! p = None /\ ~ is_file (fs w) p))
  \/ (os_remove env p w
        = (inl tt, set_fs (delete p (fs w)) w, [EvRemove p None])
      /\ denied env !! p = None /\ is_file (fs w) p).
Proof.
  unfold os_remove, is_file.
  destruct (denied env !! p) as [msg|] eqn:Hd.
  - left. exists msg. split; [reflexivity | left; reflexivity].
  - destruct (fs w !! p) as [[m d|m]|] eqn:Hf.
    + right. eauto.
    + left. eexists. split; [reflexivity|]. right. split; [reflexivity|].
      intros (m' & d' & H). discriminate.
    + left. eexists. split; [reflexivity|]. right. split; [reflexivity|].
      intros (m' & d' & H). discriminate.
Qed.

(** One turn of the loop never raises and leaves the two events of
    [removal_turn]. *)
Lemma remove_turn_spec folder video w :
  let turn :=
    try_except
      (os_remove env (PyStr.join folder video) ;;;
       script_log LOG_INFO ("Deleted source video: " +:+ video))
      (fun e =>
         script_log LOG_ERROR
           ("Failed to delete video " +:+ video +:+ ": " +:+ str e)) in
  let p := PyStr.join folder video in
  (exists msg, turn w = (inl tt, w, removal_turn folder video (Some msg))
               /\ (denied env !! p = Some msg
                   \/ denied env !! p = None /\ ~ is_file (fs w) p))
  \/ (turn w = (inl tt, set_fs (delete p (fs w)) w,
                removal_turn folder video None)
      /\ denied env !! p = None /\ is_file (fs w) p).
Proof.
  cbv zeta. unfold try_except, bind.
  destruct (os_remove_cases (PyStr.join folder video) w)
    as [(msg & -> & Hn) | (-> & Hd & Hf)].
  - left. exists msg. split; [reflexivity | exact Hn].
  - right. split; [reflexivity | split; assumption].
Qed.

Lemma remove_sources_spec folder vids : forall w,
  exists errs w',
    remove_sources env folder vids w
    = (inl tt, w', concat (zip_with (removal_turn folder) vids errs))
    /\ Forall2 (refused env folder) vids errs
    /\ same_but_fs w w'
    /\ (forall q, fs w' !! q = None \/ fs w' !! q = fs w !! q)
    /\ (forall q, q ∉ map (PyStr.join folder) vids -> fs w' !! q = fs w !! q)
    /\ (forall v, v ∈ vids ->
          denied env !! PyStr.join folder v = None ->
          is_file (fs w) (PyStr.join folder v) ->
          fs w' !! PyStr.join folder v = None).
Proof.
  induction vids as [|v vids IH]; intros w.
  - exists [], w. simpl.
    split; [reflexivity|]. split; [constructor|].
    split; [apply same_but_fs_refl|]. split; [auto|]. split; [auto|].
    intros v Hv. inversion Hv.
  - unfold remove_sources in *. simpl for_each.
    pose proof (remove_turn_spec folder v w) as Hturn. cbv zeta in Hturn.
    destruct Hturn as [(msg & Ht & Hn) | (Ht & Hd & Hf)].
    + destruct (IH w) as (errs & w' & Hr & Hl & Hs & Hm & Ho & Hg).
      exists (Some msg :: errs), w'.
      rewrite (bind_ok _ _ _ _ _ _ Ht). rewrite Hr.
      unfold prepend. simpl.
      repeat split; try (apply Hs); auto.
      * constructor; [|exact Hl]. intros m Hm'.
        destruct Hn as [Hn | [Hn _]]; congruence.
      * intros q Hq. apply Ho. intros Hin. apply Hq. right. exact Hin.
      * intros v' Hv' Hd' Hf'. apply elem_of_cons in Hv' as [->|Hv'].
        -- exfalso. destruct Hn as [Hn | [_ Hn]]; [congruence | tauto].
        -- apply Hg; assumption.
    + destruct (IH (set_fs (delete (PyStr.join folder v) (fs w)) w))
        as (errs & w' & Hr & Hl & Hs & Hm & Ho & Hg).
      exists (None :: errs), w'.
      rewrite (bind_ok _ _ _ _ _ _ Ht). rewrite Hr.
      unfold prepend. simpl.
      assert (Hrefd : Forall2 (refused env folder) (v :: vids) (None :: errs)).
      { constructor; [|exact Hl]. intros m Hm'. congruence. }
      assert (Hmono : forall q, fs w' !! q = None \/ fs w' !! q = fs w !! q).
      { intros q. destruct (Hm q) as [H|H]; [left; exact H|].
        simpl in H. destruct (decide (PyStr.join folder v = q)) as [<-|Hne].
        - left. rewrite H. apply lookup_delete_eq.
        - right. rewrite H. apply lookup_delete_ne. exact Hne. }
      repeat split; try (apply Hs); auto.
      * intros q Hq. rewrite Ho.
        -- simpl. apply lookup_delete_ne. intros <-. apply Hq. left.
        -- intros Hin. apply Hq. right. exact Hin.
      * intros v' Hv' Hd' Hf'.
        destruct (decide (PyStr.join folder v = PyStr.join folder v'))
          as [Heq|Hne].
        -- destruct (Hm (PyStr.join folder v')) as [H|H]; [exact H|].
           rewrite H. simpl. rewrite Heq. apply lookup_delete_eq.
        -- apply elem_of_cons in Hv' as [->|Hv']; [congruence|].
           apply Hg; try assumption.
           destruct Hf' as (m & d & Hf'). exists m, d. simpl.
           rewrite lookup_delete_ne by exact Hne. exact Hf'.
Qed.

Lemma open_write_cases p data w :
  (exists msg, open_write env p data w = (inr (Exception msg), w, []))
  \/ open_write env p data w
     = (inl tt, set_fs (<[p := File (clock w) data]> (fs w)) w,
        [EvWrite p data]).
Proof.
  unfold open_write. destruct (denied env !! p); [left; eauto|].
  destruct (fs w !! p) as [[?|?]|]; eauto.
Qed.

Lemma process_videos_guarded_path t w :
  exists w' evs,
    process_videos_guarded env t w = (inl tt, w', evs)
    /\ worker_path env t w w' evs.
Proof.
  unfold process_videos_guarded, process_videos_try.
  destruct (open_write_cases (list_file_path (t_folder t) (t_name t))
              (list_data (t_folder t) (t_videos t)) w) as [(msg & Hw) | Hw].
  { rewrite (try_except_raise _ _ _ _ _ _ (bind_raise _ _ _ _ _ _ Hw)).
    eexists _, _. split; [reflexivity|]. econstructor. exact Hw. }
  fold (written t w) in Hw.
  assert (Hcfg : get_config (written t w)
                 = (inl (config_data w), written t w, []))
    by reflexivity.
  destruct (fs (written t w) !! ffmpeg_path_of (config_data w))
    as [n|] eqn:Hx.
  2:{ assert (Hex : os_path_exists (ffmpeg_path_of (config_data w))
                      (written t w) = (inl false, written t w, [])).
      { unfold os_path_exists. rewrite Hx.
        rewrite bool_decide_eq_false_2 by (intros [? ?]; discriminate).
        reflexivity. }
      erewrite try_except_ok.
      2:{ rewrite (bind_ok _ _ _ _ _ _ Hw). cbv beta.
          rewrite (bind_ok _ _ _ _ _ _ Hcfg). cbv beta zeta.
          rewrite (bind_ok _ _ _ _ _ _ Hex). cbv beta. reflexivity. }
      eexists _, _. split; [reflexivity|].
      apply path_tool_not_found; assumption. }
  assert (Hex : os_path_exists (ffmpeg_path_of (config_data w))
                  (written t w) = (inl true, written t w, [])).
  { unfold os_path_exists. rewrite Hx.
    rewrite bool_decide_eq_true_2 by eauto. reflexivity. }
  destruct (tool env (command t w) (fs (written t w))) as [res fs2] eqn:Ht.
  destruct (exit_zero res) eqn:Hz.
  2:{ assert (Hrun : exists e,
        subprocess_run env (command t w) (written t w)
        = (inr e, set_fs fs2 (written t w), [EvRun (command t w) res])
        /\ process_videos_except e (set_fs fs2 (written t w))
           = (inl tt, set_fs fs2 (written t w), [failure_log res])).
      { unfold subprocess_run. rewrite Ht.
        destruct res as [rc out err | msg]; simpl in Hz |- *.
        - rewrite Hz. eexists. split; reflexivity.
        - eexists. split; reflexivity. }
      destruct Hrun as (e & Hrun & Hh).
      erewrite try_except_raise.
      2:{ rewrite (bind_ok _ _ _ _ _ _ Hw). cbv beta.
          rewrite (bind_ok _ _ _ _ _ _ Hcfg). cbv beta zeta.
          rewrite (bind_ok _ _ _ _ _ _ Hex). cbv beta iota.
          cbn [negb]. cbv iota.
          fold (command t w).
          rewrite (bind_raise _ _ _ _ _ _ Hrun). reflexivity. }
      rewrite Hh. eexists _, _. split; [reflexivity|].
      eapply path_tool_failed; eauto. }
  destruct res as [rc out err | msg]; [|discriminate].
  simpl in Hz. apply bool_decide_eq_true_1 in Hz. subst rc.
  set (w2 := set_fs fs2 (written t w)).
  assert (Hrun : subprocess_run env (command t w) (written t w)
                 = (inl tt, w2, [EvRun (command t w) (Completed 0 out err)])).
  { unfold subprocess_run. rewrite Ht. reflexivity. }
  assert (Hc : exists w3 evs_c,
    (if t_cleanup t && negb (PyStr.startswith (t_output t) "_comp_")
     then remove_sources env (t_folder t) (t_videos t)
     else ret tt) w2 = (inl tt, w3, evs_c) /\ cleaned env t w2 w3 evs_c).
  { unfold cleaned, deletes_sources.
    destruct (t_cleanup t && negb (PyStr.startswith (t_output t) "_comp_")).
    - destruct (remove_sources_spec (t_folder t) (t_videos t) w2)
        as (errs & w3 & Hr & Hrest).
      eexists w3, _. split; [exact Hr|]. exists errs.
      split; [reflexivity | exact Hrest].
    - exists w2, []. split; [reflexivity | split; reflexivity]. }
  destruct Hc as (w3 & evs_c & Hc & Hclean).
  assert (Hrm : exists w4 rm_err,
    try_except (os_remove env (list_file_path (t_folder t) (t_name t)))
      (fun _ => ret tt) w3
    = (inl tt, w4, [EvRemove (list_file_path (t_folder t) (t_name t)) rm_err])
    /\ (w4 = w3 \/
        w4 = set_fs (delete (list_file_path (t_folder t) (t_name t)) (fs w3))
               w3)).
  { destruct (os_remove_cases (list_file_path (t_folder t) (t_name t)) w3)
      as [(msg & Hr & _) | (Hr & _ & _)].
    - rewrite (try_except_raise _ _ _ _ _ _ Hr). eauto.
    - rewrite (try_except_ok _ _ _ _ _ _ Hr). eauto. }
  destruct Hrm as (w4 & rm_err & Hrm & Hw4).
  assert (Hlog : script_log LOG_INFO
            ("Successfully stitched videos into " +:+ t_output t) w2
          = (inl tt, w2,
             [EvLog LOG_INFO
                ("Successfully stitched videos into " +:+ t_output t)]))
    by reflexivity.
  assert (Htry : exists v,
    process_videos_try env t w
    = (v, w4,
       [EvWrite (list_file_path (t_folder t) (t_name t))
          (list_data (t_folder t) (t_videos t));
        EvRun (command t w) (Completed 0 out err);
        EvLog LOG_INFO
          ("Successfully stitched videos into " +:+ t_output t)]
       ++ evs_c
       ++ [EvRemove (list_file_path (t_folder t) (t_name t)) rm_err]
       ++ match t_callback t with
          | Some _ => [EvCallback (t_output t)] | None => [] end)
    /\ v = match t_callback t with
           | Some cb => match cb (t_output t) with
                        | None => inl tt
                        | Some msg => inr (Exception msg)
                        end
           | None => inl tt
           end).
  { unfold process_videos_try.
    rewrite (bind_ok _ _ _ _ _ _ Hw). cbv beta.
    rewrite (bind_ok _ _ _ _ _ _ Hcfg). cbv beta zeta.
    rewrite (bind_ok _ _ _ _ _ _ Hex). cbv beta iota.
    cbn [negb]. cbv iota. fold (command t w).
    rewrite (bind_ok _ _ _ _ _ _ Hrun). cbv beta.
    rewrite (bind_ok _ _ _ _ _ _ Hlog). cbv beta.
    rewrite (bind_ok _ _ _ _ _ _ Hc). cbv beta.
    rewrite (bind_ok _ _ _ _ _ _ Hrm). cbv beta.
    unfold call, ret, prepend.
    destruct (t_callback t) as [cb|]; eexists; (split; [reflexivity|]);
      reflexivity. }
  fold (process_videos_try env t).
  destruct Htry as (v & Htry & Hv).
  exists w4. eexists. split.
  2:{ eapply (path_tool_ok env _ _ out err fs2 w3 evs_c w4 rm_err); eauto. }
  unfold callback_events.
  destruct (t_callback t) as [cb|]; [destruct (cb (t_output t)) as [msg|]|];
    subst v.
  - rewrite (try_except_raise _ _ _ _ _ _ Htry). unfold prepend. simpl.
    rewrite <- !app_assoc. reflexivity.
  - rewrite (try_except_ok _ _ _ _ _ _ Htry). reflexivity.
  - rewrite (try_except_ok _ _ _ _ _ _ Htry). reflexivity.
Qed.

End Worker.

(** ** What the traces of the worker contain *)

Lemma turns_callbacks folder vids : forall errs,
  callbacks (concat (zip_with (removal_turn folder) vids errs)) = [].
Proof.
  induction vids as [|v vids IH]; intros [|e errs]; simpl; auto.
  destruct e; apply IH.
Qed.

Lemma turns_tool_runs folder vids : forall errs,
  tool_runs (concat (zip_with (removal_turn folder) vids errs)) = [].
Proof.
  induction vids as [|v vids IH]; intros [|e errs]; simpl; auto.
  destruct e; apply IH.
Qed.

Lemma turns_removals folder vids : forall errs,
  length errs = length vids ->
  removals (concat (zip_with (removal_turn folder) vids errs))
  = map (PyStr.join folder) vids.
Proof.
  induction vids as [|v vids IH]; intros [|e errs] Hl; simpl in *;
    try discriminate; auto.
  f_equal. destruct e; apply IH; congruence.
Qed.

Lemma cleaned_callbacks env t w2 w3 evs :
  cleaned env t w2 w3 evs -> callbacks evs = [].
Proof.
  unfold cleaned. destruct (deletes_sources t).
  - intros (errs & -> & _). apply turns_callbacks.
  - intros [_ ->]. reflexivity.
Qed.

Lemma cleaned_removals env t w2 w3 evs :
  cleaned env t w2 w3 evs ->
  removals evs
  = if deletes_sources t then map (PyStr.join (t_folder t)) (t_videos t)
    else [].
Proof.
  unfold cleaned. destruct (deletes_sources t).
  - intros (errs & -> & Hl & _). apply turns_removals.
    symmetry. eapply Forall2_length. exact Hl.
  - intros [_ ->]. reflexivity.
Qed.

Lemma cleaned_same env t w2 w3 evs :
  cleaned env t w2 w3 evs -> same_but_fs w2 w3.
Proof.
  unfold cleaned. destruct (deletes_sources t).
  - intros (errs & _ & _ & Hs & _). exact Hs.
  - intros [-> _]. apply same_but_fs_refl.
Qed.

Lemma callback_events_callbacks t :
  callbacks (callback_events t)
  = match t_callback t with Some _ => [t_output t] | None => [] end.
Proof.
  unfold callback_events. destruct (t_callback t) as [cb|]; [|reflexivity].
  destruct (cb (t_output t)); reflexivity.
Qed.

Lemma callback_events_quiet t :
  removals (callback_events t) = [] /\ tool_runs (callback_events t) = [].
Proof.
  unfold callback_events. destruct (t_callback t) as [cb|]; [|split; reflexivity].
  destruct (cb (t_output t)); split; reflexivity.
Qed.

Lemma failure_log_quiet res :
  callbacks [failure_log res] = [] /\ removals [failure_log res] = []
  /\ tool_runs [failure_log res] = [].
Proof. destruct res; repeat split; reflexivity. Qed.

(** The worker leaves the registry, the thread table, the configuration and
    the clock alone until its [finally] clause. *)
Lemma worker_path_same env t w w' evs :
  worker_path env t w w' evs -> same_but_fs w w'.
Proof.
  intros H. destruct H as [msg Hw | Hw Hx | res fs2 Hw Hx Ht Hz
                          | out err fs2 w3 evs_c w4 rm_err Hw Hx Ht Hc Hw4].
  - apply same_but_fs_refl.
  - repeat split.
  - repeat split.
  - apply cleaned_same in Hc. destruct Hc as (H1 & H2 & H3 & H4).
    destruct Hw4 as [-> | ->]; repeat split; simpl; assumption.
Qed.

Lemma unregister_delete (r : gmap string Job) n :
  StitchManager._unregister_stitch r n = delete n r.
Proof.
  unfold StitchManager._unregister_stitch. case_bool_decide as H; [reflexivity|].
  symmetry. apply delete_id. destruct (r !! n) eqn:E; [|reflexivity].
  exfalso. apply H. eauto.
Qed.

Lemma is_stitching_spec (r : gmap string Job) n :
  StitchManager.is_stitching r n = true <-> is_Some (r !! n).
Proof. unfold StitchManager.is_stitching. apply bool_decide_eq_true. Qed.

(** [process_videos]: one of the four paths, then the [finally] clause. *)
Lemma process_videos_run env t w :
  exists w' evs,
    process_videos env t w
    = (inl tt, set_registry (delete (t_name t) (active_stitches w)) w', evs)
    /\ worker_path env t w w' evs.
Proof.
  destruct (process_videos_guarded_path env t w) as (w' & evs & Hg & Hp).
  exists w', evs. split; [|exact Hp].
  unfold process_videos, try_finally. rewrite Hg.
  unfold _unregister_stitch. rewrite unregister_delete, app_nil_r.
  destruct (worker_path_same _ _ _ _ _ Hp) as (-> & _). reflexivity.
Qed.

Lemma worker_path_callbacks env t w w' evs :
  worker_path env t w w' evs ->
  callbacks evs
  = if tool_succeeded evs
    then match t_callback t with Some _ => [t_output t] | None => [] end
    else [].
Proof.
  intros H. destruct H as [msg Hw | Hw Hx | res fs2 Hw Hx Ht Hz
                          | out err fs2 w3 evs_c w4 rm_err Hw Hx Ht Hc Hw4].
  - reflexivity.
  - reflexivity.
  - unfold tool_succeeded.
    change (tool_runs _) with (res :: tool_runs [failure_log res]).
    destruct (failure_log_quiet res) as (Hcb & _ & ->). simpl existsb.
    rewrite Hz. simpl.
    change (callbacks _) with (callbacks [failure_log res]). exact Hcb.
  - unfold tool_succeeded. rewrite !tool_runs_app, !callbacks_app.
    rewrite (cleaned_callbacks _ _ _ _ _ Hc), callback_events_callbacks.
    reflexivity.
Qed.

Lemma worker_path_removals env t w w' evs :
  worker_path env t w w' evs ->
  removals evs
  = if tool_succeeded evs
    then (if deletes_sources t
          then map (PyStr.join (t_folder t)) (t_videos t) else [])
         ++ [list_file_path (t_folder t) (t_name t)]
    else [].
Proof.
  intros H. destruct H as [msg Hw | Hw Hx | res fs2 Hw Hx Ht Hz
                          | out err fs2 w3 evs_c w4 rm_err Hw Hx Ht Hc Hw4].
  - reflexivity.
  - reflexivity.
  - unfold tool_succeeded.
    change (tool_runs _) with (res :: tool_runs [failure_log res]).
    destruct (failure_log_quiet res) as (_ & Hrm & ->). simpl existsb.
    rewrite Hz. simpl.
    change (removals _) with (removals [failure_log res]). exact Hrm.
  - unfold tool_succeeded. rewrite !tool_runs_app, !removals_app.
    rewrite (cleaned_removals _ _ _ _ _ Hc).
    destruct (callback_events_quiet t) as [-> _].
    simpl. reflexivity.
Qed.

Lemma tool_succeeded_path env t w w' evs :
  worker_path env t w w' evs ->
  tool_succeeded evs = true ->
  exists out err fs2 w3 evs_c rm_err,
    tool env (command t w) (fs (written t w)) = (Completed 0 out err, fs2)
    /\ cleaned env t (set_fs fs2 (written t w)) w3 evs_c
    /\ (w' = w3 \/
        w' = set_fs (delete (list_file_path (t_folder t) (t_name t)) (fs w3)) w3)
    /\ evs = [EvWrite (list_file_path (t_folder t) (t_name t))
                (list_data (t_folder t) (t_videos t));
              EvRun (command t w) (Completed 0 out err);
              EvLog LOG_INFO
                ("Successfully stitched videos into " +:+ t_output t)]
             ++ evs_c
             ++ [EvRemove (list_file_path (t_folder t) (t_name t)) rm_err]
             ++ callback_events t.
Proof.
  intros H. destruct H as [msg Hw | Hw Hx | res fs2 Hw Hx Ht Hz
                          | out err fs2 w3 evs_c w4 rm_err Hw Hx Ht Hc Hw4].
  - discriminate.
  - discriminate.
  - unfold tool_succeeded.
    change (tool_runs _) with (res :: tool_runs [failure_log res]).
    destruct (failure_log_quiet res) as (_ & _ & ->). simpl. rewrite Hz.
    discriminate.
  - intros _. exists out, err, fs2, w3, evs_c, rm_err. auto.
Qed.

(** ** Strings *)

Lemma append_cons (a : ascii) (s t : string) :
  String a s +:+ t = String a (s +:+ t).
Proof. reflexivity. Qed.

Lemma startswith_spec (s p : string) :
  PyStr.startswith s p = true <-> exists rest, s = p +:+ rest.
Proof.
  unfold PyStr.startswith. revert s.
  induction p as [|a p IH]; intros s; simpl.
  - destruct s; split; eauto.
  - destruct s as [|b s]; simpl.
    + split; [discriminate | intros [rest H]; discriminate].
    + destruct (ascii_dec a b) as [->|Hne].
      * rewrite IH. split; intros [rest H]; exists rest.
        -- rewrite append_cons. f_equal. exact H.
        -- rewrite append_cons in H. congruence.
      * split; [discriminate|]. intros [rest H].
        rewrite append_cons in H. congruence.
Qed.

Lemma isabs_not_comp (s : string) :
  PyStr.isabs s = true -> PyStr.startswith s "_comp_" = false.
Proof.
  destruct s as [|c s]; [discriminate|]. simpl.
  intros H. apply bool_decide_eq_true_1 in H. subst c. reflexivity.
Qed.

(** ** Sorting *)

Section Sorting.

Context {A : Type} (lt : A -> A -> bool).

Lemma insort_perm x l : Permutation (x :: l) (insort lt x l).
Proof.
  induction l as [|y l IH]; simpl; [reflexivity|].
  destruct (lt y x); [|reflexivity].
  rewrite perm_swap. apply perm_skip. exact IH.
Qed.

Lemma sort_stable_perm l : Permutation l (sort_stable lt l).
Proof.
  induction l as [|x l IH]; simpl; [reflexivity|].
  rewrite <- insort_perm. apply perm_skip. exact IH.
Qed.

(** Elements that [p] selects keep their order when nothing that [p]
    selects is ever smaller than something else it selects. *)
Lemma insort_filter (p : A -> bool) x l :
  (forall y, p x = true -> lt y x = true -> p y = false) ->
  List.filter p (insort lt x l)
  = if p x then x :: List.filter p l else List.filter p l.
Proof.
  intros H. induction l as [|y l IH]; simpl.
  - destruct (p x); reflexivity.
  - destruct (lt y x) eqn:Hyx; simpl.
    + rewrite IH. destruct (p x) eqn:Hpx.
      * rewrite (H y eq_refl Hyx). reflexivity.
      * reflexivity.
    + destruct (p x); reflexivity.
Qed.

Lemma sort_stable_filter (p : A -> bool) l :
  (forall x y, p x = true -> lt y x = true -> p y = false) ->
  List.filter p (sort_stable lt l) = List.filter p l.
Proof.
  intros H. induction l as [|x l IH]; simpl; [reflexivity|].
  rewrite insort_filter by (apply H). rewrite IH. reflexivity.
Qed.

End Sorting.

Section SortingByKey.

Context {K : Type} (lt : K -> K -> bool) (key : string -> K).

Lemma insort_decorate x l :
  insort (fun a b => lt (fst a) (fst b)) (key x, x)
    (map (fun f => (key f, f)) l)
  = map (fun f => (key f, f)) (insort (fun a b => lt (key a) (key b)) x l).
Proof.
  induction l as [|y l IH]; simpl; [reflexivity|].
  destruct (lt (key y) (key x)); simpl; [|reflexivity].
  f_equal. exact IH.
Qed.

(** Decorate, sort, undecorate is sorting by comparison of the keys. *)
Lemma sorted_decorate l :
  sorted lt (map (fun f => (key f, f)) l)
  = sort_stable (fun a b => lt (key a) (key b)) l.
Proof.
  unfold sorted.
  assert (H : sort_stable (fun a b => lt (fst a) (fst b))
                (map (fun f => (key f, f)) l)
              = map (fun f => (key f, f))
                  (sort_stable (fun a b => lt (key a) (key b)) l)).
  { induction l as [|x l IH]; simpl; [reflexivity|].
    rewrite IH. apply insort_decorate. }
  rewrite H, map_map. simpl. apply map_id.
Qed.

End SortingByKey.

Section SortingZ.

Context (key : string -> Z).

Lemma insort_sorted x l :
  StronglySorted (fun a b => key a <= key b) l ->
  StronglySorted (fun a b => key a <= key b)
    (insort (fun a b => key a <? key b) x l).
Proof.
  induction l as [|y l IH]; intros Hs; simpl.
  - constructor; constructor.
  - inversion Hs as [|? ? Hs' Hall]; subst.
    destruct (key y <? key x) eqn:E.
    + apply Z.ltb_lt in E. constructor; [apply IH; exact Hs'|].
      apply (Permutation_Forall
               (insort_perm (fun a b => key a <? key b) x l)).
      constructor; [lia | exact Hall].
    + apply Z.ltb_ge in E. constructor; [exact Hs|].
      constructor; [exact E|].
      eapply Forall_impl; [exact Hall|].
      intros z Hz. simpl in *. lia.
Qed.

Lemma sort_stable_sorted l :
  StronglySorted (fun a b => key a <= key b)
    (sort_stable (fun a b => key a <? key b) l).
Proof.
  induction l as [|x l IH]; simpl; [constructor|].
  apply insort_sorted. exact IH.
Qed.

(** Files with one and the same key stay in the order of the listing. *)
Lemma sort_stable_equal_keys (k : Z) l :
  List.filter (fun f => key f =? k)
    (sort_stable (fun a b => key a <? key b) l)
  = List.filter (fun f => key f =? k) l.
Proof.
  apply sort_stable_filter. intros x y Hx Hyx.
  apply Z.eqb_eq in Hx. apply Z.ltb_lt in Hyx. apply Z.eqb_neq. lia.
Qed.

(** A sorted list is the only sorted arrangement of its elements when
    no two of them have the same key. *)
Lemma sorted_unique l1 : forall l2,
  StronglySorted (fun a b => key a <= key b) l1 ->
  StronglySorted (fun a b => key a <= key b) l2 ->
  Permutation l1 l2 ->
  (forall x y, In x l1 -> In y l1 -> key x = key y -> x = y) ->
  l1 = l2.
Proof.
  induction l1 as [|x l1 IH]; intros l2 H1 H2 Hp Hinj.
  - apply Permutation_nil in Hp. subst. reflexivity.
  - destruct l2 as [|y l2].
    { symmetry in Hp. apply Permutation_nil in Hp. discriminate. }
    inversion H1 as [|? ? H1' Hall1]; subst.
    inversion H2 as [|? ? H2' Hall2]; subst.
    assert (Hxy : x = y).
    { assert (Hy : In y (x :: l1)).
      { apply (Permutation_in _ (Permutation_sym Hp)). left. reflexivity. }
      assert (Hx : In x (y :: l2)).
      { apply (Permutation_in _ Hp). left. reflexivity. }
      destruct Hy as [Hy|Hy]; [exact Hy|].
      destruct Hx as [Hx|Hx]; [symmetry; exact Hx|].
      rewrite Forall_forall in Hall1, Hall2.
      apply Hinj; [left; reflexivity | right; exact Hy |].
      pose proof (Hall1 y ltac:(apply list_elem_of_In; exact Hy)) as Ha.
      pose proof (Hall2 x ltac:(apply list_elem_of_In; exact Hx)) as Hb.
      simpl in *. lia. }
    subst y. f_equal. apply IH; auto.
    + eapply Permutation_cons_inv. exact Hp.
    + intros a b Ha Hb. apply Hinj; right; assumption.
Qed.

End SortingZ.

(** ** Ordering the snapshot *)

Lemma map_M_getmtime folder vids w :
  Forall (fun v => is_Some (fs w !! PyStr.join folder v)) vids ->
  map_M (fun f => k <- os_path_getmtime (PyStr.join folder f) ;; ret (k, f))
    vids w
  = (inl (map (fun f => (mtime_of (fs w) folder f, f)) vids), w, []).
Proof.
  induction 1 as [|v vids [n Hn] Hall IH]; [reflexivity|].
  simpl map_M.
  assert (Hk : (k <- os_path_getmtime (PyStr.join folder v) ;; ret (k, v)) w
               = (inl (mtime_of (fs w) folder v, v), w, [])).
  { unfold bind, os_path_getmtime, mtime_of. rewrite Hn. reflexivity. }
  rewrite (bind_ok _ _ _ _ _ _ Hk). cbv beta.
  rewrite (bind_ok _ _ _ _ _ _ IH). reflexivity.
Qed.

Lemma order_videos_default folder vids w :
  Forall (fun v => is_Some (fs w !! PyStr.join folder v)) vids ->
  order_videos folder None vids w
  = (inl (sort_stable
            (fun a b => mtime_of (fs w) folder a <? mtime_of (fs w) folder b)
            vids), w, []).
Proof.
  intros H. unfold order_videos.
  rewrite (bind_ok _ _ _ _ _ _ (map_M_getmtime folder vids w H)).
  unfold ret, prepend. rewrite sorted_decorate. reflexivity.
Qed.

Lemma order_videos_custom folder (k : KeyFn) vids w :
  order_videos folder (Some k) vids w
  = (inl (sort_stable (fun a b => key_lt k (key_of k a) (key_of k b)) vids),
     w, []).
Proof. unfold order_videos, ret. rewrite sorted_decorate. reflexivity. Qed.

(** Whatever the key, the ordering step returns or raises without touching
    the world, and what it returns is a rearrangement of its input. *)
Lemma order_videos_result folder sort_lambda vids w :
  (exists ordered,
     order_videos folder sort_lambda vids w = (inl ordered, w, [])
     /\ Permutation vids ordered)
  \/ (exists e, order_videos folder sort_lambda vids w = (inr e, w, [])
                /\ sort_lambda = None
                /\ ~ Forall (fun v => is_Some (fs w !! PyStr.join folder v)) vids).
Proof.
  destruct sort_lambda as [k|].
  - left. eexists. split; [apply order_videos_custom|apply sort_stable_perm].
  - destruct (decide (Forall (fun v => is_Some (fs w !! PyStr.join folder v))
                        vids)) as [H|H].
    + left. eexists. split; [apply order_videos_default; exact H|].
      apply sort_stable_perm.
    + right. unfold order_videos.
      assert (Hr : exists e,
        map_M (fun f => k <- os_path_getmtime (PyStr.join folder f) ;;
                        ret (k, f)) vids w = (inr e, w, [])).
      { induction vids as [|v vids IH]; [exfalso; apply H; constructor|].
        simpl map_M.
        destruct (fs w !! PyStr.join folder v) as [n|] eqn:Hn.
        - assert (Hk : (k <- os_path_getmtime (PyStr.join folder v) ;;
                        ret (k, v)) w
                       = (inl (node_mtime n, v), w, [])).
          { unfold bind, os_path_getmtime. rewrite Hn. reflexivity. }
          rewrite (bind_ok _ _ _ _ _ _ Hk). cbv beta.
          destruct IH as [e He].
          { intros Hall. apply H. constructor; [eauto | exact Hall]. }
          exists e. rewrite (bind_raise _ _ _ _ _ _ He). reflexivity.
        - eexists. apply bind_raise. unfold bind, os_path_getmtime.
          rewrite Hn. reflexivity. }
      destruct Hr as [e He]. exists e.
      rewrite (bind_raise _ _ _ _ _ _ He). auto.
Qed.

(** Files of one age keep the order of the listing. *)
Lemma default_order_is_stable folder vids w (t : Z) :
  Forall (fun v => is_Some (fs w !! PyStr.join folder v)) vids ->
  exists ordered,
    order_videos folder None vids w = (inl ordered, w, [])
    /\ List.filter (fun f => mtime_of (fs w) folder f =? t) ordered
       = List.filter (fun f => mtime_of (fs w) folder f =? t) vids.
Proof.
  intros Hall. eexists. split; [apply order_videos_default; exact Hall|].
  apply (sort_stable_equal_keys (mtime_of (fs w) folder)).
Qed.

(** ** The listing of a folder *)

Lemma append_assoc (a b c : string) : (a +:+ b) +:+ c = a +:+ (b +:+ c).
Proof.
  induction a as [|x a IH]; [reflexivity|].
  rewrite !append_cons, IH. reflexivity.
Qed.

Lemma strip_prefix_spec (p s n : string) :
  PyStr.strip_prefix p s = Some n -> s = p +:+ n.
Proof.
  revert s. induction p as [|a p IH]; intros s; simpl.
  - intros [= ->]. reflexivity.
  - destruct s as [|b s]; [discriminate|].
    case_bool_decide as Hab; [|discriminate]. subst b.
    intros H. rewrite append_cons. f_equal. apply IH. exact H.
Qed.

Lemma join_relative (folder n : string) :
  PyStr.isabs n = false -> PyStr.join folder n = dir_prefix folder +:+ n.
Proof.
  intros Hn. unfold PyStr.join, dir_prefix. rewrite Hn.
  destruct (PyStr.last_char folder) as [c|]; [|reflexivity].
  case_bool_decide; [reflexivity|]. symmetry. apply append_assoc.
Qed.

Lemma entry_name_spec (folder p n : string) :
  entry_name folder p = Some n ->
  PyStr.join folder n = p /\ n <> "" /\ PyStr.contains_char PyStr.sep n = false.
Proof.
  unfold entry_name.
  destruct (PyStr.strip_prefix (dir_prefix folder) p) as [m|] eqn:Hs;
    [|discriminate].
  destruct (bool_decide (m = "") || PyStr.contains_char PyStr.sep m) eqn:Hb;
    [discriminate|].
  intros [= <-]. apply orb_false_iff in Hb as [Hne Hc].
  apply bool_decide_eq_false_1 in Hne.
  split; [|split; assumption].
  rewrite join_relative.
  - symmetry. apply strip_prefix_spec. exact Hs.
  - destruct m as [|c m]; [reflexivity|]. simpl in Hc |- *.
    apply orb_false_iff in Hc as [Hc _].
    apply bool_decide_eq_false_1 in Hc. apply bool_decide_eq_false_2.
    congruence.
Qed.

(** What [os.listdir] names can be looked at with [os.path.getmtime]. *)
Lemma dir_entries_exist (f : filesystem) (folder v : string) :
  v ∈ dir_entries f folder -> is_Some (f !! PyStr.join folder v).
Proof.
  unfold dir_entries. intros H.
  apply list_elem_of_omap in H as (p & Hp & Hn).
  apply entry_name_spec in Hn as (-> & _).
  apply list_elem_of_fmap in Hp as ([p' x] & -> & Hin).
  apply elem_of_map_to_list in Hin. simpl. eauto.
Qed.

Lemma snapshot_exists (f : filesystem) (folder : string) :
  Forall (fun v => is_Some (f !! PyStr.join folder v))
    (List.filter is_mp4 (dir_entries f folder)).
Proof.
  apply Forall_forall. intros v Hv. apply list_elem_of_In in Hv.
  apply filter_In in Hv as [Hv _]. apply dir_entries_exist.
  apply list_elem_of_In. exact Hv.
Qed.

(** ** The submission *)

Lemma for_each_log {A} (lvl : LogLevel) (f : A -> string) (l : list A) w :
  for_each l (fun x => script_log lvl (f x)) w
  = (inl tt, w, map (fun x => EvLog lvl (f x)) l).
Proof.
  induction l as [|x l IH]; [reflexivity|]. simpl for_each.
  assert (H : script_log lvl (f x) w = (inl tt, w, [EvLog lvl (f x)]))
    by reflexivity.
  rewrite (bind_ok _ _ _ _ _ _ H). cbv beta. rewrite IH. reflexivity.
Qed.

Lemma phase_check_spec r w :
  phase_check r w
  = if StitchManager.is_stitching (active_stitches w) (r_name r)
    then (inl (Returned None), w,
          [EvLog LOG_WARNING
             ("Already stitching compilation '" +:+ r_name r +:+
              "'. Skipping request.")])
    else (inl AtValidate, w, []).
Proof.
  unfold phase_check, bind, is_stitching.
  destruct (StitchManager.is_stitching _ _); reflexivity.
Qed.

Lemma phase_validate_spec r w :
  phase_validate r w
  = if negb (folder_ok (fs w) (r_folder r))
    then (inl (Returned None), w,
          [EvLog LOG_WARNING ("Invalid folder path: " +:+ r_folder r)])
    else match snapshot_of (fs w) (r_folder r) with
         | [] => (inl (Returned None), w,
                  [EvLog LOG_WARNING "No video files found to stitch."])
         | v :: vs => (inl (AtRegister (v :: vs)), w, [])
         end.
Proof.
  unfold phase_validate, bind, os_path_exists, os_path_isdir, os_listdir,
    folder_ok, snapshot_of.
  cbv beta iota. rewrite negb_andb.
  destruct (negb _ || negb _); [reflexivity|].
  destruct (List.filter is_mp4 _); reflexivity.
Qed.

Lemma phase_register_spec r vs w :
  phase_register r vs w
  = if StitchManager.is_stitching (active_stitches w) (r_name r)
    then (inl (Returned None), w, [])
    else (inl (AtLaunch vs), registered (r_name r) (r_folder r) (r_output r) w,
          []).
Proof.
  unfold phase_register, bind, _register_stitch,
    StitchManager._register_stitch, StitchManager.is_stitching, registered.
  destruct (bool_decide _); [|reflexivity].
  destruct w; reflexivity.
Qed.

Lemma phase_launch_ok r vs w ordered :
  order_videos (r_folder r) (r_sort r) vs w = (inl ordered, w, []) ->
  phase_launch r vs w
  = (inl (Returned (Some (r_output r))), launched r ordered w,
     launch_log (r_name r) ordered).
Proof.
  intros Ho. unfold phase_launch. rewrite (bind_ok _ _ _ _ _ _ Ho). cbv beta.
  unfold bind at 1. unfold script_log at 1, emit.
  unfold bind at 1. rewrite for_each_log.
  unfold bind, thread_start, ret, prepend, launched, launch_log.
  simpl. rewrite app_nil_r. reflexivity.
Qed.

Lemma phase_launch_raise r vs w e :
  order_videos (r_folder r) (r_sort r) vs w = (inr e, w, []) ->
  phase_launch r vs w = (inr e, w, []).
Proof. intros He. unfold phase_launch. apply bind_raise. exact He. Qed.

Lemma phase_launch_spec r vs w :
  (exists ordered,
     order_videos (r_folder r) (r_sort r) vs w = (inl ordered, w, [])
     /\ Permutation vs ordered
     /\ phase_launch r vs w
        = (inl (Returned (Some (r_output r))), launched r ordered w,
           launch_log (r_name r) ordered))
  \/ (exists e,
        phase_launch r vs w = (inr e, w, [])
        /\ r_sort r = None
        /\ ~ Forall (fun v => is_Some (fs w !! PyStr.join (r_folder r) v)) vs).
Proof.
  destruct (order_videos_result (r_folder r) (r_sort r) vs w)
    as [(ordered & Ho & Hp) | (e & He & Hs & Hn)].
  - left. exists ordered. split; [exact Ho|]. split; [exact Hp|].
    apply phase_launch_ok. exact Ho.
  - right. exists e. split; [|auto]. apply phase_launch_raise. exact He.
Qed.

(** [stitch_videos_async] in closed form: the first check that fails decides;
    when none does the job is registered, the snapshot ordered and the
    worker started. *)
Lemma stitch_videos_async_spec name folder output sort_lambda cleanup cb w :
  let r := mkRequest name folder output sort_lambda cleanup cb in
  stitch_videos_async name folder output sort_lambda cleanup cb w
  = if StitchManager.is_stitching (active_stitches w) name
    then (inl None, w,
          [EvLog LOG_WARNING
             ("Already stitching compilation '" +:+ name +:+
              "'. Skipping request.")])
    else if negb (folder_ok (fs w) folder)
    then (inl None, w, [EvLog LOG_WARNING ("Invalid folder path: " +:+ folder)])
    else match snapshot_of (fs w) folder with
         | [] => (inl None, w,
                  [EvLog LOG_WARNING "No video files found to stitch."])
         | v :: vs =>
             let w1 := registered name folder output w in
             match order_videos folder sort_lambda (v :: vs) w1 with
             | (inl ordered, _, _) =>
                 (inl (Some output), launched r ordered w1,
                  launch_log name ordered)
             | (inr e, _, _) => (inr e, w1, [])
             end
         end.
Proof.
  cbv zeta. unfold stitch_videos_async.
  assert (Hact : is_stitching name w
                 = (inl (StitchManager.is_stitching (active_stitches w) name),
                    w, [])) by reflexivity.
  rewrite (bind_ok _ _ _ _ _ _ Hact). cbv beta.
  destruct (StitchManager.is_stitching (active_stitches w) name) eqn:Eact;
    [reflexivity|].
  unfold bind at 1, os_path_exists at 1. unfold bind at 1, os_path_isdir at 1.
  cbv beta iota. rewrite <- negb_andb. fold (folder_ok (fs w) folder).
  destruct (folder_ok (fs w) folder); [|reflexivity]. cbn [negb].
  unfold bind at 1, os_listdir at 1. cbv beta iota.
  fold (snapshot_of (fs w) folder).
  destruct (snapshot_of (fs w) folder) as [|v vs]; [reflexivity|].
  assert (Hreg : _register_stitch name folder output w
                 = (inl true, registered name folder output w, [])).
  { unfold _register_stitch, StitchManager._register_stitch, registered.
    unfold StitchManager.is_stitching in Eact. rewrite Eact. reflexivity. }
  rewrite (bind_ok _ _ _ _ _ _ Hreg). cbv beta. cbn [negb].
  set (w1 := registered name folder output w).
  destruct (order_videos_result folder sort_lambda (v :: vs) w1)
    as [(ordered & Ho & Hp) | (e & He & _)].
  - rewrite (bind_ok _ _ _ _ _ _ Ho), Ho. cbv beta.
    unfold bind at 1. unfold script_log at 1, emit.
    unfold bind at 1. rewrite for_each_log.
    unfold bind, thread_start, ret, prepend, launched, launch_log.
    simpl. rewrite app_nil_r. reflexivity.
  - rewrite (bind_raise _ _ _ _ _ _ He), He. reflexivity.
Qed.

(** The four phases of the thread model, run without interruption, are
    [stitch_videos_async]. *)
Lemma stitch_videos_async_phases name folder output sort_lambda cleanup cb w :
  stitch_videos_async name folder output sort_lambda cleanup cb w
  = run_phases (mkRequest name folder output sort_lambda cleanup cb) w.
Proof.
  rewrite stitch_videos_async_spec. cbv zeta.
  set (r := mkRequest name folder output sort_lambda cleanup cb).
  unfold run_phases.
  pose proof (phase_check_spec r w) as Hc. simpl r_name in Hc.
  destruct (StitchManager.is_stitching (active_stitches w) name) eqn:Eact.
  { rewrite (bind_ok _ _ _ _ _ _ Hc). reflexivity. }
  rewrite (bind_ok _ _ _ _ _ _ Hc). cbv beta. cbn [submit_phase].
  pose proof (phase_validate_spec r w) as Hv. simpl r_folder in Hv.
  destruct (folder_ok (fs w) folder); cbn [negb] in Hv |- *.
  2:{ rewrite (bind_ok _ _ _ _ _ _ Hv). reflexivity. }
  destruct (snapshot_of (fs w) folder) as [|v vs].
  { rewrite (bind_ok _ _ _ _ _ _ Hv). reflexivity. }
  rewrite (bind_ok _ _ _ _ _ _ Hv). cbv beta. cbn [submit_phase].
  pose proof (phase_register_spec r (v :: vs) w) as Hr.
  simpl r_name in Hr. simpl r_folder in Hr. simpl r_output in Hr.
  rewrite Eact in Hr.
  rewrite (bind_ok _ _ _ _ _ _ Hr). cbv beta. cbn [submit_phase].
  set (w1 := registered name folder output w).
  destruct (order_videos_result folder sort_lambda (v :: vs) w1)
    as [(ordered & Ho & _) | (e & He & _)].
  - rewrite Ho. rewrite (bind_ok _ _ _ _ _ _ (phase_launch_ok r _ _ _ Ho)).
    unfold ret, prepend. simpl. rewrite app_nil_r. reflexivity.
  - rewrite He. rewrite (bind_raise _ _ _ _ _ _ (phase_launch_raise r _ _ _ He)).
    reflexivity.
Qed.

(** In the file system of the model every name a folder lists can be
    looked at, so that a submission run on its own, with no other thread
    between its listing and its ordering, orders its snapshot. *)
Lemma sequential_order_succeeds name folder output sort_lambda v vs w :
  snapshot_of (fs w) folder = v :: vs ->
  exists ordered,
    order_videos folder sort_lambda (v :: vs) (registered name folder output w)
    = (inl ordered, registered name folder output w, [])
    /\ Permutation (v :: vs) ordered.
Proof.
  intros Hs.
  destruct (order_videos_result folder sort_lambda (v :: vs)
              (registered name folder output w))
    as [H | (e & _ & _ & Hn)]; [exact H|].
  exfalso. apply Hn. rewrite <- Hs. apply (snapshot_exists (fs w) folder).
Qed.

(** ** The list file *)

Lemma contains_char_app (c : ascii) (a b : string) :
  PyStr.contains_char c (a +:+ b)
  = PyStr.contains_char c a || PyStr.contains_char c b.
Proof.
  induction a as [|x a IH]; [reflexivity|].
  rewrite append_cons. simpl. rewrite IH. apply orb_assoc.
Qed.

Lemma append_inv_tail (a b c : string) : a +:+ c = b +:+ c -> a = b.
Proof.
  intros H.
  assert (Hl : forall x y, String.list_ascii_of_string (x +:+ y)
                 = String.list_ascii_of_string x
                   ++ String.list_ascii_of_string y).
  { intros x y. induction x as [|ch x IH]; [reflexivity|].
    rewrite append_cons. simpl. f_equal. exact IH. }
  apply (f_equal String.list_ascii_of_string) in H.
  rewrite !Hl in H. apply app_inv_tail in H.
  rewrite <- (String.string_of_list_ascii_of_string a),
          <- (String.string_of_list_ascii_of_string b), H.
  reflexivity.
Qed.

Lemma lines_of_line (l rest : string) :
  PyStr.contains_char PyStr.nl l = false ->
  PyStr.lines_of (l +:+ PyStr.newline +:+ rest) = l :: PyStr.lines_of rest.
Proof.
  induction l as [|c l IH]; intros Hc.
  - reflexivity.
  - simpl in Hc. apply orb_false_iff in Hc as [Hc Hl].
    apply bool_decide_eq_false_1 in Hc.
    rewrite append_cons. simpl PyStr.lines_of.
    rewrite bool_decide_eq_false_2 by congruence.
    rewrite (IH Hl). reflexivity.
Qed.

(** One line per entry, in the order of the entries. *)
Lemma list_data_lines (folder : string) (vids : list string) :
  Forall (fun v => PyStr.contains_char PyStr.nl (PyStr.join folder v) = false)
    vids ->
  PyStr.lines_of (list_data folder vids)
  = map (fun v => "file '" +:+ PyStr.join folder v +:+ "'") vids.
Proof.
  induction 1 as [|v vids Hv Hall IH]; [reflexivity|].
  unfold list_data in *. simpl map. simpl foldr. unfold list_line at 1.
  rewrite <- IH.
  rewrite <- (lines_of_line ("file '" +:+ PyStr.join folder v +:+ "'")).
  - rewrite !append_assoc. reflexivity.
  - rewrite !contains_char_app, Hv. reflexivity.
Qed.

Lemma last_char_cons (a : string) : forall c,
  PyStr.last_char (String c a) <> None.
Proof.
  induction a as [|d a IH]; intros c; [discriminate|].
  change (PyStr.last_char (String c (String d a)))
    with (PyStr.last_char (String d a)).
  apply IH.
Qed.

Lemma isabs_join (a b : string) :
  PyStr.isabs (PyStr.join a b) = PyStr.isabs a || PyStr.isabs b.
Proof.
  unfold PyStr.join. destruct (PyStr.isabs b) eqn:Hb.
  - rewrite Hb. symmetry. apply orb_true_r.
  - rewrite orb_false_r. destruct a as [|c a]; [exact Hb|].
    destruct (PyStr.last_char (String c a)) as [d|] eqn:Hl.
    + case_bool_decide; rewrite append_cons; reflexivity.
    + exfalso. eapply last_char_cons. exact Hl.
Qed.

Lemma last_char_slash (a : string) :
  PyStr.last_char (a +:+ "/") = Some PyStr.sep.
Proof.
  induction a as [|c a IH]; [reflexivity|].
  rewrite append_cons. simpl. rewrite IH.
  destruct (a +:+ "/") eqn:E; [|reflexivity].
  destruct a; discriminate.
Qed.

Lemma dir_prefix_shape (folder : string) :
  dir_prefix folder = "" \/ PyStr.last_char (dir_prefix folder) = Some PyStr.sep.
Proof.
  unfold dir_prefix. destruct (PyStr.last_char folder) as [c|] eqn:Hl;
    [|left; reflexivity].
  right. case_bool_decide as Hc.
  - rewrite Hl. congruence.
  - apply last_char_slash.
Qed.

Lemma basename_plain (b : string) :
  PyStr.contains_char PyStr.sep b = false -> PyStr.basename b = b.
Proof. destruct b as [|c b]; [reflexivity|]. simpl. intros ->. reflexivity. Qed.

Lemma contains_last (p : string) :
  PyStr.last_char p = Some PyStr.sep -> PyStr.contains_char PyStr.sep p = true.
Proof.
  induction p as [|c p IH]; [discriminate|].
  destruct p as [|d p].
  - simpl. intros [= ->]. rewrite bool_decide_eq_true_2 by reflexivity.
    reflexivity.
  - intros H. change (PyStr.contains_char PyStr.sep (String c (String d p)))
      with (bool_decide (PyStr.sep = c)
            || PyStr.contains_char PyStr.sep (String d p)).
    rewrite (IH H). apply orb_true_r.
Qed.

Lemma basename_app (p b : string) :
  PyStr.contains_char PyStr.sep b = false ->
  p = "" \/ PyStr.last_char p = Some PyStr.sep ->
  PyStr.basename (p +:+ b) = b.
Proof.
  intros Hb. induction p as [|c p IH]; intros Hp.
  - apply basename_plain. exact Hb.
  - destruct Hp as [Hp|Hp]; [discriminate|].
    rewrite append_cons. simpl PyStr.basename.
    change (bool_decide (PyStr.sep = c)
            || PyStr.contains_char PyStr.sep (p +:+ b))
      with (PyStr.contains_char PyStr.sep (String c (p +:+ b))).
    rewrite <- append_cons, contains_char_app, (contains_last _ Hp).
    cbn [orb]. apply IH. destruct p as [|d p]; [left; reflexivity|].
    right. exact Hp.
Qed.

Lemma list_file_name_relative (name : string) :
  PyStr.isabs ("file_list_" +:+ name +:+ ".txt") = false.
Proof. reflexivity. Qed.

Lemma list_file_name_inj (n1 n2 : string) :
  "file_list_" +:+ n1 +:+ ".txt" = "file_list_" +:+ n2 +:+ ".txt" -> n1 = n2.
Proof.
  intros H. apply (inj (String.append "file_list_")) in H.
  eapply append_inv_tail. exact H.
Qed.

(** Jobs on one folder: different names, different list files. *)
Lemma list_file_path_inj (folder n1 n2 : string) :
  list_file_path folder n1 = list_file_path folder n2 -> n1 = n2.
Proof.
  unfold list_file_path.
  rewrite !join_relative by apply list_file_name_relative.
  intros H. apply (inj (String.append (dir_prefix folder))) in H.
  apply list_file_name_inj. exact H.
Qed.

(** Jobs on any folders: different names without a separator, different
    list files. *)
Lemma list_file_path_inj_plain (f1 f2 n1 n2 : string) :
  PyStr.contains_char PyStr.sep n1 = false ->
  PyStr.contains_char PyStr.sep n2 = false ->
  list_file_path f1 n1 = list_file_path f2 n2 -> n1 = n2.
Proof.
  intros H1 H2. unfold list_file_path.
  rewrite !join_relative by apply list_file_name_relative.
  intros H. apply (f_equal PyStr.basename) in H.
  rewrite !basename_app in H; try apply dir_prefix_shape;
    try (rewrite !contains_char_app, ?H1, ?H2; reflexivity).
  apply list_file_name_inj. exact H.
Qed.

Lemma writes_app l1 l2 : writes (l1 ++ l2) = writes l1 ++ writes l2.
Proof. apply omap_app. Qed.

Lemma turns_writes folder vids : forall errs,
  writes (concat (zip_with (removal_turn folder) vids errs)) = [].
Proof.
  induction vids as [|v vids IH]; intros [|e errs]; simpl; auto.
  destruct e; apply IH.
Qed.

Lemma cleaned_writes env t w2 w3 evs :
  cleaned env t w2 w3 evs -> writes evs = [].
Proof.
  unfold cleaned. destruct (deletes_sources t).
  - intros (errs & -> & _). apply turns_writes.
  - intros [_ ->]. reflexivity.
Qed.

Lemma callback_events_writes t : writes (callback_events t) = [].
Proof.
  unfold callback_events. destruct (t_callback t) as [cb|]; [|reflexivity].
  destruct (cb (t_output t)); reflexivity.
Qed.

Lemma open_write_writable env p data w v w' evs :
  open_write env p data w = (v, w', evs) ->
  writable env (fs w) p = match v with inl _ => true | inr _ => false end.
Proof.
  unfold open_write, writable.
  destruct (denied env !! p) as [msg|].
  - intros [= <- _ _]. reflexivity.
  - rewrite bool_decide_eq_true_2 by reflexivity.
    destruct (fs w !! p) as [[?|?]|]; intros [= <- _ _]; reflexivity.
Qed.

Lemma worker_path_writes env t w w' evs :
  worker_path env t w w' evs ->
  writes evs
  = if writable env (fs w) (list_file_path (t_folder t) (t_name t))
    then [(list_file_path (t_folder t) (t_name t),
           list_data (t_folder t) (t_videos t))]
    else [].
Proof.
  intros H. destruct H as [msg Hw | Hw Hx | res fs2 Hw Hx Ht Hz
                          | out err fs2 w3 evs_c w4 rm_err Hw Hx Ht Hc Hw4];
    rewrite (open_write_writable _ _ _ _ _ _ _ Hw).
  - reflexivity.
  - reflexivity.
  - destruct res; reflexivity.
  - rewrite !writes_app, (cleaned_writes _ _ _ _ _ Hc), callback_events_writes.
    reflexivity.
Qed.

(** ** Interleavings *)

Lemma submit_phase_trans r pc w :
  sub_trans r w pc (pc_of (value_of (submit_phase r pc w)))
    (world_of (submit_phase r pc w)).
Proof.
  unfold value_of, world_of.
  destruct pc as [| |vs|vs|x|e]; cbn [submit_phase].
  - rewrite phase_check_spec.
    destruct (StitchManager.is_stitching _ _) eqn:E; cbn [fst snd pc_of];
      constructor; exact E.
  - rewrite phase_validate_spec.
    destruct (folder_ok (fs w) (r_folder r)) eqn:Ef; cbn [negb].
    + destruct (snapshot_of (fs w) (r_folder r)) as [|v vs] eqn:Es;
        cbn [fst snd pc_of].
      * apply st_validate_bad. right. exact Es.
      * apply st_validate_ok; assumption.
    + cbn [fst snd pc_of]. apply st_validate_bad. left. exact Ef.
  - rewrite phase_register_spec.
    destruct (StitchManager.is_stitching _ _) eqn:E; cbn [fst snd pc_of];
      constructor; exact E.
  - destruct (phase_launch_spec r vs w)
      as [(ordered & _ & Hp & ->) | (e & -> & _ & Hn)]; cbn [fst snd pc_of].
    + apply st_launch_ok. exact Hp.
    + apply st_launch_raise. exact Hn.
  - constructor.
  - constructor.
Qed.

Lemma guarded_same env t w :
  same_but_fs w (world_of (process_videos_guarded env t w)).
Proof.
  destruct (process_videos_guarded_path env t w) as (w' & evs & -> & Hp).
  eapply worker_path_same. exact Hp.
Qed.

Lemma count_insert {A} (p : A -> bool) (l : list A) i x y :
  l !! i = Some x ->
  (count p (<[i := y]> l) + b2n (p x) = count p l + b2n (p y))%nat.
Proof.
  unfold count. revert i. induction l as [|a l IH]; intros i H; [discriminate|].
  destruct i as [|i]; simpl in *.
  - injection H as ->. destruct (p x), (p y); simpl; lia.
  - specialize (IH i H). destruct (p a); simpl; lia.
Qed.

Lemma count_snoc {A} (p : A -> bool) (l : list A) x :
  count p (l ++ [x]) = (count p l + b2n (p x))%nat.
Proof.
  unfold count. rewrite List.filter_app, length_app. simpl.
  destruct (p x); reflexivity.
Qed.


Lemma count_positive {A} (p : A -> bool) (l : list A) i x :
  l !! i = Some x -> p x = true -> (0 < count p l)%nat.
Proof.
  unfold count. revert i. induction l as [|a l IH]; intros i H Hp;
    [discriminate|].
  destruct i as [|i]; simpl in *.
  - injection H as ->. rewrite Hp. simpl. lia.
  - specialize (IH i H Hp). destruct (p a); simpl; lia.
Qed.

Lemma step_sub env i s r pc :
  sys_subs s !! i = Some (r, pc) ->
  exists pc' w' ev,
    step env (Sub i) s
    = mkSystem w' (<[i := (r, pc')]> (sys_subs s)) (sys_trace s ++ ev)
    /\ sub_trans r (sys_world s) pc pc' w'.
Proof.
  intros H. unfold step. rewrite H.
  pose proof (submit_phase_trans r pc (sys_world s)) as Ht.
  destruct (submit_phase r pc (sys_world s)) as [[v w'] ev].
  exists (pc_of v), w', ev. split; [reflexivity | exact Ht].
Qed.

Lemma step_wrk env j s :
  (exists t w' ev,
     threads (sys_world s) !! j = Some (t, Ready)
     /\ same_but_fs (sys_world s) w'
     /\ step env (Wrk j) s
        = mkSystem
            (set_threads (<[j := (t, Finalizing)]> (threads (sys_world s))) w')
            (sys_subs s) (sys_trace s ++ ev))
  \/ (exists t,
        threads (sys_world s) !! j = Some (t, Finalizing)
        /\ step env (Wrk j) s
           = mkSystem
               (set_threads
                  (<[j := (t, Terminated)]> (threads (sys_world s)))
                  (set_registry
                     (delete (t_name t) (active_stitches (sys_world s)))
                     (sys_world s)))
               (sys_subs s) (sys_trace s ++ []))
  \/ step env (Wrk j) s = s.
Proof.
  unfold step.
  destruct (threads (sys_world s) !! j) as [[t [| |]]|] eqn:E; auto.
  - left. pose proof (guarded_same env t (sys_world s)) as Hs.
    destruct (process_videos_guarded env t (sys_world s)) as [[v w'] ev].
    unfold world_of in Hs. cbn [fst snd] in Hs.
    exists t, w', ev. split; [reflexivity|]. split; [exact Hs|].
    destruct Hs as (_ & -> & _). reflexivity.
  - right. left. exists t. split; [reflexivity|].
    unfold _unregister_stitch. rewrite unregister_delete. reflexivity.
Qed.

Lemma is_stitching_registered n folder output w :
  StitchManager.is_stitching (active_stitches (registered n folder output w)) n
  = true.
Proof.
  apply is_stitching_spec. simpl. rewrite lookup_insert_eq. eauto.
Qed.

Lemma is_stitching_deleted (r : gmap string Job) n :
  StitchManager.is_stitching (delete n r) n = false.
Proof.
  unfold StitchManager.is_stitching. apply bool_decide_eq_false_2.
  rewrite lookup_delete_eq. intros [? ?]. discriminate.
Qed.

Lemma owned_step env n t s : owned n s -> owned n (step env t s).
Proof.
  intros [Hn Ht Ho Ha]. destruct t as [i|j].
  - destruct (sys_subs s !! i) as [[r pc]|] eqn:E.
    2:{ unfold step. rewrite E. constructor; assumption. }
    destruct (step_sub env i s r pc E) as (pc' & w' & ev & -> & Htr).
    assert (Hr : r_name r = n).
    { rewrite Forall_forall in Hn. apply (Hn (r, pc)).
      eapply list_elem_of_lookup_2. exact E. }
    pose proof (count_insert is_holder _ i _ (r, pc') E) as Hh.
    pose proof (count_insert is_accepted _ i _ (r, pc') E) as Hc.
    assert (Hn' : Forall (fun x => r_name (fst x) = n)
                    (<[i := (r, pc')]> (sys_subs s))).
    { apply Forall_insert; assumption. }
    destruct Htr; constructor; cbn [sys_world sys_subs]; try assumption;
      cbn [is_holder is_accepted snd b2n] in Hh, Hc; try lia.
    + rewrite Hr in H. rewrite H in Ho.
      rewrite <- Hr, is_stitching_registered.
      change (threads (registered _ _ _ (sys_world s)))
        with (threads (sys_world s)).
      simpl in *. lia.
    + change (threads (registered _ _ _ (sys_world s)))
        with (threads (sys_world s)). lia.
    + simpl. apply Forall_app. split; [assumption|].
      constructor; [exact Hr | constructor].
    + simpl. rewrite count_snoc. simpl. lia.
    + simpl. rewrite length_app. simpl. lia.
  - destruct (step_wrk env j s)
      as [(t & w' & ev & E & (Hreg & Hth & _) & ->)
         | [(t & E & ->) | ->]]; [| |constructor; assumption].
    + pose proof (count_insert is_live _ j _ (t, Finalizing) E) as Hl.
      assert (Htn : t_name t = n).
      { rewrite Forall_forall in Ht. apply (Ht (t, Ready)).
        eapply list_elem_of_lookup_2. exact E. }
      constructor; cbn [sys_world sys_subs]; simpl.
      * assumption.
      * apply Forall_insert; assumption.
      * rewrite Hreg. cbn [is_live snd b2n] in Hl. lia.
      * rewrite length_insert. assumption.
    + pose proof (count_insert is_live _ j _ (t, Terminated) E) as Hl.
      assert (Htn : t_name t = n).
      { rewrite Forall_forall in Ht. apply (Ht (t, Finalizing)).
        eapply list_elem_of_lookup_2. exact E. }
      pose proof (count_positive is_live _ j _ E eq_refl) as Hpos.
      constructor; cbn [sys_world sys_subs]; simpl.
      * assumption.
      * apply Forall_insert; assumption.
      * rewrite Htn, is_stitching_deleted.
        cbn [is_live snd b2n] in Hl.
        destruct (StitchManager.is_stitching _ _); simpl in *; lia.
      * rewrite length_insert. assumption.
Qed.






Lemma owned_run env n sched : forall s,
  owned n s -> owned n (run env sched s).
Proof.
  unfold run. induction sched as [|t sched IH]; intros s Ho; [auto|].
  simpl. apply IH. apply owned_step. exact Ho.
Qed.

Lemma count_map_const {A B} (p : B -> bool) (f : A -> B) (l : list A) b :
  (forall x, p (f x) = b) ->
  count p (map f l) = if b then length l else 0%nat.
Proof.
  intros H. unfold count. induction l as [|a l IH]; simpl.
  - destruct b; reflexivity.
  - rewrite H. destruct b; simpl; rewrite IH; reflexivity.
Qed.

Lemma owned_start n w rs :
  Forall (fun r => r_name r = n) rs ->
  threads w = [] ->
  StitchManager.is_stitching (active_stitches w) n = false ->
  owned n (start w rs).
Proof.
  intros Hn Ht Ha. unfold start. constructor; cbn [sys_world sys_subs].
  - apply Forall_fmap. exact Hn.
  - rewrite Ht. constructor.
  - rewrite Ht, Ha. rewrite (count_map_const _ _ _ false) by reflexivity.
    reflexivity.
  - rewrite Ht. rewrite (count_map_const _ _ _ false) by reflexivity.
    reflexivity.
Qed.


Lemma b2n_cases (b : bool) : b2n b = 0%nat \/ b2n b = 1%nat.
Proof. destruct b; [right | left]; reflexivity. Qed.




(** ** The worker, outcome by outcome *)

Lemma commands_app l1 l2 : commands (l1 ++ l2) = commands l1 ++ commands l2.
Proof. apply omap_app. Qed.

Lemma turns_commands folder vids : forall errs,
  commands (concat (zip_with (removal_turn folder) vids errs)) = [].
Proof.
  induction vids as [|v vids IH]; intros [|e errs]; simpl; auto.
  destruct e; apply IH.
Qed.

Lemma cleaned_commands env t w2 w3 evs :
  cleaned env t w2 w3 evs -> commands evs = [].
Proof.
  unfold cleaned. destruct (deletes_sources t).
  - intros (errs & -> & _). apply turns_commands.
  - intros [_ ->]. reflexivity.
Qed.

Lemma callback_events_commands t : commands (callback_events t) = [].
Proof.
  unfold callback_events. destruct (t_callback t) as [cb|]; [|reflexivity].
  destruct (cb (t_output t)); reflexivity.
Qed.

(** The tool is run on the two paths that get to it, and on no other. *)
Lemma worker_path_reaches env t w w' evs :
  worker_path env t w w' evs ->
  commands evs
  = if reaches_tool env t w
    then [(command t w, fst (tool env (command t w) (fs (written t w))))]
    else [].
Proof.
  intros H. unfold reaches_tool.
  destruct H as [msg Hw | Hw Hx | res fs2 Hw Hx Ht Hz
                | out err fs2 w3 evs_c w4 rm_err Hw Hx Ht Hc Hw4];
    rewrite (open_write_writable _ _ _ _ _ _ _ Hw); cbn [andb].
  - reflexivity.
  - rewrite bool_decide_eq_false_2; [reflexivity|].
    rewrite Hx. intros [? ?]. discriminate.
  - rewrite bool_decide_eq_true_2 by exact Hx. rewrite Ht.
    destruct res; reflexivity.
  - rewrite bool_decide_eq_true_2 by exact Hx. rewrite Ht.
    rewrite !commands_app, (cleaned_commands _ _ _ _ _ Hc),
      callback_events_commands. reflexivity.
Qed.

Lemma remove_quietly env p w :
  try_except (os_remove env p) (fun _ => ret tt) w
  = (inl tt,
     removed env p w, [EvRemove p (remove_error env (fs w) p)]).
Proof.
  unfold try_except, os_remove, removed, remove_error, ret.
  destruct (denied env !! p) as [msg|]; [reflexivity|].
  destruct (fs w !! p) as [[m d|m]|]; reflexivity.
Qed.

Lemma open_write_ok env p data w :
  writable env (fs w) p = true ->
  open_write env p data w
  = (inl tt, set_fs (<[p := File (clock w) data]> (fs w)) w, [EvWrite p data]).
Proof.
  intros H. destruct (open_write_cases env p data w) as [(msg & Hw) | Hw];
    [|exact Hw].
  rewrite (open_write_writable _ _ _ _ _ _ _ Hw) in H. discriminate.
Qed.

Lemma open_write_refused env p data w :
  writable env (fs w) p = false ->
  open_write env p data w = (inr (Exception (write_error env p)), w, []).
Proof.
  unfold writable, open_write, write_error.
  destruct (denied env !! p) as [msg|]; [reflexivity|].
  rewrite bool_decide_eq_true_2 by reflexivity. cbn [andb].
  destruct (fs w !! p) as [[?|?]|]; try discriminate. reflexivity.
Qed.

(** The success path, with what the removal of the list file does. *)
Lemma process_videos_guarded_success env t w out err fs2 :
  let lf := list_file_path (t_folder t) (t_name t) in
  writable env (fs w) lf = true ->
  is_Some (fs (written t w) !! ffmpeg_path_of (config_data w)) ->
  tool env (command t w) (fs (written t w)) = (Completed 0 out err, fs2) ->
  exists w3 evs_c,
    cleaned env t (set_fs fs2 (written t w)) w3 evs_c
    /\ process_videos_guarded env t w
       = (inl tt,
          removed env lf w3,
          [EvWrite lf (list_data (t_folder t) (t_videos t));
           EvRun (command t w) (Completed 0 out err);
           EvLog LOG_INFO
             ("Successfully stitched videos into " +:+ t_output t)]
          ++ evs_c
          ++ [EvRemove lf (remove_error env (fs w3) lf)]
          ++ callback_events t).
Proof.
  cbv zeta. intros Hwr Hx Ht.
  pose proof (open_write_ok env _ (list_data (t_folder t) (t_videos t)) w Hwr)
    as Hw.
  fold (written t w) in Hw.
  assert (Hcfg : get_config (written t w)
                 = (inl (config_data w), written t w, []))
    by reflexivity.
  assert (Hex : os_path_exists (ffmpeg_path_of (config_data w))
                  (written t w) = (inl true, written t w, [])).
  { unfold os_path_exists. rewrite bool_decide_eq_true_2 by exact Hx.
    reflexivity. }
  set (w2 := set_fs fs2 (written t w)).
  assert (Hrun : subprocess_run env (command t w) (written t w)
                 = (inl tt, w2, [EvRun (command t w) (Completed 0 out err)])).
  { unfold subprocess_run. rewrite Ht. reflexivity. }
  assert (Hc : exists w3 evs_c,
    (if t_cleanup t && negb (PyStr.startswith (t_output t) "_comp_")
     then remove_sources env (t_folder t) (t_videos t)
     else ret tt) w2 = (inl tt, w3, evs_c) /\ cleaned env t w2 w3 evs_c).
  { unfold cleaned, deletes_sources.
    destruct (t_cleanup t && negb (PyStr.startswith (t_output t) "_comp_")).
    - destruct (remove_sources_spec env (t_folder t) (t_videos t) w2)
        as (errs & w3 & Hr & Hrest).
      eexists w3, _. split; [exact Hr|]. exists errs.
      split; [reflexivity | exact Hrest].
    - exists w2, []. split; [reflexivity | split; reflexivity]. }
  destruct Hc as (w3 & evs_c & Hc & Hclean).
  exists w3, evs_c. split; [exact Hclean|].
  pose proof (remove_quietly env (list_file_path (t_folder t) (t_name t)) w3)
    as Hrm.
  assert (Hlog : script_log LOG_INFO
            ("Successfully stitched videos into " +:+ t_output t) w2
          = (inl tt, w2,
             [EvLog LOG_INFO
                ("Successfully stitched videos into " +:+ t_output t)]))
    by reflexivity.
  set (w4 := removed env (list_file_path (t_folder t) (t_name t)) w3) in *.
  assert (Htry : exists v,
    process_videos_try env t w
    = (v, w4,
       [EvWrite (list_file_path (t_folder t) (t_name t))
          (list_data (t_folder t) (t_videos t));
        EvRun (command t w) (Completed 0 out err);
        EvLog LOG_INFO
          ("Successfully stitched videos into " +:+ t_output t)]
       ++ evs_c
       ++ [EvRemove (list_file_path (t_folder t) (t_name t))
             (remove_error env (fs w3)
                (list_file_path (t_folder t) (t_name t)))]
       ++ match t_callback t with
          | Some _ => [EvCallback (t_output t)] | None => [] end)
    /\ v = match t_callback t with
           | Some cb => match cb (t_output t) with
                        | None => inl tt
                        | Some msg => inr (Exception msg)
                        end
           | None => inl tt
           end).
  { unfold process_videos_try.
    rewrite (bind_ok _ _ _ _ _ _ Hw). cbv beta.
    rewrite (bind_ok _ _ _ _ _ _ Hcfg). cbv beta zeta.
    rewrite (bind_ok _ _ _ _ _ _ Hex). cbv beta iota.
    cbn [negb]. cbv iota. fold (command t w).
    rewrite (bind_ok _ _ _ _ _ _ Hrun). cbv beta.
    rewrite (bind_ok _ _ _ _ _ _ Hlog). cbv beta.
    rewrite (bind_ok _ _ _ _ _ _ Hc). cbv beta.
    rewrite (bind_ok _ _ _ _ _ _ Hrm). cbv beta.
    unfold call, ret, prepend.
    destruct (t_callback t) as [cb|]; eexists; (split; [reflexivity|]);
      reflexivity. }
  unfold process_videos_guarded.
  destruct Htry as (v & Htry & Hv).
  unfold callback_events.
  destruct (t_callback t) as [cb|]; [destruct (cb (t_output t)) as [msg|]|];
    subst v.
  - rewrite (try_except_raise _ _ _ _ _ _ Htry). unfold prepend. simpl.
    rewrite <- !app_assoc. reflexivity.
  - rewrite (try_except_ok _ _ _ _ _ _ Htry). reflexivity.
  - rewrite (try_except_ok _ _ _ _ _ _ Htry). reflexivity.
Qed.

Lemma process_videos_finally env t w w' evs :
  process_videos_guarded env t w = (inl tt, w', evs) ->
  active_stitches w' = active_stitches w ->
  process_videos env t w
  = (inl tt, set_registry (delete (t_name t) (active_stitches w)) w', evs).
Proof.
  intros Hg Ha. unfold process_videos, try_finally. rewrite Hg.
  unfold _unregister_stitch. rewrite unregister_delete, app_nil_r, Ha.
  reflexivity.
Qed.

Lemma process_videos_unwritable env t w :
  writable env (fs w) (list_file_path (t_folder t) (t_name t)) = false ->
  process_videos env t w
  = (inl tt, released t w w,
     [EvLog LOG_ERROR
        ("Error during video stitching: " +:+
         write_error env (list_file_path (t_folder t) (t_name t)))]).
Proof.
  intros Hwr.
  pose proof (open_write_refused env _ (list_data (t_folder t) (t_videos t))
                w Hwr) as Hw.
  apply process_videos_finally; [|reflexivity].
  unfold process_videos_guarded, process_videos_try.
  rewrite (try_except_raise _ _ _ _ _ _ (bind_raise _ _ _ _ _ _ Hw)).
  reflexivity.
Qed.

Lemma process_videos_not_found env t w :
  writable env (fs w) (list_file_path (t_folder t) (t_name t)) = true ->
  fs (written t w) !! ffmpeg_path_of (config_data w) = None ->
  process_videos env t w
  = (inl tt, released t w (written t w),
     [EvWrite (list_file_path (t_folder t) (t_name t))
        (list_data (t_folder t) (t_videos t));
      not_found_log w]).
Proof.
  intros Hwr Hx.
  destruct (process_videos_run env t w) as (w' & evs & -> & Hp).
  destruct Hp as [msg Hw | Hw _ | res fs2 Hw Hx' Ht Hz
                 | out err fs2 w3 evs_c w4 rm_err Hw Hx' Ht Hc Hw4].
  - rewrite (open_write_writable _ _ _ _ _ _ _ Hw) in Hwr. discriminate.
  - reflexivity.
  - rewrite Hx in Hx'. destruct Hx'. discriminate.
  - rewrite Hx in Hx'. destruct Hx'. discriminate.
Qed.

Lemma process_videos_failed env t w res fs2 :
  writable env (fs w) (list_file_path (t_folder t) (t_name t)) = true ->
  is_Some (fs (written t w) !! ffmpeg_path_of (config_data w)) ->
  tool env (command t w) (fs (written t w)) = (res, fs2) ->
  exit_zero res = false ->
  process_videos env t w
  = (inl tt, released t w (set_fs fs2 (written t w)),
     [EvWrite (list_file_path (t_folder t) (t_name t))
        (list_data (t_folder t) (t_videos t));
      EvRun (command t w) res;
      failure_log res]).
Proof.
  intros Hwr Hx Ht Hz.
  destruct (process_videos_run env t w) as (w' & evs & -> & Hp).
  destruct Hp as [msg Hw | Hw Hx' | res' fs2' Hw Hx' Ht' Hz'
                 | out err fs2' w3 evs_c w4 rm_err Hw Hx' Ht' Hc Hw4].
  - rewrite (open_write_writable _ _ _ _ _ _ _ Hw) in Hwr. discriminate.
  - rewrite Hx' in Hx. destruct Hx. discriminate.
  - rewrite Ht in Ht'. injection Ht' as <- <-. reflexivity.
  - rewrite Ht in Ht'. injection Ht' as -> <-. discriminate.
Qed.

Lemma process_videos_succeeded env t w out err fs2 :
  writable env (fs w) (list_file_path (t_folder t) (t_name t)) = true ->
  is_Some (fs (written t w) !! ffmpeg_path_of (config_data w)) ->
  tool env (command t w) (fs (written t w)) = (Completed 0 out err, fs2) ->
  exists w3 evs_c,
    cleaned env t (set_fs fs2 (written t w)) w3 evs_c
    /\ process_videos env t w
       = (inl tt,
          released t w (removed env (list_file_path (t_folder t) (t_name t)) w3),
          [EvWrite (list_file_path (t_folder t) (t_name t))
             (list_data (t_folder t) (t_videos t));
           EvRun (command t w) (Completed 0 out err);
           EvLog LOG_INFO
             ("Successfully stitched videos into " +:+ t_output t)]
          ++ evs_c
          ++ [EvRemove (list_file_path (t_folder t) (t_name t))
                (remove_error env (fs w3)
                   (list_file_path (t_folder t) (t_name t)))]
          ++ callback_events t).
Proof.
  intros Hwr Hx Ht.
  destruct (process_videos_guarded_success env t w out err fs2 Hwr Hx Ht)
    as (w3 & evs_c & Hc & Hg).
  exists w3, evs_c. split; [exact Hc|].
  apply process_videos_finally; [exact Hg|].
  destruct (cleaned_same _ _ _ _ _ Hc) as (Ha & _).
  unfold removed. destruct (remove_error env (fs w3) _); simpl; exact Ha.
Qed.

Lemma exit_zero_inv res :
  exit_zero res = true -> exists out err, res = Completed 0 out err.
Proof.
  destruct res as [rc out err|msg]; [|discriminate]. simpl.
  intros H. apply bool_decide_eq_true_1 in H. subst rc. eauto.
Qed.

Lemma reaches_tool_spec env t w :
  reaches_tool env t w = true <->
  writable env (fs w) (list_file_path (t_folder t) (t_name t)) = true
  /\ is_Some (fs (written t w) !! ffmpeg_path_of (config_data w)).
Proof.
  unfold reaches_tool. rewrite andb_true_iff, bool_decide_eq_true. tauto.
Qed.

Lemma failure_log_is_log res :
  exists msg, failure_log res = EvLog LOG_ERROR msg.
Proof. destruct res; eexists; reflexivity. Qed.

(** The worker has run the tool with exit status zero exactly when it got
    to the tool and the tool exited so. *)
Lemma tool_succeeded_reaches env t w :
  tool_succeeded (events_of (process_videos env t w))
  = reaches_tool env t w
    && exit_zero (fst (tool env (command t w) (fs (written t w)))).
Proof.
  unfold reaches_tool.
  destruct (writable env (fs w) (list_file_path (t_folder t) (t_name t)))
    eqn:Hwr; cbn [andb].
  2:{ rewrite (process_videos_unwritable env t w Hwr). reflexivity. }
  case_bool_decide as Hx; cbn [andb].
  2:{ rewrite (process_videos_not_found env t w Hwr); [reflexivity|].
      destruct (fs (written t w) !! _);
        [exfalso; apply Hx; eauto | reflexivity]. }
  destruct (tool env (command t w) (fs (written t w))) as [res fs2] eqn:Ht.
  cbn [fst]. destruct (exit_zero res) eqn:Hz.
  - destruct (exit_zero_inv res Hz) as (out & err & ->).
    destruct (process_videos_succeeded env t w out err fs2 Hwr Hx Ht)
      as (w3 & evs_c & Hc & ->).
    reflexivity.
  - rewrite (process_videos_failed env t w res fs2 Hwr Hx Ht Hz).
    unfold events_of, tool_succeeded. cbn [snd].
    destruct (failure_log_is_log res) as [msg ->]. simpl.
    rewrite Hz. reflexivity.
Qed.

Lemma removed_lookup env p w q :
  fs (removed env p w) !! q
  = if decide (q = p)
    then match remove_error env (fs w) p with
         | Some _ => fs w !! p
         | None => None
         end
    else fs w !! q.
Proof.
  unfold removed.
  destruct (decide (q = p)) as [->|Hne];
    destruct (remove_error env (fs w) p); simpl; try reflexivity.
  - apply lookup_delete_eq.
  - apply lookup_delete_ne. congruence.
Qed.

Lemma tool_runs_commands (evs : list event) :
  tool_runs evs = map snd (commands evs).
Proof.
  induction evs as [|e evs IH]; [reflexivity|].
  destruct e; simpl; rewrite ?IH; reflexivity.
Qed.

(** * The claims *)





(** C2: whichever way the worker ends (the tool succeeds, exits non-zero,
    cannot be launched or is not found, the list file cannot be written, the
    callback raises), [process_videos] returns normally, the name is gone
    from the registry, the other entries stay, and [is_stitching] answers
    [False] afterwards. *)
Theorem worker_always_unregisters (env : Env) (t : Task) (w : World) :
  let r := process_videos env t w in
  value_of r = inl tt
  /\ active_stitches (world_of r) = delete (t_name t) (active_stitches w)
  /\ value_of (is_stitching (t_name t) (world_of r)) = inl false.
Proof.
  cbv zeta. destruct (process_videos_run env t w) as (w' & evs & -> & _).
  unfold value_of, world_of, is_stitching. simpl.
  repeat split. f_equal. unfold StitchManager.is_stitching.
  apply bool_decide_eq_false_2. rewrite lookup_delete_eq.
  intros [? ?]. discriminate.
Qed.

(** C3: the worker gets to invoke the tool of the environment when the
    list file can be written and the configured tool path exists, and it
    invokes it once.  It calls [callback(output_path)] once, when a callback
    was given, exactly when that invocation exits with status zero; when
    the tool is not invoked or does not exit with status zero, the callback
    is not called. *)
Theorem callback_once_iff_tool_exit_zero (env : Env) (t : Task) (w : World) :
  let evs := events_of (process_videos env t w) in
  let ran := fst (tool env (command t w) (fs (written t w))) in
  let success := reaches_tool env t w && exit_zero ran in
  tool_runs evs = (if reaches_tool env t w then [ran] else [])
  /\ tool_succeeded evs = success
  /\ callbacks evs
     = if success
       then match t_callback t with Some _ => [t_output t] | None => [] end
       else [].
Proof.
  cbv zeta. split.
  { destruct (process_videos_run env t w) as (w' & evs & -> & Hp).
    unfold events_of. cbn [snd].
    rewrite tool_runs_commands, (worker_path_reaches _ _ _ _ _ Hp).
    destruct (reaches_tool env t w); reflexivity. }
  split; [apply tool_succeeded_reaches|].
  rewrite <- tool_succeeded_reaches.
  destruct (process_videos_run env t w) as (w' & evs & -> & Hp).
  unfold events_of. simpl. eapply worker_path_callbacks. exact Hp.
Qed.

Lemma callback_once_iff_tool_exit_zero_witness :
  callbacks (events_of (process_videos env_ok notifying_task sample_world))
  = ["/out/demo.mp4"]
  /\ callbacks (events_of (process_videos env_fail notifying_task sample_world))
     = []
  /\ callbacks
       (events_of (process_videos env_ok notifying_task world_default_cfg))
     = [].
Proof.
  pose proof (callback_once_iff_tool_exit_zero env_ok notifying_task
                sample_world) as (_ & _ & H1).
  pose proof (callback_once_iff_tool_exit_zero env_fail notifying_task
                sample_world) as (_ & _ & H2).
  pose proof (callback_once_iff_tool_exit_zero env_ok notifying_task
                world_default_cfg) as (_ & _ & H3).
  split; [exact (eq_trans H1 eq_refl)|].
  split; [exact (eq_trans H2 eq_refl) | exact (eq_trans H3 eq_refl)].
Defined.

(** C4: when the tool has not exited with status zero the worker calls
    [os.remove] on nothing.  When it has, the cleanup flag is set and the
    output path is not protected, the trace holds one turn of the removal
    loop for every snapshot file, in snapshot order, whatever the outcome
    of the turns before it: a refused removal is logged as an error with
    the text of the operating system, every file that can be removed is
    gone in the end, and the worker goes on to remove the list file and to
    call the callback. *)
Theorem source_cleanup_only_on_success (env : Env) (t : Task) (w : World) :
  let r := process_videos env t w in
  let evs := events_of r in
  let list_file := list_file_path (t_folder t) (t_name t) in
  let fs2 := snd (tool env (command t w) (fs (written t w))) in
  (tool_succeeded evs = false -> removals evs = [])
  /\ (tool_succeeded evs = true ->
      t_cleanup t = true ->
      PyStr.startswith (t_output t) "_comp_" = false ->
      exists errs pre post,
        evs = pre
              ++ concat (zip_with (removal_turn (t_folder t)) (t_videos t) errs)
              ++ post
        /\ Forall2 (refused env (t_folder t)) (t_videos t) errs
        /\ In (EvLog LOG_INFO
                 ("Successfully stitched videos into " +:+ t_output t)) pre
        /\ removals pre = []
        /\ removals post = [list_file]
        /\ callbacks post
           = match t_callback t with Some _ => [t_output t] | None => [] end
        /\ (forall v, v ∈ t_videos t ->
              denied env !! PyStr.join (t_folder t) v = None ->
              is_file fs2 (PyStr.join (t_folder t) v) ->
              fs (world_of r) !! PyStr.join (t_folder t) v = None)).
Proof.
  cbv zeta. destruct (process_videos_run env t w) as (w' & evs & -> & Hp).
  unfold events_of, world_of. cbn [fst snd]. split.
  - intros Hz. rewrite (worker_path_removals _ _ _ _ _ Hp), Hz. reflexivity.
  - intros Hz Hcl Hpr.
    destruct (tool_succeeded_path _ _ _ _ _ Hp Hz)
      as (out & err & fs2 & w3 & evs_c & rm_err & Ht & Hc & Hw' & ->).
    unfold cleaned, deletes_sources in Hc. rewrite Hcl, Hpr in Hc.
    cbn [andb negb] in Hc.
    destruct Hc as (errs & -> & Hrf & Hs & Hm & Ho & Hg).
    exists errs. eexists. eexists. split; [reflexivity|].
    split; [exact Hrf|]. split; [right; right; left; reflexivity|].
    split; [reflexivity|].
    split.
    { rewrite removals_app. destruct (callback_events_quiet t) as [-> _].
      reflexivity. }
    split.
    { rewrite callbacks_app. simpl. apply callback_events_callbacks. }
    intros v Hv Hd Hf. rewrite Ht in Hf. cbn [snd] in Hf.
    specialize (Hg v Hv Hd Hf).
    destruct Hw' as [-> | ->]; simpl; [exact Hg|].
    destruct (decide (list_file_path (t_folder t) (t_name t)
                      = PyStr.join (t_folder t) v)) as [<-|Hne].
    + apply lookup_delete_eq.
    + rewrite lookup_delete_ne by exact Hne. exact Hg.
Qed.

Lemma source_cleanup_only_on_success_witness :
  let r := process_videos env_locked sample_task sample_world in
  exists errs pre post,
    events_of r
    = pre ++ concat (zip_with (removal_turn "/clips") ["a.mp4"; "b.mp4"] errs)
      ++ post
    /\ Forall2 (refused env_locked "/clips") ["a.mp4"; "b.mp4"] errs
    /\ In (EvLog LOG_INFO "Successfully stitched videos into /out/demo.mp4") pre
    /\ removals pre = []
    /\ removals post = ["/clips/file_list_demo.txt"]
    /\ callbacks post = []
    /\ (forall v, v ∈ ["a.mp4"; "b.mp4"] ->
          denied env_locked !! PyStr.join "/clips" v = None ->
          is_file (snd (tool env_locked (command sample_task sample_world)
                          (fs (written sample_task sample_world))))
            (PyStr.join "/clips" v) ->
          fs (world_of r) !! PyStr.join "/clips" v = None).
Proof.
  apply (source_cleanup_only_on_success env_locked sample_task sample_world);
    vm_compute; reflexivity.
Defined.

(** The removal of [a.mp4] is refused and logged, [b.mp4] is removed all
    the same, and the worker ends as on any success. *)
Example refused_removal_sample :
  let r := process_videos env_locked sample_task sample_world in
  events_of r
  = [EvWrite "/clips/file_list_demo.txt" (list_data "/clips" ["a.mp4"; "b.mp4"]);
     EvRun ["/usr/bin/ffmpeg"; "-f"; "concat"; "-safe"; "0"; "-i";
            "/clips/file_list_demo.txt"; "-c"; "copy"; "/out/demo.mp4"]
       (Completed 0 "" "");
     EvLog LOG_INFO "Successfully stitched videos into /out/demo.mp4";
     EvRemove "/clips/a.mp4"
       (Some "[Errno 13] Permission denied: '/clips/a.mp4'");
     EvLog LOG_ERROR
       "Failed to delete video a.mp4: [Errno 13] Permission denied: '/clips/a.mp4'";
     EvRemove "/clips/b.mp4" None;
     EvLog LOG_INFO "Deleted source video: b.mp4";
     EvRemove "/clips/file_list_demo.txt" None]
  /\ is_file (fs (world_of r)) "/clips/a.mp4"
  /\ fs (world_of r) !! "/clips/b.mp4" = None.
Proof. vm_compute. repeat split; eauto. Qed.

(** C5, as the code has it: the worker writes one file, the list file, when
    [open] lets it; its text is, entry by entry in snapshot order, the
    line [file '<path>'] and a newline, the path being the folder path
    joined with the name, absolute exactly when the folder path or the name
    is; read back line by line it gives one line per entry when no path
    holds a newline.  The file is named after the compilation inside the
    folder: two jobs on one folder, or two jobs whose names hold no
    separator, share it only when they share their name. *)
Theorem list_artifact_format (env : Env) (t : Task) (w : World) :
  let folder := t_folder t in
  let vids := t_videos t in
  let list_file := list_file_path folder (t_name t) in
  let evs := events_of (process_videos env t w) in
  writes evs
  = (if writable env (fs w) list_file
     then [(list_file, list_data folder vids)] else [])
  /\ list_data folder vids
     = foldr (fun v rest =>
                "file '" +:+ PyStr.join folder v +:+ "'" +:+ PyStr.newline
                +:+ rest) "" vids
  /\ (Forall (fun v => PyStr.contains_char PyStr.nl (PyStr.join folder v)
                       = false) vids ->
      PyStr.lines_of (list_data folder vids)
      = map (fun v => "file '" +:+ PyStr.join folder v +:+ "'") vids)
  /\ (forall v, PyStr.isabs (PyStr.join folder v)
                = PyStr.isabs folder || PyStr.isabs v)
  /\ list_file = PyStr.join folder ("file_list_" +:+ t_name t +:+ ".txt")
  /\ (forall other, list_file_path folder other = list_file ->
                    other = t_name t)
  /\ (forall folder' other,
        PyStr.contains_char PyStr.sep (t_name t) = false ->
        PyStr.contains_char PyStr.sep other = false ->
        list_file_path folder' other = list_file -> other = t_name t).
Proof.
  cbv zeta. destruct (process_videos_run env t w) as (w' & evs & -> & Hp).
  unfold events_of. cbn [snd].
  split; [apply (worker_path_writes _ _ _ _ _ Hp)|].
  split.
  { unfold list_data. induction (t_videos t) as [|v vs IH]; [reflexivity|].
    simpl. rewrite IH. unfold list_line. rewrite !append_assoc. reflexivity. }
  split; [apply list_data_lines|].
  split; [intros v; apply isabs_join|].
  split; [reflexivity|].
  split; [intros other; apply list_file_path_inj|].
  intros folder' other H1 H2 H.
  eapply list_file_path_inj_plain; [exact H2 | exact H1 | exact H].
Qed.

(** C5, as stated, fails: submitted with the folder [clips], a path
    relative to the working directory, the worker writes the line
    [file 'clips/a.mp4'], whose path is not absolute. *)
Lemma relative_folder_relative_lines :
  let submitted :=
    world_of (stitch_videos_async "demo" "clips" "/out/demo.mp4"
                None true None relative_world) in
  let t := mkTask "demo" "clips" "/out/demo.mp4" ["a.mp4"] true None in
  let evs := events_of (process_videos env_ok t submitted) in
  threads submitted = [(t, Ready)]
  /\ (exists data,
        writes evs = [("clips/file_list_demo.txt", data)]
        /\ PyStr.lines_of data = ["file 'clips/a.mp4'"])
  /\ PyStr.isabs "clips/a.mp4" = false.
Proof.
  cbv zeta. split; [vm_compute; reflexivity|].
  split; [|reflexivity]. eexists. split; vm_compute; reflexivity.
Qed.

(** Why the names must hold no separator for jobs on different folders: a
    name with a [/] in it reaches into a directory below its folder, where
    the list file of another job may live. *)
Example list_file_shared_across_folders :
  list_file_path "/clips" "x/file_list_y"
  = list_file_path "/clips/file_list_x" "y"
  /\ "x/file_list_y" <> "y".
Proof. split; [vm_compute; reflexivity | discriminate]. Qed.

(** C6: without a key of the caller the snapshot is ordered by the
    modification time of its files, oldest first: the result is a
    rearrangement of the snapshot in which no file is older than one before
    it, and three files with times [t1 < t2 < t3], listed in any order,
    come out in that one. *)
Theorem default_order_is_oldest_first
    (folder : string) (vids : list string) (w : World) :
  Forall (fun v => is_Some (fs w !! PyStr.join folder v)) vids ->
  let mtime := mtime_of (fs w) folder in
  exists ordered,
    order_videos folder None vids w = (inl ordered, w, [])
    /\ Permutation vids ordered
    /\ StronglySorted (fun a b => mtime a <= mtime b) ordered
    /\ (forall f1 f2 f3,
          Permutation vids [f1; f2; f3] ->
          mtime f1 < mtime f2 < mtime f3 ->
          ordered = [f1; f2; f3]).
Proof.
  intros Hall mtime. eexists. split; [apply order_videos_default; exact Hall|].
  fold mtime.
  split; [apply sort_stable_perm|].
  split; [apply (sort_stable_sorted mtime)|].
  intros f1 f2 f3 Hp [H12 H23]. symmetry.
  apply (sorted_unique mtime).
  - repeat constructor; lia.
  - apply (sort_stable_sorted mtime).
  - rewrite <- Hp. apply sort_stable_perm.
  - intros x y Hx Hy Hk. simpl in Hx, Hy.
    destruct Hx as [<-|[<-|[<-|[]]]], Hy as [<-|[<-|[<-|[]]]];
      try reflexivity; exfalso; lia.
Qed.

Lemma default_order_is_oldest_first_witness :
  Forall (fun v => is_Some (fs three_world !! PyStr.join "/clips" v))
    ["c.mp4"; "a.mp4"; "b.mp4"]
  /\ exists ordered,
       order_videos "/clips" None ["c.mp4"; "a.mp4"; "b.mp4"] three_world
       = (inl ordered, three_world, [])
       /\ Permutation ["c.mp4"; "a.mp4"; "b.mp4"] ordered
       /\ StronglySorted
            (fun a b => mtime_of (fs three_world) "/clips" a
                        <= mtime_of (fs three_world) "/clips" b) ordered
       /\ (forall f1 f2 f3,
             Permutation ["c.mp4"; "a.mp4"; "b.mp4"] [f1; f2; f3] ->
             mtime_of (fs three_world) "/clips" f1
             < mtime_of (fs three_world) "/clips" f2
             < mtime_of (fs three_world) "/clips" f3 ->
             ordered = [f1; f2; f3]).
Proof.
  assert (H : Forall (fun v => is_Some (fs three_world !! PyStr.join "/clips" v))
                ["c.mp4"; "a.mp4"; "b.mp4"]).
  { repeat constructor; vm_compute; eauto. }
  split; [exact H|].
  exact (default_order_is_oldest_first "/clips" ["c.mp4"; "a.mp4"; "b.mp4"]
           three_world H).
Defined.

(** Listed newest first, the three clips (times 1, 2 and 5) are handed to
    the worker oldest first. *)
Example default_order_sample :
  value_of (order_videos "/clips" None ["c.mp4"; "b.mp4"; "a.mp4"] three_world)
  = inl ["a.mp4"; "b.mp4"; "c.mp4"].
Proof. vm_compute. reflexivity. Qed.



(** C8, as the code has it: when the list file has been written and the
    configured tool path does not exist, the worker logs the error
    [FFmpeg path not found] and returns from the [try] block there: the
    tool is not run, [os.remove] is called on nothing (no source, and not
    the list file, which only the success path removes and which stays on
    disk as written), the callback is not called, and the [finally] clause
    takes the name out of the registry. *)
Theorem tool_not_found_releases_job (env : Env) (t : Task) (w : World) :
  let list_file := list_file_path (t_folder t) (t_name t) in
  let tool_path := ffmpeg_path_of (config_data w) in
  denied env !! list_file = None ->
  (forall m, fs w !! list_file <> Some (Dir m)) ->
  fs w !! tool_path = None ->
  tool_path <> list_file ->
  let r := process_videos env t w in
  value_of r = inl tt
  /\ events_of r
     = [EvWrite list_file (list_data (t_folder t) (t_videos t));
        EvLog LOG_ERROR
          ("FFmpeg path not found: " +:+ tool_path +:+
           ". Please check your config.")]
  /\ active_stitches (world_of r) = delete (t_name t) (active_stitches w)
  /\ fs (world_of r)
     = <[list_file := File (clock w) (list_data (t_folder t) (t_videos t))]>
         (fs w).
Proof.
  cbv zeta. intros Hd Hdir Hnone Hne.
  destruct (process_videos_run env t w) as (w' & evs & -> & Hp).
  unfold value_of, events_of, world_of. cbn [fst snd].
  assert (Hx : fs (written t w) !! ffmpeg_path_of (config_data w) = None).
  { unfold written. simpl. rewrite lookup_insert_ne by congruence. exact Hnone. }
  destruct Hp as [msg Hw | Hw _ | res fs2 _ Hx' Ht Hz
                 | out err fs2 w3 evs_c w4 rm_err _ Hx' Ht Hc Hw4].
  - exfalso. unfold open_write in Hw. rewrite Hd in Hw.
    destruct (fs w !! list_file_path (t_folder t) (t_name t)) as [[?|m]|] eqn:E;
      try discriminate.
    eapply Hdir. reflexivity.
  - repeat split.
  - rewrite Hx in Hx'. destruct Hx'. discriminate.
  - rewrite Hx in Hx'. destruct Hx'. discriminate.
Qed.

Lemma tool_not_found_releases_job_witness :
  let r := process_videos env_ok sample_task world_default_cfg in
  value_of r = inl tt
  /\ events_of r
     = [EvWrite "/clips/file_list_demo.txt"
          (list_data "/clips" ["a.mp4"; "b.mp4"]);
        EvLog LOG_ERROR
          "FFmpeg path not found: ffmpeg. Please check your config."]
  /\ active_stitches (world_of r) = delete "demo" ∅
  /\ fs (world_of r)
     = <["/clips/file_list_demo.txt" :=
          File 10 (list_data "/clips" ["a.mp4"; "b.mp4"])]> sample_fs.
Proof.
  apply (tool_not_found_releases_job env_ok sample_task world_default_cfg).
  - vm_compute. reflexivity.
  - intros m. vm_compute. discriminate.
  - vm_compute. reflexivity.
  - vm_compute. discriminate.
Defined.

(** C8, as stated, fails: submitted under the default configuration (the
    bare name [ffmpeg], which no file of the sample world carries), the
    worker releases the job and leaves its list file on disk. *)
Lemma tool_not_found_keeps_list_file :
  let submitted :=
    world_of (stitch_videos_async "demo" "/clips" "/out/demo.mp4"
                None true None world_default_cfg) in
  let r := process_videos env_ok sample_task submitted in
  threads submitted = [(sample_task, Ready)]
  /\ fs submitted !! ffmpeg_path_of (config_data submitted) = None
  /\ StitchManager.is_stitching (active_stitches submitted) "demo" = true
  /\ StitchManager.is_stitching (active_stitches (world_of r)) "demo" = false
  /\ fs (world_of r) !! "/clips/file_list_demo.txt"
     = Some (File 10 (list_data "/clips" ["a.mp4"; "b.mp4"]))
  /\ removals (events_of r) = [].
Proof. vm_compute. repeat split; reflexivity. Qed.

(** C9: with a key function of the caller, whatever it is, the ordering
    step returns a rearrangement of the list it is given; a submission
    either is rejected and starts no worker or hands its worker a
    rearrangement of the snapshot: the same names, each as often. *)
Theorem comparator_only_reorders
    (k : KeyFn) (name folder output : string) (cleanup : bool)
    (cb : option (string -> option string)) (vids : list string) (w : World) :
  (exists ordered,
     order_videos folder (Some k) vids w = (inl ordered, w, [])
     /\ Permutation vids ordered)
  /\ let r := stitch_videos_async name folder output (Some k) cleanup cb w in
     (value_of r = inl None /\ threads (world_of r) = threads w)
     \/ (exists ordered,
           value_of r = inl (Some output)
           /\ threads (world_of r)
              = threads w
                ++ [(mkTask name folder output ordered cleanup cb, Ready)]
           /\ Permutation (snapshot_of (fs w) folder) ordered).
Proof.
  split.
  { eexists. split; [apply order_videos_custom | apply sort_stable_perm]. }
  cbv zeta. rewrite stitch_videos_async_spec. cbv zeta.
  destruct (StitchManager.is_stitching (active_stitches w) name);
    [left; split; reflexivity|].
  destruct (folder_ok (fs w) folder); [|left; split; reflexivity].
  cbn [negb].
  destruct (snapshot_of (fs w) folder) as [|v vs] eqn:Hs;
    [left; split; reflexivity|].
  destruct (sequential_order_succeeds name folder output (Some k) v vs w Hs)
    as (ordered & -> & Hp).
  right. exists ordered. repeat split. exact Hp.
Qed.

(** The key [lambda f: -len(f)]: longest name first. *)
Example comparator_sample :
  value_of (order_videos "/clips"
              (Some (mkKey Z Z.ltb (fun f => - Z.of_nat (String.length f))))
              ["a.mp4"; "intro.mp4"; "bb.mp4"] sample_world)
  = inl ["intro.mp4"; "bb.mp4"; "a.mp4"].
Proof. vm_compute. reflexivity. Qed.

(** C10: an output path is protected exactly when, as the string it is,
    it begins with the six characters [_comp_]; an absolute path never
    does.  The worker hands the sources to [os.remove] exactly when the
    tool of the environment was invoked and exited with status zero, the
    cleanup flag is set and the output path is not protected; every source
    that can be removed is then gone from the file system.  With the flag
    off or the output path protected, a successful worker removes the list
    file only and every other file is as the tool left it. *)
Theorem protected_output_is_comp_prefix (env : Env) (t : Task) (w : World) :
  let r := process_videos env t w in
  let evs := events_of r in
  let sources := map (PyStr.join (t_folder t)) (t_videos t) in
  let list_file := list_file_path (t_folder t) (t_name t) in
  let ran := tool env (command t w) (fs (written t w)) in
  let success := reaches_tool env t w && exit_zero (fst ran) in
  let protected := PyStr.startswith (t_output t) "_comp_" in
  (protected = true <-> exists rest, t_output t = "_comp_" +:+ rest)
  /\ (PyStr.isabs (t_output t) = true -> protected = false)
  /\ removals evs
     = (if success
        then (if t_cleanup t && negb protected then sources else [])
             ++ [list_file]
        else [])
  /\ (success = true -> t_cleanup t = true -> protected = false ->
      forall v, v ∈ t_videos t ->
        denied env !! PyStr.join (t_folder t) v = None ->
        is_file (snd ran) (PyStr.join (t_folder t) v) ->
        fs (world_of r) !! PyStr.join (t_folder t) v = None)
  /\ (success = true -> t_cleanup t = false \/ protected = true ->
      forall q, q <> list_file -> fs (world_of r) !! q = snd ran !! q).
Proof.
  cbv zeta.
  split; [apply startswith_spec|]. split; [apply isabs_not_comp|].
  rewrite <- tool_succeeded_reaches.
  destruct (process_videos_run env t w) as (w' & evs & -> & Hp).
  unfold events_of, world_of. cbn [fst snd].
  split; [apply (worker_path_removals _ _ _ _ _ Hp)|].
  split.
  - intros Hz Hcl Hpr v Hv Hd Hf.
    destruct (tool_succeeded_path _ _ _ _ _ Hp Hz)
      as (out & err & fs2 & w3 & evs_c & rm_err & Ht & Hc & Hw' & ->).
    unfold cleaned, deletes_sources in Hc. rewrite Hcl, Hpr in Hc.
    cbn [andb negb] in Hc.
    destruct Hc as (errs & _ & _ & _ & _ & _ & Hg).
    rewrite Ht in Hf. cbn [snd] in Hf. specialize (Hg v Hv Hd Hf).
    destruct Hw' as [-> | ->]; simpl; [exact Hg|].
    destruct (decide (list_file_path (t_folder t) (t_name t)
                      = PyStr.join (t_folder t) v)) as [<-|Hne].
    + apply lookup_delete_eq.
    + rewrite lookup_delete_ne by exact Hne. exact Hg.
  - intros Hz Hoff q Hq.
    destruct (tool_succeeded_path _ _ _ _ _ Hp Hz)
      as (out & err & fs2 & w3 & evs_c & rm_err & Ht & Hc & Hw' & ->).
    assert (Hds : deletes_sources t = false).
    { unfold deletes_sources.
      destruct Hoff as [-> | ->]; [reflexivity | apply andb_false_r]. }
    unfold cleaned in Hc. rewrite Hds in Hc. destruct Hc as [-> _].
    rewrite Ht. cbn [snd].
    destruct Hw' as [-> | ->]; simpl; [reflexivity|].
    apply lookup_delete_ne. congruence.
Qed.

Lemma protected_output_is_comp_prefix_witness :
  let r1 := process_videos env_ok sample_task sample_world in
  let r2 := process_videos env_ok protected_task sample_world in
  (removals (events_of r1)
   = ["/clips/a.mp4"; "/clips/b.mp4"; "/clips/file_list_demo.txt"]
   /\ fs (world_of r1) !! "/clips/a.mp4" = None
   /\ fs (world_of r1) !! "/clips/b.mp4" = None)
  /\ (removals (events_of r2) = ["/clips/file_list_demo.txt"]
      /\ fs (world_of r2) !! "/clips/a.mp4" = Some (File 1 "A")
      /\ fs (world_of r2) !! "/clips/b.mp4" = Some (File 2 "B")).
Proof.
  cbv zeta. split.
  - pose proof (protected_output_is_comp_prefix env_ok sample_task
                  sample_world) as (_ & _ & Hrm & Hgone & _).
    split; [exact (eq_trans Hrm eq_refl)|].
    split.
    + apply (Hgone eq_refl eq_refl eq_refl "a.mp4");
        [set_solver | reflexivity | vm_compute; eauto].
    + apply (Hgone eq_refl eq_refl eq_refl "b.mp4");
        [set_solver | reflexivity | vm_compute; eauto].
  - pose proof (protected_output_is_comp_prefix env_ok protected_task
                  sample_world) as (_ & _ & Hrm & _ & Hkept).
    split; [exact (eq_trans Hrm eq_refl)|].
    split.
    + rewrite (Hkept eq_refl (or_intror eq_refl) "/clips/a.mp4")
        by discriminate.
      reflexivity.
    + rewrite (Hkept eq_refl (or_intror eq_refl) "/clips/b.mp4")
        by discriminate.
      reflexivity.
Defined.

(** ** Further runs *)

(** A tool that exits with status 1. *)
Example tool_failure_sample :
  let env := mkEnv (fun _ f => (Completed 1 "" "No such filter", f)) ∅ in
  let r := process_videos env sample_task sample_world in
  events_of r
  = [EvWrite "/clips/file_list_demo.txt" (list_data "/clips" ["a.mp4"; "b.mp4"]);
     EvRun ["/usr/bin/ffmpeg"; "-f"; "concat"; "-safe"; "0"; "-i";
            "/clips/file_list_demo.txt"; "-c"; "copy"; "/out/demo.mp4"]
       (Completed 1 "" "No such filter");
     EvLog LOG_ERROR "FFmpeg error: No such filter"]
  /\ is_file (fs (world_of r)) "/clips/a.mp4"
  /\ is_file (fs (world_of r)) "/clips/file_list_demo.txt".
Proof. vm_compute. repeat split; eauto. Qed.

(** A callback that raises is called once; its exception is logged by the
    outer handler and the job is released. *)
Example raising_callback_sample :
  let t := mkTask "demo" "/clips" "/out/demo.mp4" ["a.mp4"] false
             (Some (fun _ => Some "boom")) in
  let w := registered "demo" "/clips" "/out/demo.mp4" sample_world in
  let r := process_videos env_ok t w in
  callbacks (events_of r) = ["/out/demo.mp4"]
  /\ In (EvLog LOG_ERROR "Error during video stitching: boom") (events_of r)
  /\ StitchManager.is_stitching (active_stitches w) "demo" = true
  /\ StitchManager.is_stitching (active_stitches (world_of r)) "demo" = false.
Proof. vm_compute. repeat split; auto 10. Qed.

(** * Further properties of the code *)

(** ** The registry *)

Lemma is_stitching_false (r : gmap string Job) (n : string) :
  StitchManager.is_stitching r n = false <-> r !! n = None.
Proof.
  unfold StitchManager.is_stitching. rewrite bool_decide_eq_false.
  destruct (r !! n); split; try congruence;
    try (intros H; exfalso; apply H; eauto).
  intros _ [? ?]. discriminate.
Qed.

(** X1: registering a name that is free succeeds, records the job with the
    time, the two paths and the status [started] under that name alone,
    and [_unregister_stitch] then gives back the registry as it was. *)
Theorem register_then_unregister_restores
    (now : Z) (r : gmap string Job) (n folder output : string) :
  r !! n = None ->
  let reg := StitchManager._register_stitch now r n folder output in
  fst reg = true
  /\ snd reg !! n = Some (mkJob now folder output "started")
  /\ StitchManager.is_stitching (snd reg) n = true
  /\ (forall m, m <> n -> snd reg !! m = r !! m)
  /\ StitchManager._unregister_stitch (snd reg) n = r.
Proof.
  intros Hn. cbv zeta. unfold StitchManager._register_stitch.
  rewrite bool_decide_eq_false_2 by (rewrite Hn; intros [? ?]; discriminate).
  cbn [fst snd]. split; [reflexivity|].
  split; [apply lookup_insert_eq|].
  split; [apply is_stitching_spec; rewrite lookup_insert_eq; eauto|].
  split; [intros m Hm; apply lookup_insert_ne; congruence|].
  rewrite unregister_delete. apply delete_insert_id. exact Hn.
Qed.

Lemma register_then_unregister_restores_witness :
  let reg :=
    StitchManager._register_stitch 10 ∅ "demo" "/clips" "/out/demo.mp4" in
  fst reg = true
  /\ snd reg !! "demo" = Some (mkJob 10 "/clips" "/out/demo.mp4" "started")
  /\ StitchManager.is_stitching (snd reg) "demo" = true
  /\ (forall m, m <> "demo" -> snd reg !! m = (∅ : gmap string Job) !! m)
  /\ StitchManager._unregister_stitch (snd reg) "demo" = ∅.
Proof.
  apply (register_then_unregister_restores 10 ∅ "demo" "/clips"
           "/out/demo.mp4").
  reflexivity.
Defined.

(** X2: once a name has been through [_register_stitch], accepted or not, a
    further registration of it answers [False] and changes nothing: the job
    of whoever came first keeps its start time and its paths. *)
Theorem duplicate_registration_changes_nothing
    (now now' : Z) (r : gmap string Job)
    (n folder output folder' output' : string) :
  let r1 := snd (StitchManager._register_stitch now r n folder output) in
  StitchManager._register_stitch now' r1 n folder' output' = (false, r1)
  /\ (forall job, r !! n = Some job ->
        StitchManager._register_stitch now r n folder output = (false, r))
  /\ r1 !! n = Some (default (mkJob now folder output "started") (r !! n)).
Proof.
  cbv zeta. unfold StitchManager._register_stitch.
  destruct (r !! n) as [job|] eqn:E.
  - rewrite !(bool_decide_eq_true_2 (is_Some (Some job))) by eauto.
    cbn [snd]. rewrite E.
    rewrite !(bool_decide_eq_true_2 (is_Some (Some job))) by eauto. auto.
  - rewrite !(bool_decide_eq_false_2 (is_Some (@None Job)))
      by (intros [? ?]; discriminate).
    cbn [snd]. rewrite lookup_insert_eq.
    rewrite bool_decide_eq_true_2 by eauto.
    split; [reflexivity|]. split; [intros job H; discriminate | reflexivity].
Qed.

(** X3: [_unregister_stitch] does nothing to a name that is absent, does
    nothing more when repeated, leaves the name inactive and every other
    entry as it was, and activates nothing. *)
Theorem unregister_is_idempotent_and_local
    (r : gmap string Job) (n : string) :
  let r1 := StitchManager._unregister_stitch r n in
  StitchManager._unregister_stitch r1 n = r1
  /\ (r !! n = None -> r1 = r)
  /\ StitchManager.is_stitching r1 n = false
  /\ (forall m, m <> n -> r1 !! m = r !! m)
  /\ (forall m, StitchManager.is_stitching r1 m = true ->
                StitchManager.is_stitching r m = true).
Proof.
  cbv zeta. rewrite !unregister_delete.
  split; [apply delete_delete_eq|].
  split; [apply delete_id|].
  split; [apply is_stitching_deleted|].
  split; [intros m Hm; apply lookup_delete_ne; congruence|].
  intros m. rewrite !is_stitching_spec.
  destruct (decide (m = n)) as [->|Hm].
  - rewrite lookup_delete_eq. intros [? ?]. discriminate.
  - rewrite lookup_delete_ne by congruence. auto.
Qed.

(** ** The singleton *)

Lemma construct_and_call_one (m : method) (r : gmap string Job) :
  construct_and_call m (mkClass (Some 0%nat) [r])
  = (Some (fst (apply_method m r)),
     mkClass (Some 0%nat) [snd (apply_method m r)]).
Proof.
  unfold construct_and_call, __new__. simpl.
  destruct (apply_method m r) as [ans r']. reflexivity.
Qed.

Lemma construct_and_call_all_one (ms : list method) : forall r,
  construct_and_call_all ms (mkClass (Some 0%nat) [r])
  = (map Some (fst (apply_all ms r)),
     mkClass (Some 0%nat) [snd (apply_all ms r)]).
Proof.
  induction ms as [|m ms IH]; intros r; [reflexivity|].
  simpl. rewrite construct_and_call_one.
  destruct (apply_method m r) as [ans r1]. simpl.
  rewrite IH. destruct (apply_all ms r1) as [anss r2]. reflexivity.
Qed.

(** X4: from the first [StitchManager()] on there is one object, at one
    address, and [__new__] returns it without initialising it again: a
    sequence of method calls, each made on a newly constructed manager,
    answers and ends as the same calls made on a single registry that
    starts empty. *)
Theorem constructions_share_one_registry (m : method) (ms : list method) :
  let made := construct_and_call_all (m :: ms) class_init in
  let direct := apply_all (m :: ms) ∅ in
  fst made = map Some (fst direct)
  /\ _instance (snd made) = Some 0%nat
  /\ objects (snd made) = [snd direct]
  /\ __new__ (snd made) = (0%nat, snd made).
Proof.
  cbn [construct_and_call_all apply_all].
  assert (H1 : construct_and_call m class_init
               = (Some (fst (apply_method m ∅)),
                  mkClass (Some 0%nat) [snd (apply_method m ∅)])).
  { unfold construct_and_call, class_init, __new__. simpl.
    unfold StitchManager._initialize.
    destruct (apply_method m ∅) as [ans r']. reflexivity. }
  rewrite H1. rewrite construct_and_call_all_one.
  destruct (apply_method m ∅) as [ans r1]. simpl.
  destruct (apply_all ms r1) as [anss r2]. simpl.
  repeat split.
Qed.

(** ** Loading the configuration *)

(** [load_config()] in closed form. *)
Lemma load_config_file (host : Host) (w : World) :
  let p := PyStr.join (script_dir host) "config.json" in
  load_config host None w
  = match fs w !! p with
    | None =>
        (inl tt, w,
         [EvLog LOG_WARNING "config.json not found. Using default settings."])
    | Some _ =>
        match config_file_doc host (fs w) with
        | Some doc =>
            (inl tt, set_config doc w,
             [EvLog LOG_INFO ("Configuration loaded: " +:+ repr host doc)])
        | None =>
            (inl tt, w,
             [EvLog LOG_ERROR
                ("Failed to load config.json: " +:+
                 match unreadable host !! p, fs w !! p with
                 | Some msg, _ => msg
                 | None, Some (File _ data) =>
                     match json_load host data with
                     | inr msg => msg | inl _ => ""
                     end
                 | None, Some (Dir _) => is_a_directory p
                 | None, None => no_such_file p
                 end)])
        end
    end.
Proof.
  cbv zeta. unfold load_config, config_file_doc.
  set (p := PyStr.join (script_dir host) "config.json").
  unfold bind at 1, os_path_exists at 1.
  destruct (fs w !! p) as [n|] eqn:Hp.
  2:{ rewrite bool_decide_eq_false_2 by (intros [? ?]; discriminate).
      reflexivity. }
  rewrite bool_decide_eq_true_2 by eauto.
  unfold try_except, bind, open_read, json_load_text, assign_config.
  rewrite Hp.
  destruct (unreadable host !! p) as [msg|]; [reflexivity|].
  destruct n as [m data|m]; [|reflexivity].
  destruct (json_load host data) as [doc|msg]; reflexivity.
Qed.

(** X5: [load_config] never raises and touches nothing but the global
    [config_data]; it logs at most one message and does nothing else that
    shows.  Given a dictionary it installs it without looking at the disk;
    given none, the configuration changes only when [config.json] is
    there, can be read and decodes, and is otherwise kept as it was. *)
Theorem load_config_never_raises
    (host : Host) (config : option (option FFMpegConfig)) (w : World) :
  let r := load_config host config w in
  value_of r = inl tt
  /\ active_stitches (world_of r) = active_stitches w
  /\ fs (world_of r) = fs w
  /\ threads (world_of r) = threads w
  /\ (length (events_of r) <= 1)%nat
  /\ forallb is_log (events_of r) = true
  /\ config_data (world_of r)
     = match config with
       | Some c => c
       | None => default (config_data w) (config_file_doc host (fs w))
       end.
Proof.
  cbv zeta. destruct config as [c|].
  { unfold load_config, assign_config, value_of, world_of, events_of. simpl.
    repeat split. lia. }
  rewrite load_config_file. cbv zeta.
  destruct (fs w !! PyStr.join (script_dir host) "config.json") eqn:Hp.
  - destruct (config_file_doc host (fs w)) as [doc|] eqn:Hd;
      unfold value_of, world_of, events_of; simpl; repeat split; lia.
  - assert (Hd : config_file_doc host (fs w) = None).
    { unfold config_file_doc. rewrite Hp.
      destruct (unreadable host !! _); reflexivity. }
    rewrite Hd. unfold value_of, world_of, events_of; simpl; repeat split.
    lia.
Qed.

(** X6: called without a dictionary, [load_config] logs one message whose
    level tells the outcome: a warning exactly when there is no
    [config.json], the information that the configuration was loaded
    exactly when the file was read and decoded, and an error, with the text
    of the exception, in every other case, a directory of that name and a
    text that is no JSON among them. *)
Theorem load_config_reports_what_happened (host : Host) (w : World) :
  let p := PyStr.join (script_dir host) "config.json" in
  let r := load_config host None w in
  exists lvl msg,
    events_of r = [EvLog lvl msg]
    /\ (lvl = LOG_WARNING <-> fs w !! p = None)
    /\ (lvl = LOG_INFO <-> is_Some (config_file_doc host (fs w)))
    /\ (lvl = LOG_ERROR <->
        is_Some (fs w !! p) /\ config_file_doc host (fs w) = None)
    /\ (forall m, fs w !! p = Some (Dir m) -> unreadable host !! p = None ->
          msg = "Failed to load config.json: " +:+ is_a_directory p)
    /\ (forall m data err,
          fs w !! p = Some (File m data) -> unreadable host !! p = None ->
          json_load host data = inr err ->
          msg = "Failed to load config.json: " +:+ err).
Proof.
  cbv zeta. rewrite load_config_file. cbv zeta.
  destruct (fs w !! PyStr.join (script_dir host) "config.json") as [nd|] eqn:Hp.
  - destruct (config_file_doc host (fs w)) as [doc|] eqn:Hd.
    + eexists _, _. split; [reflexivity|].
      split; [split; discriminate|].
      split; [split; eauto|].
      split; [split; [discriminate | intros [_ H]; discriminate]|].
      unfold config_file_doc in Hd. rewrite Hp in Hd.
      split.
      * intros m [= ->] Hu. rewrite Hu in Hd. discriminate.
      * intros m data err [= ->] Hu Hj. rewrite Hu, Hj in Hd. discriminate.
    + eexists _, _. split; [reflexivity|].
      split; [split; discriminate|].
      split; [split; [discriminate | intros [? ?]; discriminate]|].
      split; [split; eauto|].
      split.
      * intros m [= ->] Hu. rewrite Hu. reflexivity.
      * intros m data err [= ->] Hu Hj. rewrite Hu, Hj. reflexivity.
  - assert (Hd : config_file_doc host (fs w) = None).
    { unfold config_file_doc. rewrite Hp.
      destruct (unreadable host !! _); reflexivity. }
    eexists _, _. split; [reflexivity|].
    split; [split; reflexivity|].
    split; [split; [discriminate | rewrite Hd; intros [? ?]; discriminate]|].
    split; [split; [discriminate | intros [[? ?] _]; discriminate]|].
    split; intros; discriminate.
Qed.

(** ** The worker, path by path *)

(** X7: when the list file cannot be written ([open] is refused, or the
    path is a directory) the worker does one thing only: it logs the text
    of that exception as a stitching error.  The tool is not run, no file
    is touched, the callback is not called, and the name is released. *)
Theorem unwritable_list_file_ends_worker (env : Env) (t : Task) (w : World) :
  let list_file := list_file_path (t_folder t) (t_name t) in
  writable env (fs w) list_file = false ->
  process_videos env t w
  = (inl tt,
     set_registry (delete (t_name t) (active_stitches w)) w,
     [EvLog LOG_ERROR
        ("Error during video stitching: " +:+
         match denied env !! list_file with
         | Some msg => msg
         | None => is_a_directory list_file
         end)]).
Proof. cbv zeta. intros H. apply process_videos_unwritable. exact H. Qed.

Lemma unwritable_list_file_ends_worker_witness :
  let list_file := list_file_path (t_folder sample_task) (t_name sample_task) in
  process_videos env_no_list sample_task sample_world
  = (inl tt,
     set_registry (delete (t_name sample_task) (active_stitches sample_world))
       sample_world,
     [EvLog LOG_ERROR
        ("Error during video stitching: " +:+
         match denied env_no_list !! list_file with
         | Some msg => msg
         | None => is_a_directory list_file
         end)]).
Proof.
  apply (unwritable_list_file_ends_worker env_no_list sample_task sample_world).
  vm_compute. reflexivity.
Defined.

(** X8: when the tool is run and does not exit with status zero, the
    worker writes the list file, runs the tool once and logs one error: the
    captured standard error after [FFmpeg error:] when the tool exited
    non-zero, the text of the exception as a stitching error when it could
    not be launched.  It removes nothing, the list file it wrote included,
    leaves the files as the tool left them, and releases the name. *)
Theorem failed_tool_is_logged_and_nothing_cleaned
    (env : Env) (t : Task) (w : World) :
  let list_file := list_file_path (t_folder t) (t_name t) in
  let ran := tool env (command t w) (fs (written t w)) in
  reaches_tool env t w = true ->
  exit_zero (fst ran) = false ->
  process_videos env t w
  = (inl tt,
     set_registry (delete (t_name t) (active_stitches w))
       (set_fs (snd ran) (written t w)),
     [EvWrite list_file (list_data (t_folder t) (t_videos t));
      EvRun (command t w) (fst ran);
      EvLog LOG_ERROR
        match fst ran with
        | Completed _ _ stderr => "FFmpeg error: " +:+ stderr
        | LaunchError msg => "Error during video stitching: " +:+ msg
        end]).
Proof.
  cbv zeta. intros Hr Hz. apply reaches_tool_spec in Hr as [Hwr Hx].
  destruct (tool env (command t w) (fs (written t w))) as [res fs2] eqn:Ht.
  cbn [fst snd] in *.
  rewrite (process_videos_failed env t w res fs2 Hwr Hx Ht Hz).
  destruct res; reflexivity.
Qed.

Lemma failed_tool_is_logged_and_nothing_cleaned_witness :
  let t := sample_task in
  let w := sample_world in
  let list_file := list_file_path (t_folder t) (t_name t) in
  let ran := tool env_fail (command t w) (fs (written t w)) in
  process_videos env_fail t w
  = (inl tt,
     set_registry (delete (t_name t) (active_stitches w))
       (set_fs (snd ran) (written t w)),
     [EvWrite list_file (list_data (t_folder t) (t_videos t));
      EvRun (command t w) (fst ran);
      EvLog LOG_ERROR
        match fst ran with
        | Completed _ _ stderr => "FFmpeg error: " +:+ stderr
        | LaunchError msg => "Error during video stitching: " +:+ msg
        end]).
Proof.
  apply (failed_tool_is_logged_and_nothing_cleaned env_fail sample_task
           sample_world).
  - vm_compute. reflexivity.
  - vm_compute. reflexivity.
Defined.

(** X9: a worker runs the tool at most once, whatever its outcome, and
    only after it has written the list file and found the tool path on
    disk.  The command line is the configured path, [-f concat -safe 0 -i]
    and the list file, [-c copy], the configured arguments in their order
    and, last, the output path. *)
Theorem tool_runs_at_most_once (env : Env) (t : Task) (w : World) :
  let evs := events_of (process_videos env t w) in
  let list_file := list_file_path (t_folder t) (t_name t) in
  let cmd :=
    [ffmpeg_path_of (config_data w); "-f"; "concat"; "-safe"; "0"; "-i";
     list_file; "-c"; "copy"]
    ++ ffmpeg_args_of (config_data w) ++ [t_output t] in
  commands evs
  = (if reaches_tool env t w
     then [(cmd, fst (tool env cmd (fs (written t w))))] else [])
  /\ (length (commands evs) <= 1)%nat
  /\ (commands evs <> [] ->
      writes evs = [(list_file, list_data (t_folder t) (t_videos t))]
      /\ is_Some (fs (written t w) !! ffmpeg_path_of (config_data w)))
  /\ List.last cmd "" = t_output t.
Proof.
  cbv zeta. destruct (process_videos_run env t w) as (w' & evs & -> & Hp).
  unfold events_of. cbn [snd].
  rewrite (worker_path_reaches _ _ _ _ _ Hp).
  rewrite (worker_path_writes _ _ _ _ _ Hp).
  fold (ffmpeg_cmd (config_data w) (list_file_path (t_folder t) (t_name t))
          (t_output t)).
  fold (command t w).
  split; [reflexivity|].
  split; [destruct (reaches_tool env t w); simpl; lia|].
  split.
  - unfold reaches_tool.
    destruct (writable env (fs w) _);
      [|intros H; exfalso; apply H; reflexivity].
    cbn [andb].
    case_bool_decide as Hx; [|intros H; exfalso; apply H; reflexivity].
    intros _. split; [reflexivity | exact Hx].
  - unfold command, ffmpeg_cmd. rewrite app_assoc. apply last_last.
Qed.



(** X11: on success the worker calls [os.remove] on the list file once,
    after the loop over the sources and before the callback; when the
    removal is refused nothing is logged and the worker goes on to the
    callback.  Unless the operating system refuses it or the tool has put
    a directory in its place, the list file is gone afterwards. *)
Theorem list_file_removal_is_best_effort (env : Env) (t : Task) (w : World) :
  let r := process_videos env t w in
  let list_file := list_file_path (t_folder t) (t_name t) in
  let fs2 := snd (tool env (command t w) (fs (written t w))) in
  tool_succeeded (events_of r) = true ->
  (exists pre rm_err,
     events_of r = pre ++ [EvRemove list_file rm_err] ++ callback_events t
     /\ removals pre
        = (if deletes_sources t
           then map (PyStr.join (t_folder t)) (t_videos t) else [])
     /\ (forall msg, denied env !! list_file = Some msg -> rm_err = Some msg))
  /\ (denied env !! list_file = None ->
      (forall m, fs2 !! list_file <> Some (Dir m)) ->
      fs (world_of r) !! list_file = None).
Proof.
  cbv zeta. rewrite tool_succeeded_reaches. intros H.
  apply andb_true_iff in H as [Hr Hz].
  apply reaches_tool_spec in Hr as [Hwr Hx].
  destruct (tool env (command t w) (fs (written t w))) as [res fs2] eqn:Ht.
  cbn [fst snd] in *.
  destruct (exit_zero_inv res Hz) as (out & err & ->).
  destruct (process_videos_succeeded env t w out err fs2 Hwr Hx Ht)
    as (w3 & evs_c & Hc & ->).
  unfold events_of, world_of. cbn [fst snd].
  assert (Hlf : fs w3 !! list_file_path (t_folder t) (t_name t) = None
                \/ fs w3 !! list_file_path (t_folder t) (t_name t)
                   = fs2 !! list_file_path (t_folder t) (t_name t)).
  { unfold cleaned in Hc. destruct (deletes_sources t).
    - destruct Hc as (errs & _ & _ & _ & Hm & _). apply Hm.
    - destruct Hc as [-> _]. right. reflexivity. }
  split.
  - eexists. exists (remove_error env (fs w3)
                       (list_file_path (t_folder t) (t_name t))).
    split; [rewrite !app_assoc; reflexivity|].
    split.
    { rewrite removals_app, (cleaned_removals _ _ _ _ _ Hc). reflexivity. }
    intros msg Hd. unfold remove_error. rewrite Hd. reflexivity.
  - intros Hd Hdir. simpl. rewrite removed_lookup.
    rewrite decide_True by reflexivity.
    unfold remove_error. rewrite Hd.
    destruct Hlf as [Hlf | Hlf]; rewrite Hlf; [reflexivity|].
    destruct (fs2 !! list_file_path (t_folder t) (t_name t))
      as [[m d|m]|] eqn:E; try reflexivity.
    exfalso. eapply Hdir. reflexivity.
Qed.

Lemma list_file_removal_is_best_effort_witness :
  let t := sample_task in
  let w := sample_world in
  let r := process_videos env_ok t w in
  let list_file := list_file_path (t_folder t) (t_name t) in
  let fs2 := snd (tool env_ok (command t w) (fs (written t w))) in
  (exists pre rm_err,
     events_of r = pre ++ [EvRemove list_file rm_err] ++ callback_events t
     /\ removals pre
        = (if deletes_sources t
           then map (PyStr.join (t_folder t)) (t_videos t) else [])
     /\ (forall msg,
           denied env_ok !! list_file = Some msg -> rm_err = Some msg))
  /\ (denied env_ok !! list_file = None ->
      (forall m, fs2 !! list_file <> Some (Dir m)) ->
      fs (world_of r) !! list_file = None).
Proof.
  apply (list_file_removal_is_best_effort env_ok sample_task sample_world).
  vm_compute. reflexivity.
Defined.

(** X12: besides the list file, the worker itself changes no file but the
    sources, and those only by removing them: whatever else is on disk is
    as the tool left it (or as it was, when the tool was not run), so is
    every file when the cleanup is off or the output path protected, and
    so is every file when the tool did not succeed. *)
Theorem worker_touches_only_its_files
    (env : Env) (t : Task) (w : World) (q : string) :
  let r := process_videos env t w in
  let base := files_after_tool env t w in
  q <> list_file_path (t_folder t) (t_name t) ->
  (fs (world_of r) !! q = None \/ fs (world_of r) !! q = base !! q)
  /\ (q ∉ map (PyStr.join (t_folder t)) (t_videos t) ->
      fs (world_of r) !! q = base !! q)
  /\ (deletes_sources t = false -> fs (world_of r) !! q = base !! q)
  /\ (tool_succeeded (events_of r) = false -> fs (world_of r) !! q = base !! q).
Proof.
  cbv zeta. intros Hq. rewrite tool_succeeded_reaches.
  unfold files_after_tool, reaches_tool.
  destruct (writable env (fs w) (list_file_path (t_folder t) (t_name t)))
    eqn:Hwr; cbn [andb].
  2:{ rewrite (process_videos_unwritable env t w Hwr).
      unfold world_of. simpl. auto. }
  case_bool_decide as Hx; cbn [andb].
  2:{ rewrite (process_videos_not_found env t w Hwr).
      - unfold world_of. simpl. rewrite lookup_insert_ne by congruence. auto.
      - destruct (fs (written t w) !! _);
          [exfalso; apply Hx; eauto | reflexivity]. }
  destruct (tool env (command t w) (fs (written t w))) as [res fs2] eqn:Ht.
  cbn [fst snd]. destruct (exit_zero res) eqn:Hz.
  - destruct (exit_zero_inv res Hz) as (out & err & ->).
    destruct (process_videos_succeeded env t w out err fs2 Hwr Hx Ht)
      as (w3 & evs_c & Hc & ->).
    unfold world_of. cbn [fst snd]. simpl. rewrite removed_lookup.
    rewrite decide_False by exact Hq.
    unfold cleaned in Hc. destruct (deletes_sources t).
    + destruct Hc as (errs & _ & _ & _ & Hm & Ho & _).
      split; [apply Hm|]. split; [apply Ho|]. split; discriminate.
    + destruct Hc as [-> _]. simpl. auto.
  - rewrite (process_videos_failed env t w res fs2 Hwr Hx Ht Hz).
    unfold world_of. simpl. auto.
Qed.

Lemma worker_touches_only_its_files_witness :
  let t := sample_task in
  let w := sample_world in
  let q := "/clips/notes.txt" in
  let r := process_videos env_ok t w in
  let base := files_after_tool env_ok t w in
  (fs (world_of r) !! q = None \/ fs (world_of r) !! q = base !! q)
  /\ (q ∉ map (PyStr.join (t_folder t)) (t_videos t) ->
      fs (world_of r) !! q = base !! q)
  /\ (deletes_sources t = false -> fs (world_of r) !! q = base !! q)
  /\ (tool_succeeded (events_of r) = false -> fs (world_of r) !! q = base !! q).
Proof.
  apply (worker_touches_only_its_files env_ok sample_task sample_world
           "/clips/notes.txt").
  vm_compute. discriminate.
Defined.

(** ** The snapshot *)

Lemma append_nil_r (s : string) : s +:+ "" = s.
Proof.
  induction s as [|c s IH]; [reflexivity|]. rewrite append_cons, IH.
  reflexivity.
Qed.

Lemma string_rev_app (s1 : string) : forall s2,
  String.rev_app s1 s2 = String.rev s1 +:+ s2.
Proof.
  induction s1 as [|a s1 IH]; intros s2; [reflexivity|].
  unfold String.rev. simpl. rewrite (IH (String a s2)), (IH (String a "")).
  rewrite append_assoc. reflexivity.
Qed.

Lemma string_rev_cons (c : ascii) (s : string) :
  String.rev (String c s) = String.rev s +:+ String c "".
Proof. unfold String.rev at 1. simpl. apply string_rev_app. Qed.

Lemma string_rev_append (a b : string) :
  String.rev (a +:+ b) = String.rev b +:+ String.rev a.
Proof.
  induction a as [|c a IH].
  - simpl. symmetry. apply append_nil_r.
  - rewrite append_cons, !string_rev_cons, IH, append_assoc. reflexivity.
Qed.

Lemma string_rev_involutive (s : string) : String.rev (String.rev s) = s.
Proof.
  induction s as [|c s IH]; [reflexivity|].
  rewrite string_rev_cons, string_rev_append, IH. reflexivity.
Qed.

Lemma endswith_spec (s p : string) :
  PyStr.endswith s p = true <-> exists stem, s = stem +:+ p.
Proof.
  unfold PyStr.endswith.
  change (String.prefix (String.rev p) (String.rev s))
    with (PyStr.startswith (String.rev s) (String.rev p)).
  rewrite startswith_spec. split.
  - intros [rest H]. exists (String.rev rest).
    rewrite <- (string_rev_involutive s), H, string_rev_append,
      string_rev_involutive.
    reflexivity.
  - intros [stem ->]. exists (String.rev stem). apply string_rev_append.
Qed.

Lemma is_mp4_spec (f : string) :
  is_mp4 f = true <-> exists stem, f = stem +:+ ".mp4".
Proof. apply endswith_spec. Qed.

Lemma strip_prefix_app (p n : string) : PyStr.strip_prefix p (p +:+ n) = Some n.
Proof.
  induction p as [|a p IH]; [reflexivity|].
  rewrite append_cons. simpl. rewrite bool_decide_eq_true_2 by reflexivity.
  exact IH.
Qed.

Lemma plain_is_relative (n : string) :
  PyStr.contains_char PyStr.sep n = false -> PyStr.isabs n = false.
Proof.
  destruct n as [|c n]; [reflexivity|]. simpl. intros H.
  apply orb_false_iff in H as [H _]. apply bool_decide_eq_false_1 in H.
  apply bool_decide_eq_false_2. congruence.
Qed.

Lemma entry_name_complete (folder n : string) :
  n <> "" -> PyStr.contains_char PyStr.sep n = false ->
  entry_name folder (PyStr.join folder n) = Some n.
Proof.
  intros Hn Hc. rewrite join_relative by (apply plain_is_relative; exact Hc).
  unfold entry_name. rewrite strip_prefix_app, Hc.
  rewrite bool_decide_eq_false_2 by exact Hn. reflexivity.
Qed.

Lemma dir_entries_spec (f : filesystem) (folder v : string) :
  v ∈ dir_entries f folder <->
  v <> "" /\ PyStr.contains_char PyStr.sep v = false
  /\ is_Some (f !! PyStr.join folder v).
Proof.
  split.
  - intros H. split; [|split; [|apply dir_entries_exist; exact H]].
    + unfold dir_entries in H. apply list_elem_of_omap in H as (p & _ & Hn).
      apply entry_name_spec in Hn. tauto.
    + unfold dir_entries in H. apply list_elem_of_omap in H as (p & _ & Hn).
      apply entry_name_spec in Hn. tauto.
  - intros (Hn & Hc & [x Hx]). unfold dir_entries.
    apply list_elem_of_omap. exists (PyStr.join folder v). split.
    + apply list_elem_of_fmap. exists (PyStr.join folder v, x).
      split; [reflexivity|].
      apply elem_of_map_to_list. exact Hx.
    + apply entry_name_complete; assumption.
Qed.

Lemma NoDup_omap_inj {A B} (g : A -> option B) (l : list A) :
  (forall x x' y, g x = Some y -> g x' = Some y -> x = x') ->
  NoDup l -> NoDup (omap g l).
Proof.
  intros Hinj. induction 1 as [|x l Hx Hnd IH]; [constructor|].
  simpl. destruct (g x) as [y|] eqn:E; [|exact IH].
  constructor; [|exact IH].
  intros Hy. apply list_elem_of_omap in Hy as (x' & Hx' & E').
  assert (x = x') by (eapply Hinj; eassumption). subst x'. contradiction.
Qed.

Lemma dir_entries_NoDup (f : filesystem) (folder : string) :
  NoDup (dir_entries f folder).
Proof.
  unfold dir_entries. apply NoDup_omap_inj.
  - intros p p' n H H'. apply entry_name_spec in H as [<- _].
    apply entry_name_spec in H' as [<- _]. reflexivity.
  - apply (NoDup_fst_map_to_list f).
Qed.

Lemma NoDup_List_filter {A} (p : A -> bool) (l : list A) :
  NoDup l -> NoDup (List.filter p l).
Proof.
  induction 1 as [|x l Hx Hnd IH]; [constructor|].
  simpl. destruct (p x); [|exact IH].
  constructor; [|exact IH].
  intros Hin. apply list_elem_of_In, filter_In in Hin as [Hin _].
  apply Hx, list_elem_of_In. exact Hin.
Qed.

Lemma snapshot_NoDup (f : filesystem) (folder : string) :
  NoDup (snapshot_of f folder).
Proof.
  unfold snapshot_of. apply NoDup_List_filter. apply dir_entries_NoDup.
Qed.

Lemma snapshot_spec (f : filesystem) (folder v : string) :
  v ∈ snapshot_of f folder <->
  (exists stem, v = stem +:+ ".mp4")
  /\ PyStr.contains_char PyStr.sep v = false
  /\ is_Some (f !! PyStr.join folder v).
Proof.
  unfold snapshot_of. rewrite list_elem_of_In, filter_In, <- list_elem_of_In.
  rewrite dir_entries_spec, is_mp4_spec. split.
  - intros ((_ & Hc & Hs) & Hm). auto.
  - intros (Hm & Hc & Hs). split; [|exact Hm].
    split; [|split; assumption].
    destruct Hm as [stem ->]. destruct stem; discriminate.
Qed.

(** X13: the snapshot holds exactly the names that end in the four
    characters [.mp4] among the entries directly inside the folder.  The
    test is on the name alone: a directory of such a name is taken as a
    video, and a name ending in [.MP4] is not. *)
Theorem snapshot_is_the_mp4_entries (f : filesystem) (folder v : string) :
  (v ∈ snapshot_of f folder <->
   (exists stem, v = stem +:+ ".mp4")
   /\ PyStr.contains_char PyStr.sep v = false
   /\ is_Some (f !! PyStr.join folder v))
  /\ (forall stem m, f !! PyStr.join folder (stem +:+ ".mp4") = Some (Dir m) ->
        PyStr.contains_char PyStr.sep stem = false ->
        stem +:+ ".mp4" ∈ snapshot_of f folder)
  /\ (forall stem, stem +:+ ".MP4" ∉ snapshot_of f folder).
Proof.
  split; [apply snapshot_spec|]. split.
  - intros stem m Hd Hc. apply snapshot_spec.
    split; [eauto|]. split; [|eauto].
    rewrite contains_char_app, Hc. reflexivity.
  - intros stem H. apply snapshot_spec in H as ([stem' H] & _).
    apply (f_equal String.rev) in H. rewrite !string_rev_append in H.
    discriminate.
Qed.

(** ** The order of the snapshot *)

Lemma map_M_getmtime_missing folder pre v0 post w :
  Forall (fun v => is_Some (fs w !! PyStr.join folder v)) pre ->
  fs w !! PyStr.join folder v0 = None ->
  map_M (fun f => k <- os_path_getmtime (PyStr.join folder f) ;; ret (k, f))
    (pre ++ v0 :: post) w
  = (inr (Exception (no_such_file (PyStr.join folder v0))), w, []).
Proof.
  intros Hall Hv0. induction Hall as [|v pre [n Hn] Hall IH].
  - simpl. apply bind_raise. apply bind_raise.
    unfold os_path_getmtime. rewrite Hv0. reflexivity.
  - simpl app. simpl map_M.
    assert (Hk : (k <- os_path_getmtime (PyStr.join folder v) ;; ret (k, v)) w
                 = (inl (node_mtime n, v), w, [])).
    { unfold bind, os_path_getmtime. rewrite Hn. reflexivity. }
    rewrite (bind_ok _ _ _ _ _ _ Hk). cbv beta.
    rewrite (bind_raise _ _ _ _ _ _ IH). reflexivity.
Qed.

(** X14: with a key function of the caller that returns integers, the
    names are ordered by ascending key ([reverse=False]), names of equal
    key stay in the order of the listing, and the file system is not
    consulted: the step cannot raise. *)
Theorem integer_key_orders_ascending_and_stably
    (folder : string) (key : string -> Z) (vids : list string) (w : World) :
  exists ordered,
    order_videos folder (Some (mkKey Z Z.ltb key)) vids w = (inl ordered, w, [])
    /\ Permutation vids ordered
    /\ StronglySorted (fun a b => key a <= key b) ordered
    /\ (forall k, List.filter (fun f => key f =? k) ordered
                  = List.filter (fun f => key f =? k) vids).
Proof.
  eexists. split; [apply order_videos_custom|]. cbn [key_lt key_of].
  split; [apply sort_stable_perm|].
  split; [apply (sort_stable_sorted key)|].
  intros k. apply (sort_stable_equal_keys key).
Qed.

(** X15: under the default key, files with one and the same modification
    time keep the order in which the folder listed them. *)
Theorem files_of_one_age_keep_the_listing_order
    (folder : string) (vids : list string) (w : World) (age : Z) :
  Forall (fun v => is_Some (fs w !! PyStr.join folder v)) vids ->
  exists ordered,
    order_videos folder None vids w = (inl ordered, w, [])
    /\ List.filter (fun f => mtime_of (fs w) folder f =? age) ordered
       = List.filter (fun f => mtime_of (fs w) folder f =? age) vids.
Proof. apply default_order_is_stable. Qed.

Lemma files_of_one_age_keep_the_listing_order_witness :
  exists ordered,
    order_videos "/clips" None ["z.mp4"; "old.mp4"; "m.mp4"] tied_world
    = (inl ordered, tied_world, [])
    /\ List.filter (fun f => mtime_of (fs tied_world) "/clips" f =? 7) ordered
       = ["z.mp4"; "m.mp4"].
Proof.
  destruct (files_of_one_age_keep_the_listing_order "/clips"
              ["z.mp4"; "old.mp4"; "m.mp4"] tied_world 7)
    as (ordered & Ho & Hf).
  - repeat constructor; vm_compute; eauto.
  - exists ordered. split; [exact Ho|]. rewrite Hf. reflexivity.
Defined.

(** X16: under the default key, a snapshot file that is no longer there
    when the keys are computed makes [sorted] raise the error of
    [os.path.getmtime] for the first such file.  This is past the
    registration and no handler is around it: the exception leaves
    [stitch_videos_async] with nothing logged, no worker started and the
    world, the entry just registered included, as it was. *)
Theorem default_order_raises_on_a_missing_file
    (r : Request) (pre post : list string) (v0 : string) (w : World) :
  r_sort r = None ->
  Forall (fun v => is_Some (fs w !! PyStr.join (r_folder r) v)) pre ->
  fs w !! PyStr.join (r_folder r) v0 = None ->
  let e := Exception ("[Errno 2] No such file or directory: '" +:+
                      PyStr.join (r_folder r) v0 +:+ "'") in
  order_videos (r_folder r) None (pre ++ v0 :: post) w = (inr e, w, [])
  /\ phase_launch r (pre ++ v0 :: post) w = (inr e, w, []).
Proof.
  intros Hs Hall Hv0. cbv zeta.
  assert (Ho : order_videos (r_folder r) None (pre ++ v0 :: post) w
               = (inr (Exception (no_such_file (PyStr.join (r_folder r) v0))),
                  w, [])).
  { unfold order_videos. apply bind_raise.
    apply map_M_getmtime_missing; assumption. }
  split; [exact Ho|]. apply phase_launch_raise. rewrite Hs. exact Ho.
Qed.

Lemma default_order_raises_on_a_missing_file_witness :
  let e := Exception ("[Errno 2] No such file or directory: '" +:+
                      PyStr.join (r_folder demo_request) "gone.mp4" +:+ "'") in
  order_videos (r_folder demo_request) None
    (["a.mp4"] ++ "gone.mp4" :: ["b.mp4"]) sample_world
  = (inr e, sample_world, [])
  /\ phase_launch demo_request (["a.mp4"] ++ "gone.mp4" :: ["b.mp4"])
       sample_world = (inr e, sample_world, []).
Proof.
  apply (default_order_raises_on_a_missing_file demo_request ["a.mp4"]
           ["b.mp4"] "gone.mp4" sample_world).
  - reflexivity.
  - repeat constructor; vm_compute; eauto.
  - vm_compute. reflexivity.
Defined.

(** ** Accepted submissions *)

Lemma stitch_videos_async_accepts name folder output sort_lambda cleanup cb w :
  StitchManager.is_stitching (active_stitches w) name = false ->
  folder_ok (fs w) folder = true ->
  snapshot_of (fs w) folder <> [] ->
  exists ordered,
    order_videos folder sort_lambda (snapshot_of (fs w) folder)
      (registered name folder output w)
    = (inl ordered, registered name folder output w, [])
    /\ Permutation (snapshot_of (fs w) folder) ordered
    /\ stitch_videos_async name folder output sort_lambda cleanup cb w
       = (inl (Some output),
          launched (mkRequest name folder output sort_lambda cleanup cb)
            ordered (registered name folder output w),
          launch_log name ordered).
Proof.
  intros Ha Hf Hs. rewrite stitch_videos_async_spec. cbv zeta.
  rewrite Ha, Hf. cbn [negb].
  destruct (snapshot_of (fs w) folder) as [|v vs] eqn:E; [congruence|].
  destruct (sequential_order_succeeds name folder output sort_lambda v vs w E)
    as (ordered & Ho & Hp).
  exists ordered. rewrite Ho. auto.
Qed.

Lemma stitch_videos_async_accepted name folder output sort_lambda cleanup cb w :
  value_of (stitch_videos_async name folder output sort_lambda cleanup cb w)
  = inl (Some output) ->
  StitchManager.is_stitching (active_stitches w) name = false
  /\ folder_ok (fs w) folder = true
  /\ snapshot_of (fs w) folder <> [].
Proof.
  rewrite stitch_videos_async_spec. cbv zeta.
  destruct (StitchManager.is_stitching (active_stitches w) name);
    [discriminate|].
  destruct (folder_ok (fs w) folder); [|discriminate]. cbn [negb].
  destruct (snapshot_of (fs w) folder); [discriminate|].
  intros _. repeat split. discriminate.
Qed.

Lemma permutation_elem_of {A} (l k : list A) (x : A) :
  Permutation l k -> x ∈ k <-> x ∈ l.
Proof.
  intros Hp. rewrite !list_elem_of_In. split; apply Permutation_in;
    [symmetry|]; exact Hp.
Qed.

Lemma order_videos_same_files folder sort_lambda vids w1 w2 :
  fs w1 = fs w2 ->
  Forall (fun v => is_Some (fs w1 !! PyStr.join folder v)) vids ->
  value_of (order_videos folder sort_lambda vids w1)
  = value_of (order_videos folder sort_lambda vids w2).
Proof.
  intros Hfs Hall. destruct sort_lambda as [k|].
  - rewrite !order_videos_custom. reflexivity.
  - rewrite (order_videos_default folder vids w1 Hall).
    rewrite Hfs in Hall.
    rewrite (order_videos_default folder vids w2 Hall), Hfs. reflexivity.
Qed.

Lemma stitch_videos_async_files name folder output sort_lambda cleanup cb w :
  fs (world_of
        (stitch_videos_async name folder output sort_lambda cleanup cb w))
  = fs w.
Proof.
  rewrite stitch_videos_async_spec. cbv zeta.
  destruct (StitchManager.is_stitching (active_stitches w) name);
    [reflexivity|].
  destruct (folder_ok (fs w) folder); [|reflexivity]. cbn [negb].
  destruct (snapshot_of (fs w) folder) as [|v vs]; [reflexivity|].
  destruct (order_videos _ _ _ _) as [[[ordered|e] w'] evs]; reflexivity.
Qed.

Lemma stitch_videos_async_registry
    name folder output sort_lambda cleanup cb w m :
  m <> name ->
  active_stitches
    (world_of (stitch_videos_async name folder output sort_lambda cleanup cb w))
    !! m
  = active_stitches w !! m.
Proof.
  intros Hm. rewrite stitch_videos_async_spec. cbv zeta.
  destruct (StitchManager.is_stitching (active_stitches w) name);
    [reflexivity|].
  destruct (folder_ok (fs w) folder); [|reflexivity]. cbn [negb].
  destruct (snapshot_of (fs w) folder) as [|v vs]; [reflexivity|].
  destruct (order_videos _ _ _ _) as [[[ordered|e] w'] evs];
    unfold world_of; simpl; apply lookup_insert_ne; congruence.
Qed.

Lemma stitch_videos_async_same name folder output sort_lambda cleanup cb w1 w :
  fs w1 = fs w ->
  active_stitches w1 !! name = active_stitches w !! name ->
  let submit := stitch_videos_async name folder output sort_lambda cleanup cb in
  value_of (submit w1) = value_of (submit w)
  /\ events_of (submit w1) = events_of (submit w).
Proof.
  intros Hfs Hreg. cbv zeta. rewrite !stitch_videos_async_spec. cbv zeta.
  unfold StitchManager.is_stitching. rewrite Hreg, Hfs.
  destruct (bool_decide (is_Some (active_stitches w !! name)));
    [split; reflexivity|].
  destruct (folder_ok (fs w) folder); [|split; reflexivity]. cbn [negb].
  destruct (snapshot_of (fs w) folder) as [|v vs] eqn:Hs; [split; reflexivity|].
  destruct (sequential_order_succeeds name folder output sort_lambda v vs w Hs)
    as (ordered & Ho & _).
  assert (Hs1 : snapshot_of (fs w1) folder = v :: vs)
    by (rewrite Hfs; exact Hs).
  destruct (sequential_order_succeeds name folder output sort_lambda v vs w1
              Hs1) as (ordered1 & Ho1 & _).
  pose proof (order_videos_same_files folder sort_lambda (v :: vs)
                (registered name folder output w1)
                (registered name folder output w)) as Hsame.
  rewrite Ho, Ho1 in Hsame |- *. unfold value_of in Hsame.
  cbn [fst snd] in Hsame.
  assert (Heq : ordered1 = ordered).
  { assert (H : @inl (list string) exn ordered1 = inl ordered).
    { apply Hsame; [exact Hfs|]. simpl. rewrite <- Hs1.
      apply snapshot_exists. }
    congruence. }
  subst ordered1. split; reflexivity.
Qed.

(** X17: an accepted submission starts one worker, on the names of the
    snapshot: none missing, none added, none twice; it logs the header
    and then the names in the very order the worker is given, and changes
    no file. *)
Theorem worker_gets_each_video_once
    (name folder output : string) (sort_lambda : option KeyFn)
    (cleanup : bool) (cb : option (string -> option string)) (w : World) :
  let r := stitch_videos_async name folder output sort_lambda cleanup cb w in
  value_of r = inl (Some output) ->
  exists ordered,
    threads (world_of r)
    = threads w ++ [(mkTask name folder output ordered cleanup cb, Ready)]
    /\ ordered <> []
    /\ NoDup ordered
    /\ (forall v, v ∈ ordered <-> v ∈ snapshot_of (fs w) folder)
    /\ events_of r = launch_log name ordered
    /\ fs (world_of r) = fs w.
Proof.
  cbv zeta. intros H.
  destruct (stitch_videos_async_accepted _ _ _ _ _ _ _ H) as (Ha & Hf & Hs).
  destruct (stitch_videos_async_accepts name folder output sort_lambda
              cleanup cb w Ha Hf Hs) as (ordered & _ & Hp & ->).
  exists ordered. unfold world_of, events_of. cbn [fst snd].
  split; [reflexivity|]. split.
  { intros ->. apply Hs. apply Permutation_nil. symmetry. exact Hp. }
  split.
  { rewrite <- Hp. apply snapshot_NoDup. }
  split; [intros v; apply permutation_elem_of; exact Hp|].
  split; reflexivity.
Qed.

Lemma worker_gets_each_video_once_witness :
  let r := stitch_videos_async "demo" "/clips" "/out/demo.mp4" None true None
             sample_world in
  exists ordered,
    threads (world_of r)
    = threads sample_world
      ++ [(mkTask "demo" "/clips" "/out/demo.mp4" ordered true None, Ready)]
    /\ ordered <> []
    /\ NoDup ordered
    /\ (forall v,
          v ∈ ordered <-> v ∈ snapshot_of (fs sample_world) "/clips")
    /\ events_of r = launch_log "demo" ordered
    /\ fs (world_of r) = fs sample_world.
Proof.
  apply (worker_gets_each_video_once "demo" "/clips" "/out/demo.mp4" None true
           None sample_world).
  vm_compute. reflexivity.
Defined.

(** X18: a job under one name does not stand in the way of another name:
    whether or not a submission under [name] has just been accepted, a
    submission under a different name returns and logs the same; and a
    worker ending under one name leaves the activity of every other name
    as it was. *)
Theorem other_names_are_not_blocked
    (name folder output : string) (sort_lambda : option KeyFn)
    (cleanup : bool) (cb : option (string -> option string))
    (name' folder' output' : string) (sort_lambda' : option KeyFn)
    (cleanup' : bool) (cb' : option (string -> option string))
    (env : Env) (t : Task) (w : World) :
  let w1 :=
    world_of
      (stitch_videos_async name folder output sort_lambda cleanup cb w) in
  let submit' := stitch_videos_async name' folder' output' sort_lambda'
                   cleanup' cb' in
  name' <> name ->
  value_of (submit' w1) = value_of (submit' w)
  /\ events_of (submit' w1) = events_of (submit' w)
  /\ (t_name t <> name' ->
      StitchManager.is_stitching
        (active_stitches (world_of (process_videos env t w))) name'
      = StitchManager.is_stitching (active_stitches w) name').
Proof.
  cbv zeta. intros Hne.
  pose proof (stitch_videos_async_files name folder output sort_lambda
                cleanup cb w) as Hfs.
  pose proof (stitch_videos_async_registry name folder output sort_lambda
                cleanup cb w name' Hne) as Hreg.
  destruct (stitch_videos_async_same name' folder' output' sort_lambda'
              cleanup' cb' _ w Hfs Hreg) as [Hv He].
  split; [exact Hv|]. split; [exact He|].
  intros Ht. destruct (process_videos_run env t w) as (w' & evs & -> & _).
  unfold world_of. simpl. unfold StitchManager.is_stitching.
  rewrite lookup_delete_ne by congruence. reflexivity.
Qed.

Lemma other_names_are_not_blocked_witness :
  let w1 :=
    world_of (stitch_videos_async "demo" "/clips" "/out/demo.mp4" None true
                None sample_world) in
  let submit' := stitch_videos_async "other" "/clips" "/out/other.mp4" None
                   false None in
  value_of (submit' w1) = value_of (submit' sample_world)
  /\ events_of (submit' w1) = events_of (submit' sample_world)
  /\ (t_name sample_task <> "other" ->
      StitchManager.is_stitching
        (active_stitches (world_of (process_videos env_ok sample_task
                                      sample_world))) "other"
      = StitchManager.is_stitching (active_stitches sample_world) "other").
Proof.
  apply (other_names_are_not_blocked "demo" "/clips" "/out/demo.mp4" None true
           None "other" "/clips" "/out/other.mp4" None false None env_ok
           sample_task sample_world).
  discriminate.
Defined.

(** X19: the names the worker writes into the list file are those listed
    when the job was submitted, whatever has become of the files by the
    time it runs: a file that appears in the folder later is not in the
    list. *)
Theorem files_added_later_are_not_stitched
    (env : Env) (name folder output : string) (sort_lambda : option KeyFn)
    (cleanup : bool) (cb : option (string -> option string))
    (w : World) (fs' : filesystem) :
  let r := stitch_videos_async name folder output sort_lambda cleanup cb w in
  value_of r = inl (Some output) ->
  exists t,
    threads (world_of r) = threads w ++ [(t, Ready)]
    /\ (forall v, v ∈ t_videos t <-> v ∈ snapshot_of (fs w) folder)
    /\ writes (events_of (process_videos env t (set_fs fs' (world_of r))))
       = if writable env fs' (list_file_path folder name)
         then [(list_file_path folder name, list_data folder (t_videos t))]
         else [].
Proof.
  cbv zeta. intros H.
  destruct (stitch_videos_async_accepted _ _ _ _ _ _ _ H) as (Ha & Hf & Hs).
  destruct (stitch_videos_async_accepts name folder output sort_lambda
              cleanup cb w Ha Hf Hs) as (ordered & _ & Hp & ->).
  exists (mkTask name folder output ordered cleanup cb).
  unfold world_of. cbn [fst snd].
  split; [reflexivity|].
  split; [intros v; apply permutation_elem_of; exact Hp|].
  match goal with
  | |- context [process_videos env ?t ?w0] =>
      destruct (process_videos_run env t w0) as (w' & evs & -> & Hpath)
  end.
  unfold events_of. cbn [snd].
  apply (worker_path_writes _ _ _ _ _ Hpath).
Qed.

Lemma files_added_later_are_not_stitched_witness :
  let fs' := <["/clips/late.mp4" := File 20 "L"]> sample_fs in
  let r := stitch_videos_async "demo" "/clips" "/out/demo.mp4" None true None
             sample_world in
  exists t,
    threads (world_of r) = threads sample_world ++ [(t, Ready)]
    /\ (forall v,
          v ∈ t_videos t <-> v ∈ snapshot_of (fs sample_world) "/clips")
    /\ writes (events_of (process_videos env_ok t (set_fs fs' (world_of r))))
       = if writable env_ok fs' (list_file_path "/clips" "demo")
         then [(list_file_path "/clips" "demo",
                list_data "/clips" (t_videos t))]
         else [].
Proof.
  apply (files_added_later_are_not_stitched env_ok "demo" "/clips"
           "/out/demo.mp4" None true None sample_world
           (<["/clips/late.mp4" := File 20 "L"]> sample_fs)).
  vm_compute. reflexivity.
Defined.

(** X20: while the worker of an accepted submission has not run, every
    further submission of the name is turned away with the warning
    [Already stitching]; once it has run, the registry is as it was before
    the submission and the name is no longer turned away: a further
    submission is accepted only for a folder that is valid and holds
    videos, and for such a folder it registers the name again and does
    not return [None]. *)
Theorem name_is_free_again_after_the_worker
    (env : Env) (name folder output : string) (sort_lambda : option KeyFn)
    (cleanup : bool) (cb : option (string -> option string)) (w : World) :
  let r := stitch_videos_async name folder output sort_lambda cleanup cb w in
  value_of r = inl (Some output) ->
  exists t,
    threads (world_of r) = threads w ++ [(t, Ready)]
    /\ (forall folder' output' sort_lambda' cleanup' cb',
          stitch_videos_async name folder' output' sort_lambda' cleanup' cb'
            (world_of r)
          = (inl None, world_of r,
             [EvLog LOG_WARNING
                ("Already stitching compilation '" +:+ name +:+
                 "'. Skipping request.")]))
    /\ let w2 := world_of (process_videos env t (world_of r)) in
       active_stitches w2 = active_stitches w
       /\ forall folder' output' sort_lambda' cleanup' cb',
            let r' := stitch_videos_async name folder' output' sort_lambda'
                        cleanup' cb' w2 in
            (value_of r' = inl (Some output') ->
             folder_ok (fs w2) folder' = true
             /\ snapshot_of (fs w2) folder' <> [])
            /\ (folder_ok (fs w2) folder' = true ->
                snapshot_of (fs w2) folder' <> [] ->
                value_of r' <> inl None
                /\ active_stitches (world_of r') !! name
                   = Some (mkJob (clock w2) folder' output' "started")).
Proof.
  cbv zeta. intros H.
  destruct (stitch_videos_async_accepted _ _ _ _ _ _ _ H) as (Ha & Hf & Hs).
  revert H. rewrite stitch_videos_async_spec. cbv zeta.
  rewrite Ha, Hf. cbn [negb].
  destruct (snapshot_of (fs w) folder) as [|v vs]; [congruence|].
  destruct (order_videos folder sort_lambda (v :: vs)
              (registered name folder output w)) as [[[ordered|e] wo] evo];
    [|discriminate].
  intros _. exists (mkTask name folder output ordered cleanup cb).
  unfold world_of. cbn [fst snd].
  split; [reflexivity|]. split.
  { intros folder' output' k' c' cb'. rewrite stitch_videos_async_spec.
    cbv zeta. simpl active_stitches.
    unfold StitchManager.is_stitching. rewrite lookup_insert_eq.
    rewrite bool_decide_eq_true_2 by eauto. reflexivity. }
  match goal with
  | |- context [process_videos env ?t ?w0] =>
      destruct (process_videos_run env t w0) as (w' & evs & -> & Hpath)
  end.
  cbn [fst snd t_name]. simpl active_stitches.
  rewrite (delete_insert_id (active_stitches w) name)
    by (apply is_stitching_false; exact Ha).
  set (w2 := set_registry (active_stitches w) w').
  split; [reflexivity|].
  intros folder' output' k' c' cb'. split.
  - intros H'. apply stitch_videos_async_accepted in H' as (_ & Hf' & Hs').
    split; assumption.
  - intros Hf' Hs'. rewrite stitch_videos_async_spec. cbv zeta.
    change (active_stitches w2) with (active_stitches w).
    rewrite Ha, Hf'. cbn [negb].
    destruct (snapshot_of (fs w2) folder') as [|v' vs']; [congruence|].
    destruct (order_videos _ _ _ _) as [[[ordered'|e'] wo'] evo'];
      unfold value_of; cbn [fst snd]; simpl active_stitches;
      (split; [discriminate | apply lookup_insert_eq]).
Qed.

Lemma name_is_free_again_after_the_worker_witness :
  let name := "demo" in
  let r := stitch_videos_async name "/clips" "/out/demo.mp4" None false None
             sample_world in
  exists t,
    threads (world_of r) = threads sample_world ++ [(t, Ready)]
    /\ (forall folder' output' sort_lambda' cleanup' cb',
          stitch_videos_async name folder' output' sort_lambda' cleanup' cb'
            (world_of r)
          = (inl None, world_of r,
             [EvLog LOG_WARNING
                ("Already stitching compilation '" +:+ name +:+
                 "'. Skipping request.")]))
    /\ let w2 := world_of (process_videos env_ok t (world_of r)) in
       active_stitches w2 = active_stitches sample_world
       /\ forall folder' output' sort_lambda' cleanup' cb',
            let r' := stitch_videos_async name folder' output' sort_lambda'
                        cleanup' cb' w2 in
            (value_of r' = inl (Some output') ->
             folder_ok (fs w2) folder' = true
             /\ snapshot_of (fs w2) folder' <> [])
            /\ (folder_ok (fs w2) folder' = true ->
                snapshot_of (fs w2) folder' <> [] ->
                value_of r' <> inl None
                /\ active_stitches (world_of r') !! name
                   = Some (mkJob (clock w2) folder' output' "started")).
Proof.
  apply (name_is_free_again_after_the_worker env_ok "demo" "/clips"
           "/out/demo.mp4" None false None sample_world).
  vm_compute. reflexivity.
Defined.

Lemma txt_is_not_mp4 (a b : string) : a +:+ ".txt" <> b +:+ ".mp4".
Proof.
  intros H. apply (f_equal String.rev) in H.
  rewrite !string_rev_append in H. discriminate.
Qed.

(** X25: the list file of a job is none of the files of a snapshot of its
    folder, so writing it overwrites no source and removing it removes
    none; and a list file left in the folder is not taken for a video by a
    later submission. *)
Theorem list_file_is_never_a_source
    (f : filesystem) (folder name : string) :
  (forall v, v ∈ snapshot_of f folder ->
             PyStr.join folder v <> list_file_path folder name)
  /\ (("file_list_" +:+ name +:+ ".txt") ∉ snapshot_of f folder)
  /\ is_mp4 ("file_list_" +:+ name +:+ ".txt") = false.
Proof.
  assert (Hno : forall stem,
            "file_list_" +:+ name +:+ ".txt" <> stem +:+ ".mp4").
  { intros stem. rewrite <- append_assoc. apply txt_is_not_mp4. }
  split; [|split].
  - intros v Hv. apply snapshot_spec in Hv as ([stem ->] & Hc & _).
    unfold list_file_path.
    rewrite join_relative by (apply plain_is_relative; exact Hc).
    rewrite join_relative by apply list_file_name_relative.
    intros H. apply (inj (String.append (dir_prefix folder))) in H.
    symmetry in H. exact (Hno _ H).
  - intros H. apply snapshot_spec in H as ([stem H] & _). exact (Hno _ H).
  - destruct (is_mp4 _) eqn:E; [|reflexivity].
    apply is_mp4_spec in E as [stem E]. exfalso. exact (Hno _ E).
Qed.

(** X26: the only paths a job hands to [os.remove] are its list file and
    files that were listed, directly inside the folder, when the job was
    submitted, whatever the folder holds when the worker runs. *)
Theorem only_listed_files_are_removed
    (env : Env) (name folder output : string) (sort_lambda : option KeyFn)
    (cleanup : bool) (cb : option (string -> option string))
    (w : World) (fs' : filesystem) :
  let r := stitch_videos_async name folder output sort_lambda cleanup cb w in
  value_of r = inl (Some output) ->
  exists t,
    threads (world_of r) = threads w ++ [(t, Ready)]
    /\ forall p,
         p ∈ removals (events_of (process_videos env t
                                    (set_fs fs' (world_of r)))) ->
         p = list_file_path folder name
         \/ exists v, v ∈ snapshot_of (fs w) folder
                      /\ p = PyStr.join folder v
                      /\ entry_name folder p = Some v.
Proof.
  cbv zeta. intros H.
  destruct (stitch_videos_async_accepted _ _ _ _ _ _ _ H) as (Ha & Hf & Hs).
  destruct (stitch_videos_async_accepts name folder output sort_lambda
              cleanup cb w Ha Hf Hs) as (ordered & _ & Hp & ->).
  exists (mkTask name folder output ordered cleanup cb).
  unfold world_of. cbn [fst snd].
  split; [reflexivity|]. intros p.
  match goal with
  | |- context [process_videos env ?t ?w0] =>
      destruct (process_videos_run env t w0) as (w' & evs & -> & Hpath)
  end.
  unfold events_of. cbn [snd].
  rewrite (worker_path_removals _ _ _ _ _ Hpath).
  cbn [t_folder t_name t_videos].
  destruct (tool_succeeded evs); [|intros Hin; inversion Hin].
  rewrite elem_of_app, list_elem_of_singleton.
  intros [Hin | ->]; [|left; reflexivity].
  right. destruct (deletes_sources _); [|inversion Hin].
  apply list_elem_of_fmap in Hin as (v & -> & Hv).
  apply (permutation_elem_of _ _ _ Hp) in Hv.
  exists v. split; [exact Hv|]. split; [reflexivity|].
  apply snapshot_spec in Hv as ([stem ->] & Hc & _).
  apply entry_name_complete; [destruct stem; discriminate | exact Hc].
Qed.

Lemma only_listed_files_are_removed_witness :
  let fs' := <["/clips/late.mp4" := File 20 "L"]> sample_fs in
  let r := stitch_videos_async "demo" "/clips" "/out/demo.mp4" None true None
             sample_world in
  exists t,
    threads (world_of r) = threads sample_world ++ [(t, Ready)]
    /\ forall p,
         p ∈ removals (events_of (process_videos env_ok t
                                    (set_fs fs' (world_of r)))) ->
         p = list_file_path "/clips" "demo"
         \/ exists v, v ∈ snapshot_of (fs sample_world) "/clips"
                      /\ p = PyStr.join "/clips" v
                      /\ entry_name "/clips" p = Some v.
Proof.
  apply (only_listed_files_are_removed env_ok "demo" "/clips" "/out/demo.mp4"
           None true None sample_world
           (<["/clips/late.mp4" := File 20 "L"]> sample_fs)).
  vm_compute. reflexivity.
Defined.

(** ** The command line *)

Lemma admissible_spec w name folder :
  admissible w name folder = true <->
  StitchManager.is_stitching (active_stitches w) name = false
  /\ folder_ok (fs w) folder = true
  /\ snapshot_of (fs w) folder <> [].
Proof.
  unfold admissible. rewrite !andb_true_iff, negb_true_iff.
  destruct (snapshot_of (fs w) folder); split.
  - intros [_ H]. discriminate.
  - intros (_ & _ & H). congruence.
  - intros [[H1 H2] _]. repeat split; [assumption..|discriminate].
  - intros (H1 & H2 & _). auto.
Qed.

Lemma stitch_videos_async_rejects name folder output sort_lambda cleanup cb w :
  admissible w name folder = false ->
  exists evs,
    stitch_videos_async name folder output sort_lambda cleanup cb w
    = (inl None, w, evs).
Proof.
  unfold admissible. rewrite stitch_videos_async_spec. cbv zeta.
  destruct (StitchManager.is_stitching (active_stitches w) name);
    [eauto|].
  destruct (folder_ok (fs w) folder); [|eauto]. cbn [negb andb].
  destruct (snapshot_of (fs w) folder); [eauto | discriminate].
Qed.

(** X21: without a folder argument [main] prints the usage line and exits
    with status 1, having done nothing else.  With one it submits the job
    [test] with the folder as the output path too, the default order and
    the cleanup on, ignoring further arguments, and does nothing else to
    the world or the log.  An exception of the submission leaves [main];
    a submission that returns [None] makes it print that stitching failed
    to start; one that returns a path returns the folder, and [main]
    prints that stitching has started (unless the folder is the empty
    string) and returns while the worker, started on the snapshot in the
    order of the modification times, has yet to run. *)
Theorem main_submits_the_folder_as_test (argv : list string) (w : World) :
  let r := main argv w in
  let folder := nth 1 argv "" in
  let s := stitch_videos_async "test" folder folder None true None w in
  ((length argv < 2)%nat ->
   r = (inl (mkMain ["Usage: python stitch_videos.py <folder_path>"] (Some 1)),
        w, []))
  /\ ((2 <= length argv)%nat ->
      world_of r = world_of s
      /\ events_of r = events_of s
      /\ (forall e, value_of s = inr e -> value_of r = inr e)
      /\ (value_of s = inl None ->
          value_of r = inl (mkMain ["Failed to start video stitching."] None))
      /\ (forall p, value_of s = inl (Some p) ->
          p = folder
          /\ value_of r
             = inl (mkMain
                      (if truthy (Some folder)
                       then ["Stitching videos into " +:+ folder;
                             "Process running in background. Check logs for completion."]
                       else ["Failed to start video stitching."]) None)
          /\ exists ordered,
               Permutation (snapshot_of (fs w) folder) ordered
               /\ StronglySorted
                    (fun a b =>
                       mtime_of (fs w) folder a <= mtime_of (fs w) folder b)
                    ordered
               /\ threads (world_of r)
                  = threads w
                    ++ [(mkTask "test" folder folder ordered true None, Ready)]
               /\ active_stitches (world_of r)
                  = <["test" := mkJob (clock w) folder folder "started"]>
                      (active_stitches w)
               /\ fs (world_of r) = fs w)
      /\ (admissible w "test" folder = false ->
          value_of s = inl None /\ world_of r = w)).
Proof.
  cbv zeta. split.
  { intros Hl. unfold main. apply Nat.ltb_lt in Hl. rewrite Hl. reflexivity. }
  intros Hl. destruct (admissible w "test" (nth 1 argv "")) eqn:Hadm.
  - apply admissible_spec in Hadm as (Ha & Hf & Hs).
    destruct (stitch_videos_async_accepts "test" (nth 1 argv "") (nth 1 argv "")
                None true None w Ha Hf Hs) as (ordered & Ho & Hp & Hr).
    unfold main. apply Nat.ltb_ge in Hl. rewrite Hl.
    rewrite (bind_ok _ _ _ _ _ _ Hr), Hr. cbv beta.
    assert (Hsorted : StronglySorted
                        (fun a b =>
                           mtime_of (fs w) (nth 1 argv "") a
                           <= mtime_of (fs w) (nth 1 argv "") b) ordered).
    { rewrite order_videos_default in Ho
        by (apply (snapshot_exists (fs w) (nth 1 argv ""))).
      injection Ho as <-.
      apply (sort_stable_sorted (mtime_of (fs w) (nth 1 argv ""))). }
    destruct (truthy (Some (nth 1 argv ""))); unfold ret, prepend;
      unfold value_of, world_of, events_of; cbn [fst snd];
      (split; [reflexivity|]); (split; [apply app_nil_r|]);
      (split; [discriminate|]); (split; [discriminate|]);
      (split; [|discriminate]);
      intros p [= <-]; (split; [reflexivity|]); (split; [reflexivity|]);
      exists ordered; (split; [exact Hp|]); (split; [exact Hsorted|]);
      repeat split.
  - unfold main. apply Nat.ltb_ge in Hl. rewrite Hl.
    destruct (stitch_videos_async_rejects "test" (nth 1 argv "")
                (nth 1 argv "") None true None w Hadm) as (evs & Hr).
    rewrite (bind_ok _ _ _ _ _ _ Hr), Hr. cbv beta.
    unfold value_of, world_of, events_of. cbn [fst snd truthy].
    split; [reflexivity|]. split; [apply app_nil_r|].
    split; [discriminate|]. split; [reflexivity|].
    split; [discriminate|]. intros _. split; reflexivity.
Qed.

(** ** Interleavings, further *)

Lemma raised_persists env t s i r e :
  sys_subs s !! i = Some (r, Raised e) ->
  sys_subs (step env t s) !! i = Some (r, Raised e).
Proof.
  intros Hi. destruct t as [j|j].
  - destruct (sys_subs s !! j) as [[r' pc]|] eqn:E.
    2:{ unfold step. rewrite E. exact Hi. }
    destruct (decide (i = j)) as [->|Hne].
    + rewrite Hi in E. injection E as <- <-.
      unfold step. rewrite Hi. cbn [submit_phase]. unfold ret.
      cbn [sys_subs pc_of]. apply list_lookup_insert_eq.
      eapply lookup_lt_Some. exact Hi.
    + destruct (step_sub env j s r' pc E) as (pc' & w' & ev & -> & _).
      cbn [sys_subs]. rewrite list_lookup_insert_ne by congruence. exact Hi.
  - destruct (step_wrk env j s)
      as [(t & w' & ev & _ & _ & ->) | [(t & _ & ->) | ->]]; exact Hi.
Qed.

Lemma count_two {A} (p : A -> bool) (l : list A) i j x y z :
  l !! i = Some x -> l !! j = Some y -> i <> j ->
  p x = true -> p y = true -> p z = false ->
  (2 <= count p l)%nat.
Proof.
  intros Hi Hj Hne Hx Hy Hz.
  pose proof (count_insert p l i x z Hi) as Hc. rewrite Hx, Hz in Hc.
  assert (Hj' : <[i := z]> l !! j = Some y)
    by (rewrite list_lookup_insert_ne by exact Hne; exact Hj).
  pose proof (count_positive p _ j y Hj' Hy) as Hpos.
  simpl in Hc. lia.
Qed.

Lemma accepted_frozen_after_raise env n t s i r e :
  owned n s ->
  sys_subs s !! i = Some (r, Raised e) ->
  count is_accepted (sys_subs (step env t s)) = count is_accepted (sys_subs s).
Proof.
  intros Ho Hi. destruct t as [j|j].
  2:{ destruct (step_wrk env j s)
        as [(t & w' & ev & _ & _ & ->) | [(t & _ & ->) | ->]]; reflexivity. }
  destruct (sys_subs s !! j) as [[r' pc]|] eqn:E.
  2:{ unfold step. rewrite E. reflexivity. }
  destruct (step_sub env j s r' pc E) as (pc' & w' & ev & -> & Htr).
  cbn [sys_subs].
  pose proof (count_insert is_accepted _ j _ (r', pc') E) as Hc.
  assert (Hsame : is_accepted (r', pc) = is_accepted (r', pc')).
  { inversion Htr; subst; try reflexivity.
    exfalso.
    assert (Hij : i <> j) by (intros ->; rewrite Hi in E; discriminate).
    pose proof (count_two is_holder (sys_subs s) i j _ _ (r, AtCheck)
                  Hi E Hij eq_refl eq_refl eq_refl) as H2.
    destruct Ho as [_ _ Hone _].
    pose proof (b2n_cases (StitchManager.is_stitching
                             (active_stitches (sys_world s)) n)) as Hb.
    lia. }
  rewrite Hsame in Hc. lia.
Qed.

Lemma raised_run env n sched : forall s i r e,
  owned n s ->
  sys_subs s !! i = Some (r, Raised e) ->
  sys_subs (run env sched s) !! i = Some (r, Raised e)
  /\ count is_accepted (sys_subs (run env sched s))
     = count is_accepted (sys_subs s).
Proof.
  unfold run. induction sched as [|t sched IH]; intros s i r e Ho Hi; [auto|].
  simpl.
  destruct (IH (step env t s) i r e) as [H1 H2].
  - apply owned_step. exact Ho.
  - apply raised_persists. exact Hi.
  - split; [exact H1|]. rewrite H2.
    eapply accepted_frozen_after_raise; eassumption.
Qed.

(** X23: among submissions of one name, interleaved in any way with each
    other and with their workers, there are as many workers as accepted
    submissions, all under that name, and the name is registered exactly
    when it has an owner, which is then the only one: a submission past
    its registration that has not started its worker (or raised there),
    or a worker that has not ended. *)
Theorem registry_entry_has_exactly_one_owner
    (env : Env) (n : string) (w : World) (rs : list Request)
    (sched : list tid) :
  Forall (fun r => r_name r = n) rs ->
  threads w = [] ->
  StitchManager.is_stitching (active_stitches w) n = false ->
  let s := run env sched (start w rs) in
  let owners :=
    (count is_holder (sys_subs s)
     + count is_live (threads (sys_world s)))%nat in
  length (threads (sys_world s)) = count is_accepted (sys_subs s)
  /\ Forall (fun x => t_name (fst x) = n) (threads (sys_world s))
  /\ (StitchManager.is_stitching (active_stitches (sys_world s)) n = true
      <-> owners = 1%nat)
  /\ (StitchManager.is_stitching (active_stitches (sys_world s)) n = false
      <-> owners = 0%nat).
Proof.
  intros Hn Ht Ha. cbv zeta.
  destruct (owned_run env n sched _ (owned_start n w rs Hn Ht Ha))
    as [_ Htasks Hone Hacc].
  split; [symmetry; exact Hacc|]. split; [exact Htasks|].
  rewrite Hone. clear Ha Hone.
  destruct (StitchManager.is_stitching _ n); cbn [b2n];
    split; split; intros H; try reflexivity; try discriminate.
Qed.

Lemma registry_entry_has_exactly_one_owner_witness :
  let s := run env_ok [Sub 0; Sub 0; Sub 0; Sub 1; Sub 0; Wrk 0]
             (start sample_world [demo_request; demo_request]) in
  let owners :=
    (count is_holder (sys_subs s)
     + count is_live (threads (sys_world s)))%nat in
  length (threads (sys_world s)) = count is_accepted (sys_subs s)
  /\ Forall (fun x => t_name (fst x) = "demo") (threads (sys_world s))
  /\ (StitchManager.is_stitching (active_stitches (sys_world s)) "demo" = true
      <-> owners = 1%nat)
  /\ (StitchManager.is_stitching (active_stitches (sys_world s)) "demo" = false
      <-> owners = 0%nat).
Proof.
  apply (registry_entry_has_exactly_one_owner env_ok "demo" sample_world
           [demo_request; demo_request]
           [Sub 0; Sub 0; Sub 0; Sub 1; Sub 0; Wrk 0]).
  - repeat constructor.
  - reflexivity.
  - vm_compute. reflexivity.
Defined.

(** X24: once a submission has raised past its registration the name
    stays registered whatever runs afterwards: no worker is there to
    release it, the submission stays as it is, and no further submission
    of the name is accepted or starts a worker. *)
Theorem raised_submission_keeps_the_name_for_good
    (env : Env) (n : string) (w : World) (rs : list Request)
    (sched sched' : list tid) (i : nat) (r : Request) (e : exn) :
  Forall (fun r => r_name r = n) rs ->
  threads w = [] ->
  StitchManager.is_stitching (active_stitches w) n = false ->
  let s := run env sched (start w rs) in
  sys_subs s !! i = Some (r, Raised e) ->
  let s' := run env sched' s in
  sys_subs s' !! i = Some (r, Raised e)
  /\ StitchManager.is_stitching (active_stitches (sys_world s')) n = true
  /\ count is_live (threads (sys_world s')) = 0%nat
  /\ count is_accepted (sys_subs s') = count is_accepted (sys_subs s)
  /\ length (threads (sys_world s')) = length (threads (sys_world s)).
Proof.
  intros Hn Ht Ha. cbv zeta. intros Hi.
  pose proof (owned_run env n sched _ (owned_start n w rs Hn Ht Ha)) as Ho.
  destruct (raised_run env n sched' _ i r e Ho Hi) as [Hi' Hacc].
  pose proof (owned_run env n sched' _ Ho) as Ho'.
  destruct Ho as [_ _ _ Hth]. destruct Ho' as [_ _ Hone Hth'].
  pose proof (count_positive is_holder _ i _ Hi' eq_refl) as Hpos.
  split; [exact Hi'|]. clear Ha.
  destruct (StitchManager.is_stitching _ n) eqn:Est; cbn [b2n] in Hone.
  - split; [reflexivity|]. split; [lia|]. split; [exact Hacc|].
    rewrite <- Hth, <- Hth'. exact Hacc.
  - exfalso. lia.
Qed.

Lemma raised_submission_keeps_the_name_for_good_witness :
  let rs := [demo_request; demo_request; demo_request] in
  let e := Exception "[Errno 2] No such file or directory: '/clips/a.mp4'" in
  let s := run env_ok vanishing_schedule (start sample_world rs) in
  let s' := run env_ok [Sub 2; Sub 2; Wrk 0; Sub 2] s in
  sys_subs s' !! 1%nat = Some (demo_request, Raised e)
  /\ StitchManager.is_stitching (active_stitches (sys_world s')) "demo" = true
  /\ count is_live (threads (sys_world s')) = 0%nat
  /\ count is_accepted (sys_subs s') = count is_accepted (sys_subs s)
  /\ length (threads (sys_world s')) = length (threads (sys_world s)).
Proof.
  apply (raised_submission_keeps_the_name_for_good env_ok "demo" sample_world
           [demo_request; demo_request; demo_request] vanishing_schedule
           [Sub 2; Sub 2; Wrk 0; Sub 2] 1 demo_request
           (Exception "[Errno 2] No such file or directory: '/clips/a.mp4'")).
  - repeat constructor.
  - reflexivity.
  - vm_compute. reflexivity.
  - vm_compute. reflexivity.
Defined.

(** The third submission, made after the second has raised, is turned
    away: the name is taken and no worker is left to release it. *)
Example submission_after_a_raise_is_rejected :
  let s := run env_ok (vanishing_schedule ++ [Sub 2; Sub 2])
             (start sample_world [demo_request; demo_request; demo_request]) in
  map snd (sys_subs s)
  = [Returned (Some "/out/demo.mp4");
     Raised (Exception "[Errno 2] No such file or directory: '/clips/a.mp4'");
     Returned None]
  /\ map snd (threads (sys_world s)) = [Terminated].
Proof. vm_compute. split; reflexivity. Qed.
